(* ===== verification/_CoqProject ===== *)
-Q . S2P
Prelude.v
JsNumber.v
JsString.v
JsDate.v
PriceData.v
BestTime.v
Chart.v
ChargeForm.v
Double.v
Localization.v
PriceFlow.v
Modal.v
Presets.v
Settings.v
Shell.v
