(* ===== verification/Prelude.v ===== *)
(** * A verification development of ev-charge (src/script.js)

    ** The program

    ev-charge is a one-page browser calculator written as one script,
    src/script.js. The form handler [calculateChargingTime] validates five
    fields, computes the energy a charge needs and how long it takes, shows
    that, and calls [fetchAndCalculatePrices]. That function downloads the
    hourly spot prices, and after the [await] flattens them with
    [processPriceData] (future hours only, with a tax refund before
    2026) and hands them to [calculateBestTime]. That function finds the
    cheapest run of [Math.ceil(hours)] consecutive hours, writes its start,
    average price and estimated cost, and calls [renderChart], which
    draws all prices with that run highlighted. Presets of cars, two
    settings checkboxes, the language and a settings modal are UI state
    kept in global variables and in localStorage.

    ** The files, in dependency order

    - Prelude.v (this file): the error monad [res] for code that throws
      (notation [x <- m ;; k] in [evc_scope]), [js_index] for reading a
      property of an array element ([TypeError] on [undefined]), the counted
      loop [for_loop] ([for_upto], [for_below]) with its unrolling lemma,
      [Qltb], [qsum], [window], sorted concatenation, and the hint
      databases [evc] / [evc_rw].
    - JsNumber.v: JavaScript numbers as [Fin q | PosInf | NegInf | NaN]
      over exact rationals, with the operators, comparisons (false on
      NaN) and [Math.ceil/floor/round] the code uses.
    - JsString.v, [Module JsString]: the built-in [parseFloat] (longest
      decimal prefix after white space, [Infinity], signs, exponents) and
      the value sanitization of an [<input type="number">]
      ([is_valid_float], [sanitize]).
    - JsDate.v: Date after the ECMAScript abstract operations: time values
      in milliseconds, a local [zone] (standard offset and daylight-saving
      periods), [LocalTime], [UTC] (earliest instant for a repeated local
      time, the offset before the transition in a skipped hour), [Day],
      [MakeTime], [MakeDate], [MakeDay], [setHours]; fixed-offset zones and
      Copenhagen 2025.
    - PriceData.v, [Module Normalizer]: [processPriceData] (lines
      298-322) as [processPriceData], its inner [forEach] bodies as
      [dayEntries] and [hourEntry]; the record [PricedHour] it produces.
    - BestTime.v, [Module Selector]: [calculateBestTime] (lines 324-353):
      the outer loop state ([bestStartIndex], [minTotalCost] starting at
      [Infinity]) as [scan_state], the inner loop as [window_total], one
      outer iteration as [scan_step], the loop as [scan]; the abstract
      specification [best_window] (minimal cost, earliest among equals).
    - Chart.v, [Module Chart]: [renderChart] (lines 361-415): the hidden
      cases, the colours [bgColors], the configuration handed to Chart.js
      and the [priceChartInstance] global.
    - ChargeForm.v, [Module Form]: [calculateChargingTime] (lines 417-458):
      the two alerts ([invalidValues] holds the second condition), the
      energy, the time, and the hours/minutes text [timeTextOf].
    - Double.v, [Module Double]: the two numeric routines again, in IEEE
      754 double precision on the kernel's primitive floats: the charge
      computation of lines 440-445 ([charge_values],
      [Double.calculateChargingTime]) and the window loop of lines
      326-351 ([Double.scan_step], [Double.calculateBestTime]), with the
      rounding of [+ - * /], overflow to [Infinity] and underflow to 0.
      Comparisons and [Math.floor/ceil/round] read a double's exact value
      ([of_float]) and reuse the definitions of JsNumber and Form.
    - Localization.v, [Module Localization] (stdpp maps): the lookup
      [t.key || fallback] as [tr], the table choice as [tableFor],
      [updateUI] and [detectLanguage] (lines 218-268).
    - PriceFlow.v, [Module PriceFlow]: the page as a [page] record (the
      result and price elements, the chart state, the requests in flight);
      [calculateBestTime_dom] adds the DOM writes and the [renderChart]
      call to [calculateBestTime]; [fetchAndCalculatePrices] is split at
      its [await] into [fetchStart] and [fetchSettle]; [step] is the
      relation whose events are an accepted submission and the answer to
      any request in flight, in any order, and [reachable] its closure from
      [initial_page].
    - Modal.v, [Module Modal]: the [show] class of the settings modal
      under [openSettings], [toggleSettings] and [closeSettings].
    - Presets.v, [Module Presets] (stdpp maps): the object [presets] as
      [presets_obj] (own keys and a replaced prototype, for the
      [__proto__] setter), the page part the preset handlers touch as
      [preset_ui] (localStorage, the dropdown, the car list, the fields,
      the modal, the dialogs shown, and the text of the custom option that
      [updatePresetDropdown] creates anew at line 125), and [updatePresetDropdown],
      [updateCarList], [savePresetsToStorage], [loadPresetsFromStorage],
      [loadPreset], [savePreset], [deletePreset] (lines 81-216).
      [JSON.stringify]/[JSON.parse] are the interface [PresetCodec] (a
      class, with the law that parsing a printed map gives it back); the
      client theorems are proved against it, and [lengthCodec] is an
      instance that discharges it.
    - Settings.v, [Module Settings]: the two checkboxes, their strings in
      localStorage and their reading at start-up (lines 95-112).
    - Shell.v, [Module Shell]: the whole page. [app] joins the states of
      Localization, Presets, Settings and PriceFlow with the two
      state-of-charge fields; [handle] runs the listener of one [event]
      (lines 47-62: modal buttons, preset select, language select,
      checkboxes, save, delete, submit, typing into a field, and the
      answer to the k-th request in flight), [init] is lines 31-45, and
      [reachable] the states [init] leads to. [changeLanguage] (lines
      225-230) and [openSettings] (65-68) live here because they touch
      several components; so does the [error] class of [#targetSoc] that
      an out-of-range submission sets and a 500 ms timer removes
      ([errorTimeout]; the timers are events). The custom option of the
      dropdown is [customOptionText] of the preset part: the text
      [updateUI] writes to it (its entry ["optionCustom"] in [texts]) is
      on the option that the rebuild right after it (lines 44 and 228)
      replaces.

    ** What is proved

    - Selector: the loop refines [best_window]
      ([calculateBestTime_refines]): never a throw for a positive
      duration, "Not enough data" exactly when too few prices, otherwise
      the earliest minimal
      window with its total, average and cost; the proof carries the loop
      invariant [scan_inv] through [for_loop_snoc]. Without the spec's
      lower bound of one slot, an empty list with a duration <= 0 throws
      ([calculateBestTime_empty_nonpositive]).
    - Normalizer: an exact description of the result
      ([processPriceData_spec]); strictly increasing times for sorted days
      in a zone without daylight saving ([processPriceData_sorted]); no
      sorting of unsorted input ([processPriceData_input_order]); a
      duplicate instant on the day daylight saving starts
      ([processPriceData_dst_duplicate]); no effect of the refund box after
      the end date ([processPriceData_refund_expired]).
    - Form: which inputs are accepted ([calculateChargingTime_accepts]),
      the minutes within 0..60
      ([calculateChargingTime_minutes_bound]) with 60 reached
      ([calculateChargingTime_sixty_minutes]).
    - Double: where the browser's doubles and the exact model part, by
      evaluation on the kernel's floats: two windows of equal decimal cost
      that rounding separates, so the code starts an hour later than the
      earliest cheapest window ([calculateBestTime_double_tie]); a
      capacity of 1e308 whose energy overflows to [Infinity], giving
      "Infinity hours" and "Not enough data"
      ([calculateChargingTime_double_overflow]); a time that underflows to
      0 hours, giving "0 minutes" and a zero-hour request
      ([calculateChargingTime_double_underflow]).
    - Chart: the highlight mask ([renderChart_mask]) and the hidden cases
      ([renderChart_hidden]).
    - Price flow: every request in flight of a reachable page has a
      positive duration ([reachable_pending_positive], by induction on
      [reachable]), so a payload never leads to "Error"
      ([reachable_settle_no_error]); the end-to-end content of an answered
      request ([fetchSettle_payload]); the failure path
      ([fetchSettle_failure]); and an old answer arriving last overwrites
      a newer one ([race_stale_result]); "Loading..." only while a
      request is in flight ([reachable_loading_pending]).
    - Presets: [savePreset] on an ordinary name
      ([savePreset_spec]) and on ["__proto__"], which is not saved while
      "Preset saved!" is shown ([savePreset_proto]); deleting the
      selected preset never restores 77/11/90 ([deletePreset_selected]);
      what is saved is read back after a reload
      ([savePresetsToStorage_reload]); a corrupt entry empties the
      presets ([loadPresetsFromStorage_corrupt]).
    - Settings: the checkboxes round-trip through localStorage over
      unchecked defaults ([settings_roundtrip]); one checked in the HTML
      can never be restored unchecked ([loadSetting_cannot_uncheck]).
    - Localization: [updateUI] agrees with the pointwise reference
      [text_after] ([updateUI_spec]): a text the language lacks keeps
      the previous language's.
    - Page (Shell): by induction on [reachable], with the invariant
      [app_inv]: the dropdown and car list are in sync with [presets]
      ([reachable_synced]), the presets survive a reload
      ([reachable_persisted]), the number fields hold sanitized values;
      every event is a stutter or a [PriceFlow.step] of the result area,
      so the composed page refines the price flow ([reachable_price]) and
      its theorems apply to it; the custom option always reads the
      current language's text or the English default
      ([reachable_custom_option]).

    ** Bounds and modelling choices

    There is no fuel: every loop of the code has a bound fixed before it
    starts, and [for_loop] runs exactly that many iterations
    ([Z.to_nat (hi + 1)] for [i <= hi], [Z.to_nat n] for [j < n], none
    when the bound is negative, as in JavaScript), so every model is a
    total function and the theorems about results are unconditional.
    Numbers are exact rationals everywhere but in Double.v: the theorems
    of the other files hold for exact arithmetic, and Double.v shows, on
    concrete inputs, the three ways the browser's doubles depart from it
    on this code (a rounded tie, overflow, underflow). In particular the
    page (Shell) follows the exact model: an accepted charge there always
    has a finite, positive time, which a double need not. The sign of
    zero and the 8.64e15 ms range of Dates are not modelled. The time zone
    model has a standard offset and one-hour daylight-saving periods,
    which covers the Danish zone the service is for. The functions of the
    selector and the normalizer take [now], the zone and the checkboxes as
    arguments where the code reads them from the clock and the page.

    Strings are ASCII: [toLowerCase] and the white space of [parseFloat]
    cover the ASCII characters only. Displayed numbers are kept as
    numbers: the [toFixed(2)] and [toLocaleTimeString] formatting of the
    texts is not modelled. The page's HTML is not in the
    repository: its texts, the two state-of-charge values and the
    checkboxes are the parameter [html_defaults] of [init]; the three
    preset fields start at 77, 11 and 90 ([fresh_page]), the values
    [deletePreset] restores, and the custom option "-- Custom / New --"
    until [loadPresetsFromStorage] rebuilds it. JSON is abstract
    ([PresetCodec]).

    ** Not modelled

    The markup the handlers build (the option and list-item elements, the
    delete icon) and the [scrollIntoView] timer of the form (it moves the
    viewport only) are visual effects. The Chart.js drawing and the Intl
    formatting of [toLocaleTimeString] are library calls; the network is
    an input of [EvSettle]. The element lookups of the [elements] cache
    carry no behaviour. *)

From Stdlib Require Import QArith Qround Lia Lqa List ZArith Sorted.
Import ListNotations.

Declare Scope evc_scope.
Delimit Scope evc_scope with evc.
Open Scope evc_scope.

Create HintDb evc.
Create Rewrite HintDb evc_rw.

(** ** JavaScript exceptions and the error monad *)

(** The exceptions the modelled code can raise: a [TypeError] when a
    property is read from [undefined] (an out-of-range array element), and
    a rejected [fetch] or a failed [response.json()]. *)
Inductive js_exn :=
| TypeError
| FetchError.

Inductive res (A : Type) :=
| Ok (a : A)
| Throw (e : js_exn).
Arguments Ok {A} a.
Arguments Throw {A} e.

Definition res_bind {A B} (m : res A) (k : A -> res B) : res B :=
  match m with
  | Ok a => k a
  | Throw e => Throw e
  end.

Notation "x <- m ;; k" := (res_bind m (fun x => k))
  (at level 100, m at next level, right associativity) : evc_scope.

Lemma res_bind_Ok {A B} (a : A) (k : A -> res B) : res_bind (Ok a) k = k a.
Proof. reflexivity. Qed.

Lemma res_bind_assoc {A B C} (m : res A) (k : A -> res B) (k' : B -> res C) :
  res_bind (res_bind m k) k' = res_bind m (fun a => res_bind (k a) k').
Proof. destruct m; reflexivity. Qed.

#[export] Hint Rewrite @res_bind_Ok @res_bind_assoc : evc_rw.

(** ** Counted loops

    [for_loop body i n s] runs [body i], [body (i+1)], ..., [body (i+n-1)]
    on the state [s], stopping at the first exception: the JavaScript loop
    [for (let k = i; k < i + n; k++) s = body(k, s)] whose bound is fixed
    before the loop starts. *)
Fixpoint for_loop {St} (body : nat -> St -> res St) (i n : nat) (s : St) : res St :=
  match n with
  | O => Ok s
  | S n' => res_bind (body i s) (for_loop body (S i) n')
  end.

(** [for (let k = 0; k <= hi; k++)], with [hi] a JavaScript integer:
    [hi + 1] iterations when [hi >= 0], none otherwise. *)
Definition for_upto {St} (body : nat -> St -> res St) (hi : Z) (s : St) : res St :=
  for_loop body 0 (Z.to_nat (hi + 1)) s.

(** [for (let k = 0; k < n; k++)], with [n] a JavaScript integer. *)
Definition for_below {St} (body : nat -> St -> res St) (n : Z) (s : St) : res St :=
  for_loop body 0 (Z.to_nat n) s.

Lemma res_bind_Ok_r {A} (m : res A) : res_bind m Ok = m.
Proof. destruct m; reflexivity. Qed.

Lemma for_loop_snoc {St} (body : nat -> St -> res St) i n s :
  for_loop body i (S n) s = res_bind (for_loop body i n s) (body (i + n)%nat).
Proof.
  revert i s. induction n as [|n IH]; intros i s.
  - simpl. rewrite Nat.add_0_r, res_bind_Ok_r. reflexivity.
  - change (for_loop body i (S (S n)) s)
      with (res_bind (body i s) (for_loop body (S i) (S n))).
    change (for_loop body i (S n) s)
      with (res_bind (body i s) (for_loop body (S i) n)).
    destruct (body i s) as [s'|e]; cbn [res_bind]; [|reflexivity].
    rewrite IH. do 2 f_equal. lia.
Qed.

(** ** Rationals *)

(** JavaScript's [a < b] on finite numbers. *)
Definition Qltb (a b : Q) : bool := negb (Qle_bool b a).

Lemma Qltb_iff a b : Qltb a b = true <-> a < b.
Proof.
  unfold Qltb. rewrite Bool.negb_true_iff. split; intros H.
  - apply Qnot_le_lt. intros H'. apply Qle_bool_iff in H'. congruence.
  - destruct (Qle_bool b a) eqn:E; [|reflexivity].
    apply Qle_bool_iff in E. exfalso. apply (Qlt_not_le _ _ H E).
Qed.

Lemma Qltb_false a b : Qltb a b = false <-> b <= a.
Proof.
  unfold Qltb. rewrite Bool.negb_false_iff. apply Qle_bool_iff.
Qed.

(** Sum of a list of prices, and the run of [k] entries from [i]. *)
Definition qsum (l : list Q) : Q := fold_right Qplus 0 l.

Definition window {A} (l : list A) (i k : nat) : list A := firstn k (skipn i l).

(** [l[k].f]: reading a property of an array element; [undefined] (an
    index out of range) makes the read throw a [TypeError]. *)
Definition js_index {A} (l : list A) (k : nat) : res A :=
  match nth_error l k with
  | Some x => Ok x
  | None => Throw TypeError
  end.

Lemma js_index_lt {A} (l : list A) k :
  (k < length l)%nat -> exists x, js_index l k = Ok x /\ nth_error l k = Some x.
Proof.
  intros Hk. unfold js_index.
  destruct (nth_error l k) as [x|] eqn:E; [eauto|].
  apply nth_error_None in E. lia.
Qed.

Lemma js_index_ge {A} (l : list A) k :
  (length l <= k)%nat -> js_index l k = Throw TypeError.
Proof. intros Hk. unfold js_index. now rewrite (proj2 (nth_error_None l k) Hk). Qed.

(** ** Runs of a list *)

Lemma skipn_cons_nth {A} (l : list A) i x :
  nth_error l i = Some x -> skipn i l = x :: skipn (S i) l.
Proof.
  revert l. induction i as [|i IH]; intros [|y l] H; simpl in *; try discriminate.
  - now injection H as ->.
  - now apply IH.
Qed.

Lemma window_S {A} (l : list A) i n x :
  nth_error l i = Some x -> window l i (S n) = x :: window l (S i) n.
Proof. intros H. unfold window. now rewrite (skipn_cons_nth l i x H). Qed.

Lemma window_0 {A} (l : list A) i : window l i 0 = [].
Proof. reflexivity. Qed.

Lemma window_map {A B} (f : A -> B) l i k :
  window (map f l) i k = map f (window l i k).
Proof. unfold window. now rewrite skipn_map, firstn_map. Qed.

Lemma length_window {A} (l : list A) i k :
  (i + k <= length l)%nat -> length (window l i k) = k.
Proof.
  intros H. unfold window. rewrite length_firstn, length_skipn. lia.
Qed.

Lemma qsum_cons x l : qsum (x :: l) = x + qsum l.
Proof. reflexivity. Qed.

#[export] Hint Rewrite @window_0 qsum_cons : evc_rw.

Lemma Qceiling_pos (h : Q) : 0 < h -> (1 <= Qceiling h)%Z.
Proof.
  intros H. pose proof (Qle_ceiling h) as Hc.
  assert (Hz : 0 < inject_Z (Qceiling h)) by lra.
  change 0 with (inject_Z 0) in Hz. rewrite <- Zlt_Qlt in Hz. lia.
Qed.

(** ** Sorted concatenations *)

Lemma StronglySorted_app {A} (R : A -> A -> Prop) l1 l2 :
  StronglySorted R l1 -> StronglySorted R l2 ->
  (forall x y, In x l1 -> In y l2 -> R x y) ->
  StronglySorted R (l1 ++ l2).
Proof.
  induction l1 as [|x l1 IH]; intros H1 H2 Hxy; simpl; [exact H2|].
  apply StronglySorted_inv in H1 as [H1 Hx].
  constructor.
  - apply IH; [exact H1|exact H2|]. intros a b Ha Hb. apply Hxy; simpl; auto.
  - apply Forall_app. split; [exact Hx|].
    apply Forall_forall. intros y Hy. apply Hxy; simpl; auto.
Qed.

Lemma Qdiv_pos (a b : Q) : 0 < a -> 0 < b -> 0 < a / b.
Proof. intros Ha Hb. apply Qmult_lt_0_compat; [exact Ha|now apply Qinv_lt_0_compat]. Qed.
