(* ===== verification/JsNumber.v ===== *)
(** JavaScript numbers as the modelled code uses them: a finite value (an
    exact rational: rounding of IEEE doubles and the sign of zero are not
    modelled), [Infinity], [-Infinity] and [NaN], with the operators the
    source applies to them ([+ - * /], [<], [<=], [Math.ceil],
    [Math.floor], [Math.round], [isNaN]). These are language builtins, not
    code of the repository: they carry no map entries. *)

From Stdlib Require Import QArith Qround Lia Lqa ZArith.
From S2P Require Import Prelude.

Inductive num :=
| Fin (q : Q)
| PosInf
| NegInf
| NaN.

(** Sign of a finite value, used by the infinite cases of [*] and [/]. *)
Definition qsign (q : Q) : comparison := Qcompare q 0.

(** The infinity of sign [c] ([Eq] gives [NaN]: [0 * Infinity]). *)
Definition inf_of (c : comparison) : num :=
  match c with
  | Gt => PosInf
  | Lt => NegInf
  | Eq => NaN
  end.

Definition comp_mul (c d : comparison) : comparison :=
  match c, d with
  | Eq, _ | _, Eq => Eq
  | Gt, x | x, Gt => x
  | Lt, Lt => Gt
  end.

Definition num_sign (x : num) : option comparison :=
  match x with
  | Fin q => Some (qsign q)
  | PosInf => Some Gt
  | NegInf => Some Lt
  | NaN => None
  end.

Definition num_add (x y : num) : num :=
  match x, y with
  | Fin a, Fin b => Fin (a + b)
  | NaN, _ | _, NaN => NaN
  | PosInf, NegInf | NegInf, PosInf => NaN
  | PosInf, _ | _, PosInf => PosInf
  | NegInf, _ | _, NegInf => NegInf
  end.

Definition num_neg (x : num) : num :=
  match x with
  | Fin a => Fin (- a)
  | PosInf => NegInf
  | NegInf => PosInf
  | NaN => NaN
  end.

Definition num_sub (x y : num) : num := num_add x (num_neg y).

Definition num_mul (x y : num) : num :=
  match x, y with
  | Fin a, Fin b => Fin (a * b)
  | _, _ =>
      match num_sign x, num_sign y with
      | Some c, Some d => inf_of (comp_mul c d)
      | _, _ => NaN
      end
  end.

(** [x / y]: a finite value over a non-zero finite value is exact; over
    zero it is an infinity of the sign of [x] ([0 / 0] is [NaN]); a finite
    value over an infinity is [0]; an infinity over a finite value keeps
    the product of the signs. *)
Definition num_div (x y : num) : num :=
  match x, y with
  | Fin a, Fin b => if Qeq_bool b 0 then inf_of (qsign a) else Fin (a / b)
  | Fin _, (PosInf | NegInf) => Fin 0
  | (PosInf | NegInf), Fin b =>
      match num_sign x with
      | Some c => inf_of (comp_mul c (match qsign b with Eq => Gt | d => d end))
      | None => NaN
      end
  | _, _ => NaN
  end.

(** [x < y]; every comparison with [NaN] is [false]. *)
Definition num_lt (x y : num) : bool :=
  match x, y with
  | Fin a, Fin b => Qltb a b
  | NaN, _ | _, NaN => false
  | NegInf, NegInf | PosInf, _ => false
  | NegInf, _ | _, PosInf => true
  | Fin _, NegInf => false
  end.

(** [x <= y]: [false] with [NaN], otherwise [!(y < x)]. *)
Definition num_le (x y : num) : bool :=
  match x, y with
  | NaN, _ | _, NaN => false
  | _, _ => negb (num_lt y x)
  end.

Definition isNaN (x : num) : bool :=
  match x with NaN => true | _ => false end.

Definition num_map_int (f : Q -> Z) (x : num) : num :=
  match x with
  | Fin q => Fin (inject_Z (f q))
  | _ => x
  end.

Definition Math_ceil : num -> num := num_map_int Qceiling.
Definition Math_floor : num -> num := num_map_int Qfloor.
(** [Math.round] rounds halves towards [+Infinity]. *)
Definition Math_round : num -> num := num_map_int (fun q => Qfloor (q + (1 # 2))).

(** ** Lemmas on the finite cases *)

Lemma num_lt_Fin a b : num_lt (Fin a) (Fin b) = true <-> a < b.
Proof. apply Qltb_iff. Qed.

Lemma num_lt_Fin_PosInf a : num_lt (Fin a) PosInf = true.
Proof. reflexivity. Qed.

Lemma num_le_Fin a b : num_le (Fin a) (Fin b) = true <-> a <= b.
Proof.
  cbn [num_le]. rewrite Bool.negb_true_iff. unfold num_lt. apply Qltb_false.
Qed.

Lemma num_div_Fin a b : ~ b == 0 -> num_div (Fin a) (Fin b) = Fin (a / b).
Proof.
  intros Hb. cbn [num_div]. destruct (Qeq_bool b 0) eqn:E; [|reflexivity].
  apply Qeq_bool_iff in E. contradiction.
Qed.

#[export] Hint Rewrite num_lt_Fin_PosInf : evc_rw.

Lemma num_lt_Fin_false a b : num_lt (Fin a) (Fin b) = false <-> b <= a.
Proof. apply Qltb_false. Qed.

Lemma num_le_Fin_false a b : num_le (Fin a) (Fin b) = false <-> b < a.
Proof.
  cbn [num_le num_lt]. rewrite Bool.negb_false_iff. apply Qltb_iff.
Qed.

(** What [parseFloat] gives for the value of an [<input type="number">]:
    a finite number, or [NaN] when the field is empty (the field's value
    sanitization never yields "Infinity"). *)
Definition finite_or_nan (x : num) : bool :=
  match x with
  | Fin _ | NaN => true
  | PosInf | NegInf => false
  end.

Lemma finite_not_nan x :
  finite_or_nan x = true -> isNaN x = false -> exists q, x = Fin q.
Proof. destruct x; try discriminate; eauto. Qed.

Lemma Math_floor_Fin q : Math_floor (Fin q) = Fin (inject_Z (Qfloor q)).
Proof. reflexivity. Qed.

(** [Math.round] of a value in [[0, n)] is within [[0, n]]. *)
Lemma Qround_half_bounds (x : Q) (n : Z) :
  0 <= x -> x < inject_Z n -> (0 <= Qfloor (x + (1 # 2)) <= n)%Z.
Proof.
  intros H0 Hn. pose proof (Qfloor_le (x + (1 # 2))) as Hl.
  pose proof (Qlt_floor (x + (1 # 2))) as Hu. split.
  - assert (Hz : inject_Z (-1) < inject_Z (Qfloor (x + (1 # 2)))).
    { rewrite inject_Z_plus in Hu. change (inject_Z 1) with 1 in Hu.
      change (inject_Z (-1)) with (-1). lra. }
    rewrite <- Zlt_Qlt in Hz. lia.
  - assert (Hz : inject_Z (Qfloor (x + (1 # 2))) < inject_Z (n + 1)).
    { rewrite inject_Z_plus. change (inject_Z 1) with 1. lra. }
    rewrite <- Zlt_Qlt in Hz. lia.
Qed.

(** ** Equality of JavaScript values *)

(** Two [num]s are the same JavaScript number when they are the same
    infinity or [NaN], or finite with equal values ([Fin (1 # 2)] and
    [Fin (2 # 4)] are both [0.5]). Every operator respects it. *)
Definition num_eq (x y : num) : Prop :=
  match x, y with
  | Fin a, Fin b => a == b
  | PosInf, PosInf | NegInf, NegInf | NaN, NaN => True
  | _, _ => False
  end.

#[export] Instance num_eq_Equivalence : Equivalence num_eq.
Proof.
  split.
  - intros []; cbn; reflexivity.
  - intros [] []; cbn; intros H; try easy; now symmetry.
  - intros [] [] []; cbn; intros H1 H2; try easy; now transitivity q0.
Qed.

#[export] Instance qsign_Proper : Proper (Qeq ==> eq) qsign.
Proof. intros a b E. unfold qsign. now rewrite E. Qed.

#[export] Instance num_sign_Proper : Proper (num_eq ==> eq) num_sign.
Proof. intros [] [] E; cbn in E |- *; try easy. now rewrite E. Qed.

(** The tactic the [Proper] proofs share: split both arguments into
    their four cases and close the finite ones with the [Qeq] facts. *)
Ltac num_cases :=
  repeat match goal with
         | |- forall _ : num, _ => intros []
         | |- _ -> _ => intro
         end;
  cbn [num_eq] in *; try contradiction.

#[export] Instance num_add_Proper : Proper (num_eq ==> num_eq ==> num_eq) num_add.
Proof. unfold Proper, respectful. num_cases; cbn [num_add num_eq]; try easy. now rewrite H, H0. Qed.

#[export] Instance num_neg_Proper : Proper (num_eq ==> num_eq) num_neg.
Proof. unfold Proper, respectful. num_cases; cbn [num_neg num_eq]; try easy. now rewrite H. Qed.

#[export] Instance num_mul_Proper : Proper (num_eq ==> num_eq ==> num_eq) num_mul.
Proof.
  unfold Proper, respectful. num_cases; cbn [num_mul num_sign num_eq];
    try (rewrite H); try (rewrite H0); try reflexivity; easy.
Qed.

#[export] Instance num_lt_Proper : Proper (num_eq ==> num_eq ==> eq) num_lt.
Proof.
  unfold Proper, respectful. num_cases; cbn [num_lt]; try easy.
  apply Bool.eq_true_iff_eq. rewrite !Qltb_iff. now rewrite H, H0.
Qed.

#[export] Instance num_le_Proper : Proper (num_eq ==> num_eq ==> eq) num_le.
Proof.
  intros x x' Ex y y' Ey. destruct x, x', y, y'; cbn in Ex, Ey; try contradiction;
    unfold num_le; try reflexivity; f_equal; now apply num_lt_Proper.
Qed.

#[export] Instance isNaN_Proper : Proper (num_eq ==> eq) isNaN.
Proof. intros [] [] E; cbn in E; easy. Qed.
