(* ===== verification/JsString.v ===== *)
(** The reading of the form's fields: the built-in [parseFloat], which
    the handler applies to the five values (src/script.js, lines
    420-424), modelled from ECMA-262 (section "parseFloat") over the exact
    rationals of [JsNumber], and the value sanitization of HTML's
    [<input type="number">], which decides what a field can hold.
    Characters are ASCII; white space is the ASCII part of
    [StrWhiteSpaceChar] (tab, line feed, vertical tab, form feed,
    carriage return, space). *)

From Stdlib Require Import QArith Qround Qabs ZArith String Ascii Lia Lqa.
From S2P Require Import Prelude JsNumber.

Module JsString.

(** ** [parseFloat] *)

Definition is_ws (c : ascii) : bool :=
  let n := nat_of_ascii c in (n =? 32)%nat || ((9 <=? n)%nat && (n <=? 13)%nat).

(** [TrimString(string, start)]. *)
Fixpoint trim_start (s : string) : string :=
  match s with
  | EmptyString => EmptyString
  | String c s' => if is_ws c then trim_start s' else s
  end.

Definition digit_val (c : ascii) : option Z :=
  let n := nat_of_ascii c in
  if (48 <=? n)%nat && (n <=? 57)%nat then Some (Z.of_nat n - 48)%Z else None.

(** [DecimalDigits], as long as it goes: the value accumulated onto
    [acc], the number of digits read and what follows them. *)
Fixpoint digits (s : string) (acc : Z) (k : nat) : Z * nat * string :=
  match s with
  | EmptyString => (acc, k, EmptyString)
  | String c s' =>
      match digit_val c with
      | Some d => digits s' (acc * 10 + d)%Z (S k)
      | None => (acc, k, s)
      end
  end.

(** The optional sign of an exponent. *)
Definition exp_sign (s : string) : Z * string :=
  match s with
  | String c s' =>
      if Ascii.eqb c "+"%char then (1%Z, s')
      else if Ascii.eqb c "-"%char then ((-1)%Z, s')
      else (1%Z, s)
  | EmptyString => (1%Z, s)
  end.

(** The value of an [ExponentPart] at the head of [s]; [0] when there is
    none, or when no digit follows the [e] (the longest prefix that is a
    [StrDecimalLiteral] then stops before the [e]). *)
Definition exponent (s : string) : Z :=
  match s with
  | String c s' =>
      if Ascii.eqb c "e"%char || Ascii.eqb c "E"%char then
        let '(sg, s'') := exp_sign s' in
        let '(v, k, _) := digits s'' 0%Z 0%nat in
        if (k =? 0)%nat then 0%Z else (sg * v)%Z
      else 0%Z
  | EmptyString => 0%Z
  end.

(** The fraction after a ['.']: its digits' value and count. *)
Definition fraction (s : string) : Z * nat * string :=
  match s with
  | String c s' => if Ascii.eqb c "."%char then digits s' 0%Z 0%nat else (0%Z, 0%nat, s)
  | EmptyString => (0%Z, 0%nat, s)
  end.

(** [StrUnsignedDecimalLiteral]: [Infinity], or digits with an optional
    fraction and exponent, at least one digit before or after the
    point. *)
Definition unsigned (s : string) : num :=
  if String.prefix "Infinity" s then PosInf
  else
    let '(i, k, r) := digits s 0%Z 0%nat in
    let '(f, m, r') := fraction r in
    if (k + m =? 0)%nat then NaN
    else Fin ((inject_Z i + inject_Z f / inject_Z (10 ^ Z.of_nat m)) * Qpower 10 (exponent r')).

Definition parseFloat (s : string) : num :=
  match trim_start s with
  | String c r =>
      if Ascii.eqb c "-"%char then num_neg (unsigned r)
      else if Ascii.eqb c "+"%char then unsigned r
      else unsigned (String c r)
  | EmptyString => NaN
  end.

(** ** The value of an [<input type="number">] *)

Definition opt_minus (s : string) : string :=
  match s with
  | String c r => if Ascii.eqb c "-"%char then r else s
  | EmptyString => s
  end.

(** An optional exponent that ends the string: [e] or [E], an optional
    sign, one digit at least. *)
Definition valid_exp (s : string) : bool :=
  match s with
  | EmptyString => true
  | String c s' =>
      (Ascii.eqb c "e"%char || Ascii.eqb c "E"%char)
      && (let '(_, r) := exp_sign s' in
          let '(_, k, r') := digits r 0%Z 0%nat in
          negb (k =? 0)%nat && String.eqb r' "")
  end.

(** HTML's "valid floating-point number": an optional [-], digits, a
    point followed by digits, or both, then an optional exponent. *)
Definition is_valid_float (s : string) : bool :=
  let '(_, k, r) := digits (opt_minus s) 0%Z 0%nat in
  match r with
  | String c r' =>
      if Ascii.eqb c "."%char then
        let '(_, m, r'') := digits r' 0%Z 0%nat in negb (m =? 0)%nat && valid_exp r''
      else negb (k =? 0)%nat && valid_exp r
  | EmptyString => negb (k =? 0)%nat
  end.

(** The value sanitization of a number input, applied to every value
    the page assigns or the user types: a value that is not a valid
    floating-point number becomes the empty string. *)
Definition sanitize (s : string) : string := if is_valid_float s then s else EmptyString.

(** ** Reading a leading digit *)

(** Whether a string starts with a digit. *)
Definition digit_val_head (s : string) : bool :=
  match s with String c _ => if digit_val c is Some _ then true else false | EmptyString => false end.

Lemma digit_val_range c d : digit_val c = Some d -> (48 <= nat_of_ascii c <= 57)%nat.
Proof.
  unfold digit_val. destruct (48 <=? nat_of_ascii c)%nat eqn:E1, (nat_of_ascii c <=? 57)%nat eqn:E2;
    cbn; try discriminate. apply Nat.leb_le in E1, E2. lia.
Qed.

(** A string that starts with a digit is read by [unsigned] from its first
    character: no white space, sign or [Infinity] comes first. *)
Lemma parseFloat_digit c d s : digit_val c = Some d -> parseFloat (String c s) = unsigned (String c s).
Proof.
  intros Hc. apply digit_val_range in Hc. unfold parseFloat. cbn [trim_start].
  assert (Hws : is_ws c = false).
  { unfold is_ws. apply Bool.orb_false_iff. split; [apply Nat.eqb_neq; lia|].
    apply Bool.andb_false_iff. right. apply Nat.leb_gt. lia. }
  rewrite Hws. destruct (Ascii.eqb_spec c "-"%char) as [->|_]; [cbn in Hc; lia|].
  destruct (Ascii.eqb_spec c "+"%char) as [->|_]; [cbn in Hc; lia|]. reflexivity.
Qed.

Lemma unsigned_digit c d s : digit_val c = Some d ->
  unsigned (String c s)
  = let '(i, k, r) := digits (String c s) 0%Z 0%nat in
    let '(f, m, r') := fraction r in
    if (k + m =? 0)%nat then NaN
    else Fin ((inject_Z i + inject_Z f / inject_Z (10 ^ Z.of_nat m)) * Qpower 10 (exponent r')).
Proof.
  intros Hc. apply digit_val_range in Hc. unfold unsigned. cbn [String.prefix].
  destruct (ascii_dec "I"%char c) as [<-|_]; [cbn in Hc; lia|]. reflexivity.
Qed.

Lemma parseFloat_minus s : parseFloat (String "-" s) = num_neg (unsigned s).
Proof. reflexivity. Qed.

(** ** Valid numbers parse to finite values *)

Lemma digits_ge s acc k : (k <= snd (fst (digits s acc k)))%nat.
Proof.
  revert acc k. induction s as [|c s IH]; intros acc k; cbn; [lia|].
  destruct (digit_val c); cbn; [specialize (IH (acc * 10 + z)%Z (S k)); lia|lia].
Qed.

Lemma digits_stop s acc k :
  digit_val_head s = false -> digits s acc k = (acc, k, s).
Proof. destruct s as [|c s]; cbn; [reflexivity|]. now destruct (digit_val c). Qed.

Lemma digits_cons c d s acc k :
  digit_val c = Some d -> digits (String c s) acc k = digits s (acc * 10 + d)%Z (S k).
Proof. intros Hc. cbn [digits]. now rewrite Hc. Qed.

Lemma unsigned_Fin_digit c d s : digit_val c = Some d -> exists q, unsigned (String c s) = Fin q.
Proof.
  intros Hc. rewrite unsigned_digit with (d := d) by exact Hc. rewrite digits_cons with (d := d) by exact Hc.
  pose proof (digits_ge s (0 * 10 + d)%Z 1) as Hk.
  destruct (digits s _ _) as [[i k] r]. cbn in Hk. destruct (fraction r) as [[f m] r'].
  destruct (k + m =? 0)%nat eqn:E; [apply Nat.eqb_eq in E; lia|eauto].
Qed.

Lemma unsigned_Fin_dot c d s : digit_val c = Some d -> exists q, unsigned (String "." (String c s)) = Fin q.
Proof.
  intros Hc. unfold unsigned.
  change (String.prefix "Infinity" (String "." (String c s))) with false.
  change (digits (String "." (String c s)) 0%Z 0%nat) with (0%Z, 0%nat, String "." (String c s)).
  cbv beta iota.
  change (fraction (String "." (String c s))) with (digits (String c s) 0%Z 0%nat).
  rewrite digits_cons with (d := d) by exact Hc. pose proof (digits_ge s (0 * 10 + d)%Z 1) as Hm.
  destruct (digits s _ _) as [[f m] r]. cbn in Hm.
  destruct (0 + m =? 0)%nat eqn:E; [apply Nat.eqb_eq in E; lia|eauto].
Qed.

Lemma valid_float_head s :
  is_valid_float s = true ->
  (exists c d r, opt_minus s = String c r /\ digit_val c = Some d)
  \/ (exists c d r, opt_minus s = String "." (String c r) /\ digit_val c = Some d).
Proof.
  unfold is_valid_float. intros V. destruct (digit_val_head (opt_minus s)) eqn:H.
  - left. destruct (opt_minus s) as [|c r]; [discriminate|].
    cbn in H. destruct (digit_val c) eqn:Hc; [eauto|discriminate].
  - rewrite digits_stop in V by exact H. right.
    destruct (opt_minus s) as [|c r]; [discriminate|].
    destruct (Ascii.eqb_spec c "."%char) as [->|Hne]; [|cbn in V; discriminate].
    destruct (digit_val_head r) eqn:Hr.
    + destruct r as [|c' r]; [discriminate|]. cbn in Hr.
      destruct (digit_val c') eqn:Hc; [eauto|discriminate].
    + rewrite digits_stop in V by exact Hr. discriminate.
Qed.

(** A valid floating-point number is read as a finite value. *)
Lemma parseFloat_valid s : is_valid_float s = true -> exists q, parseFloat s = Fin q.
Proof.
  intros V. destruct (valid_float_head s V) as [(c & d & r & E & Hc)|(c & d & r & E & Hc)];
    destruct s as [|c0 r0]; try discriminate; cbn [opt_minus] in E;
    destruct (Ascii.eqb_spec c0 "-"%char) as [->|Hne].
  - rewrite parseFloat_minus, E. destruct (unsigned_Fin_digit c d r Hc) as [q ->]. now exists (- q).
  - rewrite E, parseFloat_digit with (d := d) by exact Hc. exact (unsigned_Fin_digit c d r Hc).
  - rewrite parseFloat_minus, E. destruct (unsigned_Fin_dot c d r Hc) as [q ->]. now exists (- q).
  - rewrite E. exact (unsigned_Fin_dot c d r Hc).
Qed.

Lemma sanitize_finite_or_nan s : finite_or_nan (parseFloat (sanitize s)) = true.
Proof.
  unfold sanitize. destruct (is_valid_float s) eqn:V; [|reflexivity].
  now destruct (parseFloat_valid s V) as [q ->].
Qed.

Lemma sanitize_idem v : sanitize (sanitize v) = sanitize v.
Proof.
  unfold sanitize. destruct (is_valid_float v) eqn:V; [now rewrite V|].
  now destruct (is_valid_float "").
Qed.

End JsString.
