(* ===== verification/JsDate.v ===== *)
(** JavaScript [Date] as [processPriceData] uses it, after the ECMAScript
    definitions (section "Date Objects"): a Date is its time value, an
    integer number of milliseconds since the epoch ([Z]); the local time
    zone is a [zone] with a standard offset and the periods of daylight
    saving time, one hour ahead. [UTC] converts a local time value back
    to a time value the way ECMAScript does: the earlier instant when a
    local time occurs twice, the offset from before the transition when it
    falls into the skipped hour. [setHours], [MakeDay], [MakeDate] and
    [MakeTime] follow the specification's abstract operations. [TimeClip]
    (the +-8.64e15 ms range) is not modelled: the dates of the price
    service are far inside it. These are builtins, not repository code:
    they carry no map entries. *)

From Stdlib Require Import ZArith Lia List Bool.
From S2P Require Import Prelude.
Import ListNotations.

Open Scope Z_scope.

Definition msPerSecond : Z := 1000.
Definition msPerMinute : Z := 60000.
Definition msPerHour : Z := 3600000.
Definition msPerDay : Z := 86400000.

(** The local time zone: a standard offset from UTC (ms) and the
    half-open intervals [[start, end)] of time values in daylight saving
    time. *)
Record zone := mkZone { std_offset : Z; dst_periods : list (Z * Z) }.

Definition in_dst (z : zone) (t : Z) : bool :=
  existsb (fun '(a, b) => (a <=? t) && (t <? b)) (dst_periods z).

(** LocalTZA(t, true): the offset of local time at the instant [t]. *)
Definition LocalTZA (z : zone) (t : Z) : Z :=
  std_offset z + (if in_dst z t then msPerHour else 0).

Definition LocalTime (z : zone) (t : Z) : Z := t + LocalTZA z t.

(** UTC(l): of the two readings of [l] (daylight, then standard), the
    earlier one that is right; in a skipped hour neither is, and the
    standard offset (the one before the transition) is used. *)
Definition UTC (z : zone) (l : Z) : Z :=
  let t_dst := l - (std_offset z + msPerHour) in
  if LocalTime z t_dst =? l then t_dst else l - std_offset z.

Definition Day (t : Z) : Z := t / msPerDay.
Definition TimeWithinDay (t : Z) : Z := t mod msPerDay.
Definition HourFromTime (t : Z) : Z := (t / msPerHour) mod 24.
Definition MinFromTime (t : Z) : Z := (t / msPerMinute) mod 60.
Definition SecFromTime (t : Z) : Z := (t / msPerSecond) mod 60.
Definition msFromTime (t : Z) : Z := t mod msPerSecond.

Definition MakeTime (h m s ms : Z) : Z :=
  h * msPerHour + m * msPerMinute + s * msPerSecond + ms.

Definition MakeDate (day time : Z) : Z := day * msPerDay + time.

(** Days from 1970-01-01 to the proleptic Gregorian date [y-m-d]
    ([m] from 1 to 12). *)
Definition days_from_civil (y m d : Z) : Z :=
  let y' := if m <=? 2 then y - 1 else y in
  let era := y' / 400 in
  let yoe := y' - era * 400 in
  let doy := (153 * (if 2 <? m then m - 3 else m + 9) + 2) / 5 + d - 1 in
  let doe := yoe * 365 + yoe / 4 - yoe / 100 + doy in
  era * 146097 + doe - 719468.

(** MakeDay(year, month, date), [month] counted from 0 and allowed to
    overflow into the following years. *)
Definition MakeDay (year month date : Z) : Z :=
  days_from_civil (year + month / 12) (month mod 12 + 1) 1 + date - 1.

(** [date.setHours(h)] on a Date whose time value is [t]: the local
    minutes, seconds and milliseconds are kept. *)
Definition setHours (z : zone) (t h : Z) : Z :=
  let lt := LocalTime z t in
  UTC z (MakeDate (Day lt)
                  (MakeTime h (MinFromTime lt) (SecFromTime lt) (msFromTime lt))).

(** [new Date(y, mo, d, h, 0, 0, 0)] built from the local year, month and
    day of [t]: MakeDay of those fields is [Day] of the local time (the
    specification defines the calendar fields as its inverse), so the
    Date is the start of the local hour [h] of that day. *)
Definition startOfLocalHour (z : zone) (t : Z) : Z :=
  let lt := LocalTime z t in
  UTC z (MakeDate (Day lt) (MakeTime (HourFromTime lt) 0 0 0)).

(** [new Date('YYYY-MM-DDT00:00:00')]: a date-time form without an
    offset is local time. *)
Definition localMidnight (z : zone) (y m d : Z) : Z :=
  UTC z (MakeDate (MakeDay y (m - 1) d) (MakeTime 0 0 0 0)).

Example days_from_civil_epoch : days_from_civil 1970 1 1 = 0.
Proof. reflexivity. Qed.

Example days_from_civil_2026 : days_from_civil 2026 1 1 = 20454.
Proof. reflexivity. Qed.

(** ** Zones without daylight saving time *)

Definition fixed_zone (off : Z) : zone := mkZone off [].

Lemma LocalTime_fixed off t : LocalTime (fixed_zone off) t = t + off.
Proof. unfold LocalTime, LocalTZA, in_dst. simpl. lia. Qed.

Lemma UTC_fixed off l : UTC (fixed_zone off) l = l - off.
Proof.
  unfold UTC. rewrite LocalTime_fixed. cbn [std_offset fixed_zone].
  destruct (Z.eqb_spec (l - (off + msPerHour) + off) l) as [H|H];
    [unfold msPerHour in H; lia|reflexivity].
Qed.

(** The minutes, seconds and milliseconds of a local time are its
    remainder modulo one hour. *)
Lemma MakeTime_fields h t :
  MakeTime h (MinFromTime t) (SecFromTime t) (msFromTime t)
  = h * msPerHour + t mod msPerHour.
Proof.
  unfold MakeTime, MinFromTime, SecFromTime, msFromTime,
    msPerHour, msPerMinute, msPerSecond.
  assert (E1 : t mod 3600000 = (t / 60000) mod 60 * 60000 + t mod 60000).
  { rewrite (Z.mul_comm 60 60000) at 1.
    change 3600000 with (60000 * 60). rewrite Z.rem_mul_r by lia. lia. }
  assert (E2 : t mod 60000 = (t / 1000) mod 60 * 1000 + t mod 1000).
  { change 60000 with (1000 * 60). rewrite Z.rem_mul_r by lia. lia. }
  lia.
Qed.

Lemma setHours_fixed off t h :
  setHours (fixed_zone off) t h
  = Day (t + off) * msPerDay + h * msPerHour + (t + off) mod msPerHour - off.
Proof.
  unfold setHours. rewrite LocalTime_fixed, UTC_fixed, MakeTime_fields.
  unfold MakeDate. lia.
Qed.

Lemma setHours_fixed_lt off t h h' :
  h < h' -> setHours (fixed_zone off) t h < setHours (fixed_zone off) t h'.
Proof. intros H. rewrite !setHours_fixed. unfold msPerHour. lia. Qed.

(** An hour [0 <= h < 24] set on a Date stays within its local day. *)
Lemma setHours_fixed_day off t h :
  0 <= h < 24 ->
  Day (t + off) * msPerDay - off <= setHours (fixed_zone off) t h
  < (Day (t + off) + 1) * msPerDay - off.
Proof.
  intros H. rewrite setHours_fixed.
  pose proof (Z.mod_pos_bound (t + off) msPerHour ltac:(unfold msPerHour; lia)).
  unfold msPerHour, msPerDay in *. lia.
Qed.

(** ** Copenhagen in 2025: CET (UTC+1), CEST (UTC+2) from 2025-03-30
    01:00 UTC to 2025-10-26 01:00 UTC *)
Definition copenhagen_2025 : zone :=
  mkZone msPerHour
    [(MakeDate (days_from_civil 2025 3 30) msPerHour,
      MakeDate (days_from_civil 2025 10 26) msPerHour)].

Close Scope Z_scope.
