(* ===== verification/PriceData.v ===== *)
(** The price normalizer, [processPriceData] (src/script.js, lines
    298-322): the raw day records of the price service flattened into the
    hourly price list the window selector consumes. The hour [hourIndex]
    of a record is [new Date(dayData.dato)] with [setHours(hourIndex)]
    (local time, see JsDate.v); hours before the start of the current
    local hour are dropped; the tax refund of 0.895 DKK/kWh is subtracted
    before 2026-01-01 00:00 local time when the checkbox is ticked. The
    order of the result is the order of the input: the code does not
    sort. *)

From Stdlib Require Import QArith ZArith Lia Lqa List Bool Sorted.
From S2P Require Import Prelude JsDate.
Import ListNotations.

(** [{ time: priceTime, price: finalPrice }] (line 317): [time] is the
    Date's time value (milliseconds since the epoch), [price] the price in
    DKK/kWh. *)
Record PricedHour := mkPricedHour { time : Z; price : Q }.

Module Normalizer.

(** One element of the service's answer: [dato] is the time value of
    [new Date(dayData.dato)] (the parsing of the date string is the
    builtin's), [priser] the prices of the hours [0, 1, ...]. *)
Record DayData := mkDayData { dato : Z; priser : list Q }.

(** [taxRefundAmount] and [taxRefundEndDate] (lines 303-304). *)
Definition taxRefundAmount : Q := 895 # 1000.

Definition taxRefundEndDate (z : zone) : Z := localMidnight z 2026 1 1.

(** The body of the inner [forEach] (lines 309-318) for the price [price]
    at [hourIndex]: at most one pushed entry. *)
Definition hourEntry (z : zone) (currentHour : Z) (applyTaxRefund : bool)
  (date : Z) (hourIndex : nat) (price : Q) : list PricedHour :=
  let priceTime := setHours z date (Z.of_nat hourIndex) in
  if (currentHour <=? priceTime)%Z then
    let finalPrice :=
      if applyTaxRefund && (priceTime <? taxRefundEndDate z)%Z
      then price - taxRefundAmount else price in
    [mkPricedHour priceTime finalPrice]
  else [].

(** [dayData.priser.forEach((price, hourIndex) => ...)] from [hourIndex]. *)
Fixpoint dayEntries (z : zone) (currentHour : Z) (applyTaxRefund : bool)
  (date : Z) (hourIndex : nat) (priser : list Q) : list PricedHour :=
  match priser with
  | [] => []
  | price :: rest =>
      hourEntry z currentHour applyTaxRefund date hourIndex price
      ++ dayEntries z currentHour applyTaxRefund date (S hourIndex) rest
  end.

(** Lines 298-322. [z] is the browser's time zone, [now] the time value of
    [new Date()], [applyTaxRefund] the state of the tax-refund checkbox. *)
Definition processPriceData (z : zone) (now : Z) (applyTaxRefund : bool)
  (data : list DayData) : list PricedHour :=
  let currentHour := startOfLocalHour z now in
  flat_map (fun dayData =>
              dayEntries z currentHour applyTaxRefund (dato dayData) 0 (priser dayData))
           data.

(** The price an hour at [priceTime] gets. *)
Definition adjusted (z : zone) (applyTaxRefund : bool) (priceTime : Z) (p : Q) : Q :=
  if applyTaxRefund && (priceTime <? taxRefundEndDate z)%Z then p - taxRefundAmount else p.

(** ** Membership *)

Lemma In_hourEntry z c a date h p e :
  In e (hourEntry z c a date h p) <->
  e = mkPricedHour (setHours z date (Z.of_nat h)) (adjusted z a (setHours z date (Z.of_nat h)) p)
  /\ (c <= setHours z date (Z.of_nat h))%Z.
Proof.
  unfold hourEntry, adjusted. cbv zeta.
  destruct (Z.leb_spec c (setHours z date (Z.of_nat h))) as [H|H]; simpl.
  - intuition congruence.
  - split; [tauto|lia].
Qed.

Lemma In_dayEntries z c a date i l e :
  In e (dayEntries z c a date i l) <->
  exists h p, nth_error l h = Some p
    /\ e = mkPricedHour (setHours z date (Z.of_nat (i + h)))
                        (adjusted z a (setHours z date (Z.of_nat (i + h))) p)
    /\ (c <= setHours z date (Z.of_nat (i + h)))%Z.
Proof.
  revert i. induction l as [|p l IH]; intros i; simpl.
  - split; [tauto|]. intros (h & p & H & _). destruct h; discriminate.
  - rewrite in_app_iff, In_hourEntry, IH. split.
    + intros [(-> & Hc)|(h & q & Hq & -> & Hc)].
      * exists 0%nat, p. rewrite Nat.add_0_r. auto.
      * exists (S h), q. rewrite <- plus_n_Sm. auto.
    + intros (h & q & Hq & -> & Hc). destruct h as [|h]; simpl in Hq.
      * injection Hq as <-. left. rewrite Nat.add_0_r in *. auto.
      * right. exists h, q. rewrite <- plus_n_Sm in *. auto.
Qed.

(** C3. An entry is in the result exactly when it comes from the price
    [p] at position [h] of a record [d]: its time is [dato] with the local
    hour set to [h], that time is not before the start of the current
    local hour, and its price is [p], less 0.895 when the refund is asked
    for and the time is before 2026-01-01 00:00 local time. *)
Theorem processPriceData_spec z now applyTaxRefund data e :
  In e (processPriceData z now applyTaxRefund data) <->
  exists d h p,
    In d data /\ nth_error (priser d) h = Some p
    /\ time e = setHours z (dato d) (Z.of_nat h)
    /\ (startOfLocalHour z now <= time e)%Z
    /\ price e = (if applyTaxRefund && (time e <? taxRefundEndDate z)%Z
                  then p - taxRefundAmount else p).
Proof.
  unfold processPriceData. cbv zeta. rewrite in_flat_map. split.
  - intros (d & Hd & He). apply In_dayEntries in He as (h & p & Hp & -> & Hc).
    exists d, h, p. simpl. auto.
  - intros (d & h & p & Hd & Hp & Ht & Hc & Hpr). exists d. split; [exact Hd|].
    apply In_dayEntries. exists h, p. simpl. rewrite <- Ht.
    split; [exact Hp|]. split; [|exact Hc].
    destruct e as [t q]. simpl in *. subst. reflexivity.
Qed.

(** ** Order of the result *)

Definition time_lt (e1 e2 : PricedHour) : Prop := (time e1 < time e2)%Z.

Lemma In_dayEntries_fixed off c a date i l e :
  (i + length l <= 24)%nat -> In e (dayEntries (fixed_zone off) c a date i l) ->
  exists h, (i <= h < 24)%nat /\ time e = setHours (fixed_zone off) date (Z.of_nat h).
Proof.
  intros Hl He. apply In_dayEntries in He as (h & p & Hp & -> & _).
  assert (Hh : (h < length l)%nat) by (apply nth_error_Some; congruence).
  exists (i + h)%nat. split; [lia|reflexivity].
Qed.

Lemma dayEntries_sorted off c a date i l :
  (i + length l <= 24)%nat ->
  StronglySorted time_lt (dayEntries (fixed_zone off) c a date i l).
Proof.
  revert i. induction l as [|p l IH]; intros i Hl; simpl; [constructor|].
  simpl in Hl. apply StronglySorted_app.
  - unfold hourEntry. destruct (_ <=? _)%Z; repeat constructor.
  - apply IH. lia.
  - intros x y Hx Hy. apply In_hourEntry in Hx as (-> & _).
    apply In_dayEntries_fixed in Hy as (h & Hh & Hy); [|lia].
    unfold time_lt. simpl. rewrite Hy. apply setHours_fixed_lt. lia.
Qed.

Lemma dayEntries_within_day off c a date l e :
  (length l <= 24)%nat -> In e (dayEntries (fixed_zone off) c a date 0 l) ->
  (Day (date + off) * msPerDay - off <= time e < (Day (date + off) + 1) * msPerDay - off)%Z.
Proof.
  intros Hl He. apply In_dayEntries_fixed in He as (h & Hh & ->); [|exact Hl].
  apply setHours_fixed_day. lia.
Qed.

(** C4. In a time zone without daylight saving time, when the records
    come in increasing order of their local days and each has at most 24
    prices, the result is strictly increasing in time: no hour appears
    twice. *)
Theorem processPriceData_sorted off now applyTaxRefund data :
  Sorted (fun d1 d2 => Day (LocalTime (fixed_zone off) (dato d1))
                       < Day (LocalTime (fixed_zone off) (dato d2)))%Z data ->
  Forall (fun d => length (priser d) <= 24)%nat data ->
  StronglySorted time_lt (processPriceData (fixed_zone off) now applyTaxRefund data).
Proof.
  intros Hs Hl. apply Sorted_StronglySorted in Hs; [|intros x y w; lia].
  unfold processPriceData. cbv zeta.
  induction Hs as [|d data Hs IH Hd]; simpl; [constructor|].
  inversion Hl as [|? ? Hld Hlds]; subst.
  apply StronglySorted_app; [apply dayEntries_sorted; simpl; lia|now apply IH|].
  intros x y Hx Hy. apply in_flat_map in Hy as (d' & Hd' & Hy).
  rewrite Forall_forall in Hd, Hlds. specialize (Hd d' Hd'). specialize (Hlds d' Hd').
  rewrite !LocalTime_fixed in Hd.
  apply dayEntries_within_day in Hx; [|exact Hld].
  apply dayEntries_within_day in Hy; [|exact Hlds].
  unfold time_lt. nia.
Qed.


(** ** What the code does with unsorted input and with daylight saving *)

(** A day of the service: local midnight of [y-m-d] in [z], with
    [prices]. *)
Definition day_record (z : zone) (y m d : Z) (prices : list Q) : DayData :=
  mkDayData (localMidnight z y m d) prices.

Definition ramp (n : nat) : list Q := map (fun k => inject_Z (Z.of_nat k)) (seq 1 n).

Lemma processPriceData_sorted_witness :
  let z := fixed_zone msPerHour in
  let data := [day_record z 2025 6 1 [3; 2]; day_record z 2025 6 2 [1]] in
  Sorted (fun d1 d2 => Day (LocalTime z (dato d1)) < Day (LocalTime z (dato d2)))%Z data
  /\ Forall (fun d => length (priser d) <= 24)%nat data
  /\ StronglySorted time_lt (processPriceData z (localMidnight z 2025 6 1) true data).
Proof.
  cbv zeta.
  assert (Hs : Sorted (fun d1 d2 => Day (LocalTime (fixed_zone msPerHour) (dato d1))
                                    < Day (LocalTime (fixed_zone msPerHour) (dato d2)))%Z
                 [day_record (fixed_zone msPerHour) 2025 6 1 [3; 2];
                  day_record (fixed_zone msPerHour) 2025 6 2 [1]]).
  { repeat constructor. }
  assert (Hl : Forall (fun d => length (priser d) <= 24)%nat
                 [day_record (fixed_zone msPerHour) 2025 6 1 [3; 2];
                  day_record (fixed_zone msPerHour) 2025 6 2 [1]]).
  { repeat constructor; simpl; lia. }
  split; [exact Hs|]. split; [exact Hl|].
  apply processPriceData_sorted; assumption.
Defined.

(** C29. The code does not sort: two records given in decreasing order of
    their days (in UTC) come out in that order, so the result is not in
    increasing order of time, which the spec asks for whatever the input
    order. *)
Theorem processPriceData_input_order :
  let data := [day_record (fixed_zone 0) 2025 1 2 [2]; day_record (fixed_zone 0) 2025 1 1 [1]] in
  let out := processPriceData (fixed_zone 0) (localMidnight (fixed_zone 0) 2025 1 1) false data in
  map price out = [2; 1] /\ ~ StronglySorted time_lt out.
Proof.
  cbv zeta. split; [reflexivity|]. intros H.
  apply StronglySorted_inv in H as [_ H]. inversion H as [|? ? Hlt _].
  unfold time_lt in Hlt. vm_compute in Hlt. discriminate.
Qed.

(** C24. On the day daylight saving time starts in Copenhagen
    (2025-03-30, 02:00 local does not exist), [setHours(2)] and
    [setHours(3)] give the same instant: the 24 prices of the day yield two
    entries at 03:00 CEST with different prices, and the result has a
    duplicate time, against the spec's "no duplicate timestamps". *)
Theorem processPriceData_dst_duplicate :
  let day := day_record copenhagen_2025 2025 3 30 (ramp 24) in
  let out := processPriceData copenhagen_2025 (dato day) false [day] in
  length out = 24%nat /\
  exists e2 e3, nth_error out 2 = Some e2 /\ nth_error out 3 = Some e3
    /\ time e2 = time e3 /\ ~ price e2 == price e3.
Proof.
  cbv zeta. split; [vm_compute; reflexivity|].
  eexists _, _. split; [vm_compute; reflexivity|]. split; [vm_compute; reflexivity|].
  split; [vm_compute; reflexivity|]. vm_compute. discriminate.
Qed.

(** C30. Once the start of the current local hour is at or after the
    refund's end date, ticking the tax-refund box changes nothing: every
    kept hour is at or after the end date. *)
Theorem processPriceData_refund_expired z now data :
  (taxRefundEndDate z <= startOfLocalHour z now)%Z ->
  processPriceData z now true data = processPriceData z now false data.
Proof.
  intros Hend. unfold processPriceData. cbv zeta. apply flat_map_ext. intros d.
  generalize 0%nat. induction (priser d) as [|p l IH]; intros i; simpl; [reflexivity|].
  rewrite IH. f_equal. unfold hourEntry. cbv zeta.
  destruct (Z.leb_spec (startOfLocalHour z now) (setHours z (dato d) (Z.of_nat i)));
    [|reflexivity].
  destruct (Z.ltb_spec (setHours z (dato d) (Z.of_nat i)) (taxRefundEndDate z));
    [lia|reflexivity].
Qed.

Lemma processPriceData_refund_expired_witness :
  let z := fixed_zone msPerHour in
  let now := localMidnight z 2026 2 1 in
  (taxRefundEndDate z <= startOfLocalHour z now)%Z /\
  processPriceData z now true [day_record z 2026 2 1 [1; 2]]
  = processPriceData z now false [day_record z 2026 2 1 [1; 2]].
Proof.
  cbv zeta. split; [vm_compute; discriminate|].
  apply processPriceData_refund_expired. vm_compute. discriminate.
Defined.

(** Scenario D of the spec: the hours before the current one are dropped
    (now is 02:30 local: hours 0 and 1 go). *)
Example scenarioD_past_hours :
  let z := fixed_zone msPerHour in
  map price (processPriceData z (localMidnight z 2025 6 1 + 9000000)%Z false
               [day_record z 2025 6 1 [10; 10; 7; 8]]) = [7; 8].
Proof. reflexivity. Qed.

(** Before the end date, with the box ticked, 0.895 is subtracted. *)
Example refund_applied :
  let z := fixed_zone msPerHour in
  map price (processPriceData z (localMidnight z 2025 6 1) true
               [day_record z 2025 6 1 [1]]) = [1 - taxRefundAmount].
Proof. reflexivity. Qed.

End Normalizer.
