(* ===== verification/BestTime.v ===== *)
(** The window selector, [calculateBestTime] (src/script.js, lines
    324-359): the cheapest run of [Math.ceil(hoursNeeded)] consecutive
    hourly prices, found by the brute-force double loop of the source, with
    its average price and estimated cost. The DOM writes of the function
    (the two text fields and the call of [renderChart]) are composed on top
    of [calculateBestTime] in the file of the price flow; this file models
    the computation they display.

    [best_window] is the abstract specification (a minimal window, the
    earliest among equal ones); [calculateBestTime_refines] proves that the
    loop implements it. *)

From Stdlib Require Import QArith Qround Lia Lqa List ZArith Setoid Morphisms.
From S2P Require Import Prelude JsNumber PriceData.
Import ListNotations.

Module Selector.

(** ** The model of the code *)

(** The variables of the outer loop: [bestStartIndex] and [minTotalCost]
    (initially [0] and [Infinity], lines 334-335). *)
Record scan_state := mkScan { bestStartIndex : nat; minTotalCost : num }.

Definition scan_init : scan_state := mkScan 0 PosInf.

(** [allPrices[k].price]. *)
Definition price_at (allPrices : list PricedHour) (k : nat) : res Q :=
  p <- js_index allPrices k ;; Ok (price p).

(** The inner loop (lines 338-341): [currentTotal] starts at [0] and adds
    [allPrices[i + j].price] for [j] from [0] below [slotsNeeded]. *)
Definition window_total (allPrices : list PricedHour) (slotsNeeded : Z) (i : nat)
  : res Q :=
  for_below
    (fun j currentTotal =>
       p <- price_at allPrices (i + j) ;; Ok (currentTotal + p))
    slotsNeeded 0.

(** One iteration of the outer loop (lines 338-346): the strict [<] keeps
    the earliest of equal windows. *)
Definition scan_step (allPrices : list PricedHour) (slotsNeeded : Z) (i : nat)
  (st : scan_state) : res scan_state :=
  currentTotal <- window_total allPrices slotsNeeded i ;;
  if num_lt (Fin currentTotal) (minTotalCost st)
  then Ok (mkScan i (Fin currentTotal))
  else Ok st.

(** The outer loop (line 337):
    [for (let i = 0; i <= allPrices.length - slotsNeeded; i++)]. *)
Definition scan (allPrices : list PricedHour) (slotsNeeded : Z) : res scan_state :=
  for_upto (scan_step allPrices slotsNeeded)
    (Z.of_nat (length allPrices) - slotsNeeded) scan_init.

(** What the function computes: either the "Not enough data" branch
    (lines 328-332), or the best window with the values it displays. *)
Inductive outcome :=
| NotEnoughData
| Best (bestStartIndex : nat) (bestStart : PricedHour) (slotsNeeded : Z)
       (minTotalCost avgPrice totalEstimatedCost : num).

(** Lines 326-351. [hoursNeeded] and [energyNeeded] are finite: the only
    caller passes the values computed by [calculateChargingTime]. Reading
    [bestStart.time] (line 353) throws when [bestStartIndex] is out of
    range. *)
Definition calculateBestTime (allPrices : list PricedHour) (hoursNeeded energyNeeded : Q)
  : res outcome :=
  let slotsNeeded := Qceiling hoursNeeded in
  if (Z.of_nat (length allPrices) <? slotsNeeded)%Z then Ok NotEnoughData
  else
    st <- scan allPrices slotsNeeded ;;
    bestStart <- js_index allPrices (bestStartIndex st) ;;
    let avgPrice := num_div (minTotalCost st) (Fin (inject_Z slotsNeeded)) in
    let totalEstimatedCost := num_mul avgPrice (Fin energyNeeded) in
    Ok (Best (bestStartIndex st) bestStart slotsNeeded (minTotalCost st)
             avgPrice totalEstimatedCost).

(** ** The abstract specification *)

(** The cost of the run of [k] hours from [i]. *)
Definition wsum (ps : list Q) (i k : nat) : Q := qsum (window ps i k).

(** [s] starts a run of [k] hours within the list whose cost is minimal,
    and every earlier run costs strictly more. *)
Definition best_window (ps : list Q) (k s : nat) : Prop :=
  (s + k <= length ps)%nat /\
  (forall j, (j + k <= length ps)%nat -> wsum ps s k <= wsum ps j k) /\
  (forall j, (j < s)%nat -> wsum ps s k < wsum ps j k).


(** ** The inner loop sums the window *)

Section Loops.
Variable allPrices : list PricedHour.
Let ps := map price allPrices.

Lemma price_at_lt k :
  (k < length allPrices)%nat ->
  exists p, price_at allPrices k = Ok p /\ nth_error ps k = Some p.
Proof.
  intros Hk. destruct (js_index_lt allPrices k Hk) as (e & He & Hn).
  exists (price e). unfold price_at, ps. rewrite He, nth_error_map, Hn. now split.
Qed.

Lemma window_loop i j0 n acc :
  (i + j0 + n <= length allPrices)%nat ->
  exists t,
    for_loop (fun j c => p <- price_at allPrices (i + j) ;; Ok (c + p)) j0 n acc = Ok t
    /\ t == acc + wsum ps (i + j0) n.
Proof.
  revert j0 acc. induction n as [|n IH]; intros j0 acc Hn.
  - exists acc. split; [reflexivity|]. unfold wsum. simpl. lra.
  - destruct (price_at_lt (i + j0)) as (p & Hp & Hnth); [lia|].
    destruct (IH (S j0) (acc + p)) as (t & Ht & Heq); [lia|].
    exists t. split.
    + cbn [for_loop]. now rewrite Hp.
    + unfold wsum in *. rewrite (window_S ps _ _ p Hnth), qsum_cons.
      replace (S (i + j0)) with (i + S j0)%nat by lia. rewrite Heq. lra.
Qed.

Lemma window_total_spec slotsNeeded i :
  (i + Z.to_nat slotsNeeded <= length allPrices)%nat ->
  exists t, window_total allPrices slotsNeeded i = Ok t
            /\ t == wsum ps i (Z.to_nat slotsNeeded).
Proof.
  intros H. destruct (window_loop i 0 (Z.to_nat slotsNeeded) 0) as (t & Ht & Heq);
    [lia|].
  exists t. split; [exact Ht|]. rewrite Heq, Nat.add_0_r. lra.
Qed.

(** ** The outer loop keeps the earliest minimal window seen so far *)

(** After [n] iterations: nothing seen yet when [n = 0]; otherwise the
    state holds a finite minimum [m] of the windows [0 .. n-1], reached
    first at [bestStartIndex]. *)
Definition scan_inv (k n : nat) (st : scan_state) : Prop :=
  match n with
  | O => st = scan_init
  | S _ =>
      exists m, minTotalCost st = Fin m /\ (bestStartIndex st < n)%nat
        /\ m == wsum ps (bestStartIndex st) k
        /\ (forall j, (j < n)%nat -> m <= wsum ps j k)
        /\ (forall j, (j < bestStartIndex st)%nat -> m < wsum ps j k)
  end.

Lemma scan_step_inv slotsNeeded n st :
  let k := Z.to_nat slotsNeeded in
  (n + k <= length allPrices)%nat -> scan_inv k n st ->
  exists st', scan_step allPrices slotsNeeded n st = Ok st' /\ scan_inv k (S n) st'.
Proof.
  intros k Hn Hinv. subst k. destruct (window_total_spec slotsNeeded n Hn) as (t & Ht & Heq).
  unfold scan_step. rewrite Ht. cbn [res_bind].
  destruct n as [|n'].
  - cbn [scan_inv] in Hinv. subst st. exists (mkScan 0 (Fin t)). split; [reflexivity|].
    exists t. cbn. repeat split; [lia|exact Heq| |intros; lia].
    intros j Hj. replace j with 0%nat by lia. rewrite Heq. apply Qle_refl.
  - cbn [scan_inv] in Hinv. destruct Hinv as (m & Hm & Hb & Hmb & Hle & Hlt). rewrite Hm.
    destruct (num_lt (Fin t) (Fin m)) eqn:Hc.
    + apply num_lt_Fin in Hc. eexists; split; [reflexivity|].
      exists t. cbn [minTotalCost bestStartIndex]. repeat split; [lia|exact Heq| |].
      * intros j Hj. destruct (Nat.eq_dec j (S n')) as [->|Hne]; [rewrite Heq; apply Qle_refl|].
        specialize (Hle j ltac:(lia)). lra.
      * intros j Hj. specialize (Hle j ltac:(lia)). lra.
    + apply Qltb_false in Hc. eexists; split; [reflexivity|].
      exists m. repeat split; [assumption|lia|assumption| |assumption].
      intros j Hj. destruct (Nat.eq_dec j (S n')) as [->|Hne]; [lra|].
      apply Hle. lia.
Qed.

Lemma scan_loop_inv slotsNeeded n :
  let k := Z.to_nat slotsNeeded in
  (n + k <= S (length allPrices))%nat ->
  exists st, for_loop (scan_step allPrices slotsNeeded) 0 n scan_init = Ok st
             /\ scan_inv k n st.
Proof.
  intros k. induction n as [|n IH]; intros Hn.
  - exists scan_init. split; reflexivity.
  - destruct IH as (st & Hst & Hinv); [lia|].
    destruct (scan_step_inv slotsNeeded n st) as (st' & Hst' & Hinv'); [lia|exact Hinv|].
    exists st'. rewrite for_loop_snoc, Hst. split; [exact Hst'|exact Hinv'].
Qed.


Lemma scan_best slotsNeeded :
  (1 <= slotsNeeded <= Z.of_nat (length allPrices))%Z ->
  exists st m, scan allPrices slotsNeeded = Ok st /\ minTotalCost st = Fin m
    /\ best_window ps (Z.to_nat slotsNeeded) (bestStartIndex st)
    /\ m == wsum ps (bestStartIndex st) (Z.to_nat slotsNeeded).
Proof.
  intros Hs.
  assert (Hlen : length ps = length allPrices) by apply length_map.
  unfold scan, for_upto.
  replace (Z.to_nat (Z.of_nat (length allPrices) - slotsNeeded + 1))
    with (S (length allPrices - Z.to_nat slotsNeeded)) by lia.
  destruct (scan_loop_inv slotsNeeded (S (length allPrices - Z.to_nat slotsNeeded)))
    as (st & Hst & m & Hm & Hb & Hmb & Hle & Hlt); [lia|].
  exists st, m. repeat split; try assumption; [lia| |].
  - intros j Hj. rewrite <- Hmb. apply Hle. lia.
  - intros j Hj. rewrite <- Hmb. now apply Hlt.
Qed.

End Loops.


(** ** Functional behaviour of [calculateBestTime] *)

Lemma best_window_unique ps k s s' :
  best_window ps k s -> best_window ps k s' -> s = s'.
Proof.
  intros (Hs & Hmin & Hfirst) (Hs' & Hmin' & Hfirst').
  destruct (Nat.lt_total s s') as [Hlt|[Heq|Hlt]]; [|exact Heq|].
  - specialize (Hfirst' s Hlt). specialize (Hmin s' Hs'). exfalso. lra.
  - specialize (Hfirst s' Hlt). specialize (Hmin' s Hs). exfalso. lra.
Qed.

(** The result when there is enough data: the window, its first hour and
    the three numbers shown. *)
Lemma calculateBestTime_Best allPrices hoursNeeded energyNeeded :
  0 < hoursNeeded ->
  (Qceiling hoursNeeded <= Z.of_nat (length allPrices))%Z ->
  let slotsNeeded := Qceiling hoursNeeded in
  let k := Z.to_nat slotsNeeded in
  exists s bestStart m,
    calculateBestTime allPrices hoursNeeded energyNeeded
    = Ok (Best s bestStart slotsNeeded (Fin m) (Fin (m / inject_Z slotsNeeded))
               (Fin (m / inject_Z slotsNeeded * energyNeeded)))
    /\ best_window (map price allPrices) k s
    /\ nth_error allPrices s = Some bestStart
    /\ m == wsum (map price allPrices) s k.
Proof.
  intros Hh Hge. pose proof (Qceiling_pos hoursNeeded Hh) as Hk. cbv zeta.
  destruct (scan_best allPrices (Qceiling hoursNeeded)) as (st & m & Hst & Hm & Hbest & Hmb);
    [lia|].
  pose proof Hbest as (Hrange & _ & _). rewrite length_map in Hrange.
  destruct (js_index_lt allPrices (bestStartIndex st)) as (e & He & Hnth); [lia|].
  exists (bestStartIndex st), e, m. split; [|auto].
  unfold calculateBestTime. cbv zeta.
  destruct (Z.ltb_spec (Z.of_nat (length allPrices)) (Qceiling hoursNeeded)); [lia|].
  rewrite Hst. cbn [res_bind]. rewrite He. cbn [res_bind]. rewrite Hm.
  rewrite num_div_Fin by (change 0 with (inject_Z 0); rewrite inject_Z_injective; lia).
  reflexivity.
Qed.

(** For a positive duration the function returns. *)
Lemma calculateBestTime_total allPrices hoursNeeded energyNeeded :
  0 < hoursNeeded -> exists o, calculateBestTime allPrices hoursNeeded energyNeeded = Ok o.
Proof.
  intros Hh.
  destruct (Z.ltb_spec (Z.of_nat (length allPrices)) (Qceiling hoursNeeded)) as [Hlt|Hge].
  - exists NotEnoughData. unfold calculateBestTime. cbv zeta.
    now rewrite (proj2 (Z.ltb_lt _ _) Hlt).
  - destruct (calculateBestTime_Best allPrices hoursNeeded energyNeeded Hh Hge)
      as (s & e & m & -> & _). eauto.
Qed.

(** C1. For a positive duration, [calculateBestTime] never throws; it
    answers "Not enough data" exactly when fewer prices than
    [Math.ceil(hoursNeeded)] are known, and otherwise returns the earliest
    run of that many hours whose total price is minimal, the first hour of
    that run, its total, the average price (total over hours) and the
    estimated cost (average times energy). *)
Theorem calculateBestTime_refines allPrices hoursNeeded energyNeeded :
  0 < hoursNeeded ->
  match calculateBestTime allPrices hoursNeeded energyNeeded with
  | Ok NotEnoughData => (length allPrices < Z.to_nat (Qceiling hoursNeeded))%nat
  | Ok (Best s bestStart slotsNeeded minTotal avg est) =>
      let k := Z.to_nat slotsNeeded in
      slotsNeeded = Qceiling hoursNeeded
      /\ best_window (map price allPrices) k s
      /\ nth_error allPrices s = Some bestStart
      /\ exists m, minTotal = Fin m /\ m == wsum (map price allPrices) s k
          /\ avg = Fin (m / inject_Z slotsNeeded)
          /\ est = Fin (m / inject_Z slotsNeeded * energyNeeded)
  | Throw _ => False
  end.
Proof.
  intros Hh. pose proof (Qceiling_pos hoursNeeded Hh) as Hk.
  destruct (Z.ltb_spec (Z.of_nat (length allPrices)) (Qceiling hoursNeeded)) as [Hlt|Hge].
  - unfold calculateBestTime. cbv zeta.
    rewrite (proj2 (Z.ltb_lt _ _) Hlt). lia.
  - destruct (calculateBestTime_Best allPrices hoursNeeded energyNeeded Hh Hge)
      as (s & e & m & -> & Hb & Hn & Hm).
    cbv zeta. split; [reflexivity|]. split; [exact Hb|]. split; [exact Hn|].
    exists m. repeat split. exact Hm.
Qed.

(** With [slotsNeeded <= 0] the inner loop never runs: every window costs
    [0] and the first one is kept. *)
Lemma scan_nonpositive allPrices slotsNeeded n :
  (slotsNeeded <= 0)%Z ->
  for_loop (scan_step allPrices slotsNeeded) 0 (S n) scan_init = Ok (mkScan 0 (Fin 0)).
Proof.
  intros Hs.
  assert (Hw : forall i, window_total allPrices slotsNeeded i = Ok 0).
  { intros i. unfold window_total, for_below. now replace (Z.to_nat slotsNeeded) with 0%nat by lia. }
  induction n as [|n IH].
  - cbn [for_loop]. unfold scan_step. now rewrite Hw.
  - rewrite for_loop_snoc, IH. cbn [res_bind]. unfold scan_step. now rewrite Hw.
Qed.

(** C31. Without the lower bound of one hour the spec asks for, a
    duration of at most zero hours on an empty price list reads a
    property of [allPrices[0]], which is [undefined]: the call throws a
    [TypeError]. *)
Theorem calculateBestTime_empty_nonpositive hoursNeeded energyNeeded :
  (Qceiling hoursNeeded <= 0)%Z ->
  calculateBestTime [] hoursNeeded energyNeeded = Throw TypeError.
Proof.
  intros H. unfold calculateBestTime. cbv zeta.
  destruct (Z.ltb_spec (Z.of_nat (length (@nil PricedHour))) (Qceiling hoursNeeded));
    [cbn in *; lia|].
  unfold scan, for_upto. cbn [length Z.of_nat].
  replace (Z.to_nat (0 - Qceiling hoursNeeded + 1))
    with (S (Z.to_nat (- Qceiling hoursNeeded))) by lia.
  now rewrite scan_nonpositive.
Qed.

(** ** The scenarios of the spec *)

(** Prices for consecutive hours from [t0] (milliseconds). *)
Definition hourly (t0 : Z) (prices : list Q) : list PricedHour :=
  map (fun '(h, p) => mkPricedHour (t0 + Z.of_nat h * 3600000) p)
      (combine (seq 0 (length prices)) prices).

Definition scenarioA := hourly 0 [3; 3; 3; 3].
Definition scenarioB := hourly 0 [5; 1; 1; 5].
Definition scenarioC := hourly 0 [4].

(** Scenario B: the windows cost [6; 2; 6]; the run starts at index 1,
    costs 2 and averages 1 DKK/kWh. The witness derives the window's
    optimality from [calculateBestTime_refines]. *)
Lemma calculateBestTime_refines_witness :
  best_window [5; 1; 1; 5] 2 1 /\
  calculateBestTime scenarioB 2 10
  = Ok (Best 1 (mkPricedHour 3600000 1) 2 (Fin 2) (Fin (2 # 2)) (Fin (20 # 2))).
Proof.
  pose proof (calculateBestTime_refines scenarioB 2 10 ltac:(reflexivity)) as H.
  assert (Hrun : calculateBestTime scenarioB 2 10
    = Ok (Best 1 (mkPricedHour 3600000 1) 2 (Fin 2) (Fin (2 # 2)) (Fin (20 # 2))))
    by reflexivity.
  rewrite Hrun in H. destruct H as (_ & Hb & _). split; [exact Hb | exact Hrun].
Defined.

(** Scenario A: all windows cost 6; the earliest one is taken. *)
Example scenarioA_earliest :
  exists e a c, calculateBestTime scenarioA 2 10 = Ok (Best 0 e 2 (Fin 6) a c).
Proof. eexists _, _, _. reflexivity. Qed.

(** Scenario C: one price, two hours needed. *)
Example scenarioC_not_enough : calculateBestTime scenarioC 2 10 = Ok NotEnoughData.
Proof. reflexivity. Qed.

Lemma calculateBestTime_empty_nonpositive_witness :
  (Qceiling 0 <= 0)%Z /\ calculateBestTime [] 0 10 = Throw TypeError.
Proof. split; [reflexivity | apply calculateBestTime_empty_nonpositive; reflexivity]. Defined.

End Selector.
