(* ===== verification/Chart.v ===== *)
(** The price chart, [renderChart] (src/script.js, lines 361-415): hidden
    when the "show graph" box is not ticked or there are no prices;
    otherwise the previous Chart.js instance is destroyed and a bar chart
    of all prices is created, with the bars of the chosen window in the
    highlight colour. The drawing itself is Chart.js's: the model keeps
    what the code hands it (labels, data, colours) and the instance
    variable [priceChartInstance]. A label is the local hour and minute
    of the entry ([toLocaleTimeString] with two-digit hour and minute; the
    locale's punctuation is the Intl library's). *)

From Stdlib Require Import QArith ZArith Lia List.
From S2P Require Import Prelude JsDate PriceData.
Import ListNotations.

Module Chart.

(** [rgba(75, 192, 192, 0.8)] and [rgba(201, 203, 207, 0.5)]. *)
Inductive bar_color := Highlighted | Plain.

(** The configuration passed to [new Chart(ctx, ...)] (lines 386-414),
    reduced to the data it depends on. *)
Record chart := mkChart {
  labels : list (Z * Z);
  data : list Q;
  backgroundColor : list bar_color }.

(** The part of the page [renderChart] writes: the display of
    [graphContainer] and the global [priceChartInstance]; [destroyed]
    counts the instances destroyed so far. *)
Record chart_state := mkChartState {
  graphShown : bool;
  priceChartInstance : option chart;
  destroyed : nat }.

Definition label_of (z : zone) (p : PricedHour) : Z * Z :=
  let lt := LocalTime z (time p) in (HourFromTime lt, MinFromTime lt).

(** Lines 380-384. *)
Definition bgColors (n bestStartIndex : nat) (slotsNeeded : Z) : list bar_color :=
  map (fun index =>
         if (Z.of_nat bestStartIndex <=? Z.of_nat index)%Z
            && (Z.of_nat index <? Z.of_nat bestStartIndex + slotsNeeded)%Z
         then Highlighted else Plain)
      (seq 0 n).

(** Lines 361-415, with [showGraph] the state of the checkbox and [z] the
    browser's time zone. *)
Definition renderChart (z : zone) (showGraph : bool) (allPrices : list PricedHour)
  (bestStartIndex : nat) (slotsNeeded : Z) (st : chart_state) : chart_state :=
  if negb showGraph || (length allPrices =? 0)%nat then
    mkChartState false (priceChartInstance st) (destroyed st)
  else
    let destroyed' :=
      match priceChartInstance st with
      | Some _ => S (destroyed st)
      | None => destroyed st
      end in
    let chart := mkChart (map (label_of z) allPrices) (map price allPrices)
                         (bgColors (length allPrices) bestStartIndex slotsNeeded) in
    mkChartState true (Some chart) destroyed'.

Lemma length_bgColors n b s : length (bgColors n b s) = n.
Proof. unfold bgColors. now rewrite length_map, length_seq. Qed.

Lemma nth_bgColors n b s i :
  (i < n)%nat ->
  nth_error (bgColors n b s) i
  = Some (if (Z.of_nat b <=? Z.of_nat i)%Z && (Z.of_nat i <? Z.of_nat b + s)%Z
          then Highlighted else Plain).
Proof.
  intros Hi. unfold bgColors. rewrite nth_error_map, nth_error_seq.
  destruct (Nat.ltb_spec i n); [reflexivity|lia].
Qed.

(** C13. With the box ticked and at least one price, the chart is shown
    and the new instance has one bar per price, in order, with the bar
    [i] highlighted exactly when [bestStartIndex <= i < bestStartIndex +
    slotsNeeded]; a previous instance is destroyed first. *)
Theorem renderChart_mask z allPrices b s st :
  allPrices <> [] ->
  exists c, renderChart z true allPrices b s st
            = mkChartState true (Some c)
                (if priceChartInstance st is Some _ then S (destroyed st) else destroyed st)
    /\ data c = map price allPrices
    /\ length (backgroundColor c) = length allPrices
    /\ forall i, (i < length allPrices)%nat ->
         (nth_error (backgroundColor c) i = Some Highlighted
          <-> (b <= i)%nat /\ (Z.of_nat i < Z.of_nat b + s)%Z).
Proof.
  intros Hne. unfold renderChart.
  destruct (Nat.eqb_spec (length allPrices) 0) as [H0|H0];
    [apply length_zero_iff_nil in H0; contradiction|].
  cbn [negb orb]. eexists. split.
  { destruct (priceChartInstance st); reflexivity. }
  split; [reflexivity|]. split; [apply length_bgColors|].
  intros i Hi. cbn [backgroundColor]. rewrite nth_bgColors by exact Hi.
  destruct (Z.leb_spec (Z.of_nat b) (Z.of_nat i)), (Z.ltb_spec (Z.of_nat i) (Z.of_nat b + s));
    cbn; split; intros Hc; try discriminate; try lia; reflexivity.
Qed.

Lemma renderChart_mask_witness :
  [mkPricedHour 0 1; mkPricedHour 3600000 2] <> [] /\
  exists c, renderChart (fixed_zone 0) true [mkPricedHour 0 1; mkPricedHour 3600000 2] 1 1
              (mkChartState false None 0)
            = mkChartState true (Some c) 0
    /\ data c = [1; 2]
    /\ length (backgroundColor c) = 2%nat
    /\ forall i, (i < 2)%nat ->
         (nth_error (backgroundColor c) i = Some Highlighted
          <-> (1 <= i)%nat /\ (Z.of_nat i < Z.of_nat 1 + 1)%Z).
Proof.
  split; [discriminate|].
  exact (renderChart_mask (fixed_zone 0) [mkPricedHour 0 1; mkPricedHour 3600000 2] 1 1
           (mkChartState false None 0) ltac:(discriminate)).
Defined.

(** C33. With the box not ticked, or with no prices, the graph container
    is hidden and nothing else changes: the previous instance is neither
    destroyed nor replaced. *)
Theorem renderChart_hidden z showGraph allPrices b s st :
  showGraph = false \/ allPrices = [] ->
  renderChart z showGraph allPrices b s st
  = mkChartState false (priceChartInstance st) (destroyed st).
Proof.
  intros [-> | ->]; unfold renderChart; [reflexivity|].
  now rewrite Bool.orb_true_r.
Qed.

Lemma renderChart_hidden_witness :
  (false = false \/ [mkPricedHour 0 1] = []) /\
  renderChart (fixed_zone 0) false [mkPricedHour 0 1] 0 1 (mkChartState true None 2)
  = mkChartState false None 2.
Proof. split; [now left|]. apply renderChart_hidden. now left. Defined.

End Chart.
