(* ===== verification/ChargeForm.v ===== *)
(** The charging form, [calculateChargingTime] (src/script.js, lines
    417-471): the two checks of the inputs, the energy and the time a
    charge needs, and the split of the time into whole hours and rounded
    minutes for the result text. The inputs are the numbers [parseFloat]
    returns for the five fields ([NaN] for an empty field); the call of
    [fetchAndCalculatePrices] that ends the handler is composed in the
    price-flow file. *)

From Stdlib Require Import QArith Qround Lia Lqa ZArith Bool.
From S2P Require Import Prelude JsNumber.

Module Form.

(** The five fields, as parsed (lines 420-424). *)
Record form_input := mkInput {
  currentSoc : num;
  targetSoc : num;
  batteryCapacity : num;
  chargePower : num;
  chargeEfficiency : num }.

(** The three shapes of [timeText] (lines 452-458). *)
Inductive time_text :=
| HoursAndMinutes (hours minutes : num)
| HoursOnly (hours : num)
| MinutesOnly (minutes : num).

(** The outcomes of the handler: the first alert (target not above the
    current charge, lines 427-432), the second alert (lines 434-438), or
    the computed charge (lines 440-466). *)
Inductive charge_outcome :=
| InvalidRange
| InvalidValues
| Charged (energyNeeded timeInHours hours minutes : num) (timeText : time_text).

(** The condition of the second alert (lines 434-435). *)
Definition invalidValues (i : form_input) : bool :=
  isNaN (currentSoc i) || isNaN (targetSoc i) || isNaN (batteryCapacity i)
  || isNaN (chargePower i) || isNaN (chargeEfficiency i)
  || num_lt (currentSoc i) (Fin 0) || num_lt (Fin 100) (targetSoc i)
  || num_le (batteryCapacity i) (Fin 0) || num_le (chargePower i) (Fin 0)
  || num_le (chargeEfficiency i) (Fin 0) || num_lt (Fin 100) (chargeEfficiency i).

(** Lines 452-458. *)
Definition timeTextOf (hours minutes : num) : time_text :=
  if num_lt (Fin 0) hours && num_lt (Fin 0) minutes then HoursAndMinutes hours minutes
  else if num_lt (Fin 0) hours then HoursOnly hours
  else MinutesOnly minutes.

(** Lines 417-458. *)
Definition calculateChargingTime (i : form_input) : charge_outcome :=
  if num_le (targetSoc i) (currentSoc i) then InvalidRange
  else if invalidValues i then InvalidValues
  else
    let energyNeeded :=
      num_div (num_mul (batteryCapacity i) (num_sub (targetSoc i) (currentSoc i))) (Fin 100) in
    let effectiveChargePower := num_mul (chargePower i) (num_div (chargeEfficiency i) (Fin 100)) in
    let timeInHours := num_div energyNeeded effectiveChargePower in
    let hours := Math_floor timeInHours in
    let minutes := Math_round (num_mul (num_sub timeInHours hours) (Fin 60)) in
    Charged energyNeeded timeInHours hours minutes (timeTextOf hours minutes).

(** ** Validation *)

(** Every field holds a finite number or is empty ([NaN]). *)
Definition from_fields (i : form_input) : bool :=
  finite_or_nan (currentSoc i) && finite_or_nan (targetSoc i)
  && finite_or_nan (batteryCapacity i) && finite_or_nan (chargePower i)
  && finite_or_nan (chargeEfficiency i).

(** The inputs the two checks let through. *)
Definition valid_input (c tg cap p ef : Q) : Prop :=
  0 <= c /\ c < tg /\ tg <= 100 /\ 0 < cap /\ 0 < p /\ 0 < ef /\ ef <= 100.

Lemma checks_passed i :
  from_fields i = true ->
  num_le (targetSoc i) (currentSoc i) = false -> invalidValues i = false ->
  exists c tg cap p ef,
    i = mkInput (Fin c) (Fin tg) (Fin cap) (Fin p) (Fin ef) /\ valid_input c tg cap p ef.
Proof.
  intros Hf Hr Hv. unfold from_fields, invalidValues in *.
  rewrite !andb_true_iff in Hf. rewrite !orb_false_iff in Hv.
  destruct Hf as ((((F1 & F2) & F3) & F4) & F5).
  destruct Hv as ((((((((((N1 & N2) & N3) & N4) & N5) & L1) & L2) & L3) & L4) & L5) & L6).
  destruct i as [c tg cap p ef]; cbn [currentSoc targetSoc batteryCapacity chargePower
    chargeEfficiency] in *.
  destruct (finite_not_nan _ F1 N1) as [qc ->], (finite_not_nan _ F2 N2) as [qt ->],
    (finite_not_nan _ F3 N3) as [qa ->], (finite_not_nan _ F4 N4) as [qp ->],
    (finite_not_nan _ F5 N5) as [qe ->].
  rewrite num_le_Fin_false in Hr, L3, L4, L5. rewrite num_lt_Fin_false in L1, L2, L6.
  exists qc, qt, qa, qp, qe. split; [reflexivity|]. unfold valid_input. lra.
Qed.

(** The energy and the time the handler computes from valid inputs. *)
Lemma charged_values c tg cap p ef :
  valid_input c tg cap p ef ->
  calculateChargingTime (mkInput (Fin c) (Fin tg) (Fin cap) (Fin p) (Fin ef))
  = let e := cap * (tg - c) / 100 in
    let t := e / (p * (ef / 100)) in
    let h := Fin (inject_Z (Qfloor t)) in
    let m := Math_round (num_mul (num_sub (Fin t) h) (Fin 60)) in
    Charged (Fin e) (Fin t) h m (timeTextOf h m).
Proof.
  intros Hv. pose proof Hv as (H1 & H2 & H3 & H4 & H5 & H6 & H7).
  unfold calculateChargingTime. cbn [targetSoc currentSoc].
  destruct (num_le (Fin tg) (Fin c)) eqn:Hr; [apply num_le_Fin in Hr; lra|].
  destruct (invalidValues _) eqn:Hi.
  { exfalso. unfold invalidValues in Hi. cbn [targetSoc currentSoc batteryCapacity
      chargePower chargeEfficiency isNaN orb] in Hi.
    repeat match type of Hi with
           | (?a || ?b) = true => apply orb_true_iff in Hi as [Hi|Hi]
           end;
      first [apply num_lt_Fin in Hi | apply num_le_Fin in Hi]; lra. }
  cbv zeta. cbn [batteryCapacity chargePower chargeEfficiency].
  change (num_mul (Fin cap) (num_sub (Fin tg) (Fin c))) with (Fin (cap * (tg - c))).
  rewrite (num_div_Fin _ 100), (num_div_Fin ef 100) by lra.
  change (num_mul (Fin p) (Fin (ef / 100))) with (Fin (p * (ef / 100))).
  rewrite num_div_Fin; [reflexivity|].
  pose proof (Qmult_lt_0_compat p (ef / 100) H5 ltac:(apply Qdiv_pos; lra)). lra.
Qed.

Lemma charged_inv i e t h m txt :
  from_fields i = true ->
  calculateChargingTime i = Charged e t h m txt ->
  exists c tg cap p ef,
    i = mkInput (Fin c) (Fin tg) (Fin cap) (Fin p) (Fin ef) /\ valid_input c tg cap p ef.
Proof.
  intros Hf H. unfold calculateChargingTime in H.
  destruct (num_le (targetSoc i) (currentSoc i)) eqn:Hr; [discriminate|].
  destruct (invalidValues i) eqn:Hv; [discriminate|].
  now apply checks_passed.
Qed.

(** An accepted submission yields a positive energy and a positive time. *)
Lemma charged_pos i e t h m txt :
  from_fields i = true ->
  calculateChargingTime i = Charged e t h m txt ->
  exists ee te, e = Fin ee /\ t = Fin te /\ 0 < ee /\ 0 < te.
Proof.
  intros Hf H. destruct (charged_inv i e t h m txt Hf H) as (c & tg & cap & p & ef & -> & Hv).
  rewrite (charged_values _ _ _ _ _ Hv) in H. injection H as <- <- _ _ _.
  destruct Hv as (H1 & H2 & H3 & H4 & H5 & H6 & H7).
  assert (He : 0 < cap * (tg - c) / 100).
  { apply Qdiv_pos; [apply Qmult_lt_0_compat|]; lra. }
  do 2 eexists. split; [reflexivity|]. split; [reflexivity|]. split; [exact He|].
  apply Qdiv_pos; [exact He|]. apply Qmult_lt_0_compat; [exact H5|]. apply Qdiv_pos; lra.
Qed.

(** C9. With every field a number or empty, the handler computes a
    charge exactly when the current charge is at least 0, the target is
    above it and at most 100, the capacity and the power are positive and
    the efficiency is in (0, 100]; otherwise it stops at one of the two
    alerts. *)
Theorem calculateChargingTime_accepts i :
  from_fields i = true ->
  (exists e t h m txt, calculateChargingTime i = Charged e t h m txt) <->
  exists c tg cap p ef,
    i = mkInput (Fin c) (Fin tg) (Fin cap) (Fin p) (Fin ef) /\ valid_input c tg cap p ef.
Proof.
  intros Hf. split.
  - intros (e & t & h & m & txt & H). eapply charged_inv; eauto.
  - intros (c & tg & cap & p & ef & -> & Hv). rewrite (charged_values _ _ _ _ _ Hv).
    do 5 eexists. reflexivity.
Qed.

Lemma calculateChargingTime_accepts_witness :
  from_fields (mkInput (Fin 20) (Fin 80) (Fin 77) (Fin 11) (Fin 90)) = true /\
  exists c tg cap p ef,
    mkInput (Fin 20) (Fin 80) (Fin 77) (Fin 11) (Fin 90)
    = mkInput (Fin c) (Fin tg) (Fin cap) (Fin p) (Fin ef) /\ valid_input c tg cap p ef.
Proof.
  split; [reflexivity|].
  apply (calculateChargingTime_accepts (mkInput (Fin 20) (Fin 80) (Fin 77) (Fin 11) (Fin 90)));
    [reflexivity|].
  do 5 eexists. reflexivity.
Defined.

(** The form's default car: 20 % to 80 %, 77 kWh, 11 kW, 90 %. *)
Definition example_input : form_input := mkInput (Fin 20) (Fin 80) (Fin 77) (Fin 11) (Fin 90).

(** ** The hours and minutes of the result text *)

Lemma minutes_of_time (t : Q) :
  0 < t ->
  exists mz, Math_round (num_mul (num_sub (Fin t) (Fin (inject_Z (Qfloor t)))) (Fin 60))
             = Fin (inject_Z mz) /\ (0 <= mz <= 60)%Z.
Proof.
  intros Ht. eexists. split; [reflexivity|].
  apply Qround_half_bounds; pose proof (Qfloor_le t); pose proof (Qlt_floor t);
    rewrite inject_Z_plus in *; change (inject_Z 1) with 1 in *;
    change (inject_Z 60) with 60; lra.
Qed.

(** C25. The text shows [Math.floor] of the time as hours, a natural
    number, and [Math.round] of the remaining fraction of an hour times 60
    as minutes, a whole number from 0 to 60 inclusive: 60 is not carried
    into the hours. *)
Theorem calculateChargingTime_minutes_bound i e t h m txt :
  from_fields i = true ->
  calculateChargingTime i = Charged e t h m txt ->
  exists tq mz, t = Fin tq /\ h = Fin (inject_Z (Qfloor tq)) /\ (0 <= Qfloor tq)%Z
    /\ m = Fin (inject_Z mz) /\ (0 <= mz <= 60)%Z.
Proof.
  intros Hf H. destruct (charged_inv i e t h m txt Hf H) as (c & tg & cap & p & ef & -> & Hv).
  rewrite (charged_values _ _ _ _ _ Hv) in H. injection H as _ <- <- <- _.
  destruct Hv as (H1 & H2 & H3 & H4 & H5 & H6 & H7).
  set (tq := cap * (tg - c) / 100 / (p * (ef / 100))).
  assert (Htq : 0 < tq).
  { apply Qdiv_pos; [apply Qdiv_pos; [apply Qmult_lt_0_compat|]|
      apply Qmult_lt_0_compat; [|apply Qdiv_pos]]; lra. }
  destruct (minutes_of_time tq Htq) as (mz & Hm & Hb).
  exists tq, mz. split; [reflexivity|]. split; [reflexivity|].
  split; [|exact (conj Hm Hb)].
  change 0%Z with (Qfloor 0). apply Qfloor_resp_le. lra.
Qed.

(** C26. The bound 60 is reached: 0 % to 100 % of 60 kWh at 11 kW and
    91 % efficiency takes 5.994 hours, which the result text shows as
    "5 hours and 60 minutes" instead of 6 hours. *)
Theorem calculateChargingTime_sixty_minutes :
  exists e t,
    calculateChargingTime (mkInput (Fin 0) (Fin 100) (Fin 60) (Fin 11) (Fin 91))
    = Charged e t (Fin 5) (Fin 60) (HoursAndMinutes (Fin 5) (Fin 60)).
Proof. eexists _, _. reflexivity. Qed.

Lemma calculateChargingTime_minutes_bound_witness :
  exists e t h m txt,
    calculateChargingTime example_input = Charged e t h m txt /\
    exists tq mz, t = Fin tq /\ h = Fin (inject_Z (Qfloor tq)) /\ (0 <= Qfloor tq)%Z
      /\ m = Fin (inject_Z mz) /\ (0 <= mz <= 60)%Z.
Proof.
  do 5 eexists. split; [reflexivity|].
  eapply (calculateChargingTime_minutes_bound example_input); reflexivity.
Defined.

End Form.
