(* ===== verification/Double.v ===== *)
(** The arithmetic of the page in IEEE 754 double precision. The other
    files compute with exact rationals ([JsNumber]); this one runs the two
    numeric routines of the handler, the charge computation of
    [calculateChargingTime] (src/script.js, lines 440-445) and the window
    loop of [calculateBestTime] (lines 326-351), on the kernel's binary64
    floats ([PrimFloat.float]), with the rounding, overflow to [Infinity]
    and underflow to [0] of JavaScript's numbers. Comparisons, [isNaN],
    [Math.floor], [Math.ceil] and [Math.round] are exact functions of a
    double's value, so they read the value through [of_float] and reuse
    the definitions of [JsNumber]; only [+], [-], [*] and [/] round. The
    concrete runs at the end show where the exact model and the browser
    part: equal windows that the rounded sums no longer tie, a capacity
    whose energy overflows, and a duration that underflows to zero. *)

From Stdlib Require Import QArith Qround Qabs ZArith List Floats Uint63.
From S2P Require Import Prelude JsNumber PriceData BestTime ChargeForm.
Import ListNotations.

#[local] Set Warnings "-inexact-float".

Module Double.
Import Form Selector.

(** ** Doubles and their values *)

(** The value of a double: a finite double is [m * 2^e] exactly. *)
Definition of_float (x : float) : num :=
  match Prim2SF x with
  | S754_zero _ => Fin 0
  | S754_infinity false => PosInf
  | S754_infinity true => NegInf
  | S754_nan => NaN
  | S754_finite s m e =>
      let q := match e with
               | Z0 => inject_Z (Zpos m)
               | Zpos p => inject_Z (Zpos m * 2 ^ Zpos p)
               | Zneg p => Zpos m # (2 ^ p)
               end in
      Fin (if s then - q else q)
  end.

(** An integer below [2^62] in magnitude as a double; exact below
    [2^53]. *)
Definition float_of_Z (z : Z) : float :=
  if (0 <=? z)%Z then of_uint63 (Uint63.of_Z z) else (- of_uint63 (Uint63.of_Z (- z)))%float.

(** [Math.floor] on a double: a double of magnitude [2^52] or more is an
    integer already; below, its floor is an integer below [2^52]. *)
Definition floor_f (x : float) : float :=
  match of_float x with
  | Fin q => if Qle_bool (4503599627370496 # 1) (Qabs q) then x else float_of_Z (Qfloor q)
  | _ => x
  end.

(** [Math.ceil]. *)
Definition ceil_f (x : float) : float := (- floor_f (- x))%float.

(** ** The charge computation *)

(** The five fields as [parseFloat] reads them: the double nearest to
    each decimal. *)
Record dbl_input := mkDInput {
  dCurrentSoc : float;
  dTargetSoc : float;
  dBatteryCapacity : float;
  dChargePower : float;
  dChargeEfficiency : float }.

Definition exact_input (i : dbl_input) : form_input :=
  mkInput (of_float (dCurrentSoc i)) (of_float (dTargetSoc i)) (of_float (dBatteryCapacity i))
    (of_float (dChargePower i)) (of_float (dChargeEfficiency i)).

(** Lines 440-442: [energyNeeded] and [timeInHours], rounded at each
    operation. *)
Definition charge_values (i : dbl_input) : float * float :=
  let energyNeeded := (dBatteryCapacity i * (dTargetSoc i - dCurrentSoc i) / 100)%float in
  let effectiveChargePower := (dChargePower i * (dChargeEfficiency i / 100))%float in
  (energyNeeded, (energyNeeded / effectiveChargePower)%float).

(** Lines 417-458 in doubles: the two checks compare the doubles' values
    ([Form.invalidValues] on [exact_input]), the hours are
    [Math.floor(timeInHours)] and the minutes
    [Math.round((timeInHours - hours) * 60)]. *)
Definition calculateChargingTime (i : dbl_input) : charge_outcome :=
  let ei := exact_input i in
  if num_le (targetSoc ei) (currentSoc ei) then InvalidRange
  else if invalidValues ei then InvalidValues
  else
    let '(energyNeeded, timeInHours) := charge_values i in
    let hours := floor_f timeInHours in
    let minutes := Math_round (of_float ((timeInHours - hours) * 60)%float) in
    Charged (of_float energyNeeded) (of_float timeInHours) (of_float hours) minutes
      (timeTextOf (of_float hours) minutes).

(** ** The window loop *)

(** What lines 326-351 compute in doubles: "Not enough data", the best
    start with the average price and the estimated cost, or a loop that
    does not end (a bound of [Infinity], which needs a negative
    duration). *)
Inductive outcome :=
| NotEnoughData
| Best (bestStartIndex : nat) (minTotalCost avgPrice totalEstimatedCost : float)
| LoopsForever.

(** Lines 337-346 at start [i]: [currentTotal += allPrices[i + j].price]
    for [j < slotsNeeded], then the strict [<]. *)
Definition scan_step (allPrices : list float) (slotsNeeded : Z) (i : nat)
  (st : nat * float) : res (nat * float) :=
  currentTotal <- for_below (fun j c => p <- js_index allPrices (i + j) ;; Ok (c + p)%float)
                    slotsNeeded 0%float ;;
  if PrimFloat.ltb currentTotal (snd st) then Ok (i, currentTotal) else Ok st.

(** Lines 326-351: [slotsNeeded = Math.ceil(hoursNeeded)]; the outer loop
    runs while [i <= allPrices.length - slotsNeeded], none when that bound
    is [NaN]; [allPrices[bestStartIndex].time] throws on an empty list. *)
Definition calculateBestTime (allPrices : list float) (hoursNeeded energyNeeded : float)
  : res outcome :=
  let slotsNeeded := ceil_f hoursNeeded in
  let len := float_of_Z (Z.of_nat (length allPrices)) in
  if PrimFloat.ltb len slotsNeeded then Ok NotEnoughData
  else
    let k := match of_float slotsNeeded with Fin q => Qfloor q | _ => 0%Z end in
    match of_float (len - slotsNeeded)%float with
    | PosInf => Ok LoopsForever
    | bound =>
        let hi := match bound with Fin b => Qfloor b | _ => (-1)%Z end in
        st <- for_upto (scan_step allPrices k) hi (0%nat, infinity) ;;
        _ <- js_index allPrices (fst st) ;;
        let avgPrice := (snd st / slotsNeeded)%float in
        Ok (Best (fst st) (snd st) avgPrice (avgPrice * energyNeeded)%float)
    end.

(** ** Where doubles and the exact model part *)

(** Hourly prices in DKK/kWh, as [JSON.parse] reads them, and their
    decimal values. *)
Definition tie_prices : list float := [0.3; 1.1; 0.4; 0.3; 0.3; 0.3; 0.4]%float.
Definition tie_prices_exact : list Q := [3#10; 11#10; 4#10; 3#10; 3#10; 3#10; 4#10].

(** 0 % to 50 % of a 1e308 kWh battery at 11 kW, 90 %: every field
    passes both checks. *)
Definition big_capacity : dbl_input := mkDInput 0 50 1e308 11 90.

(** 0 % to 50 % of a 1e-200 kWh battery at 1e200 kW, 100 %. *)
Definition tiny_charge : dbl_input := mkDInput 0 50 1e-200 1e200 100.

(** C15. Equal windows that rounding separates: with the prices 0.3,
    1.1, 0.4, 0.3, 0.3, 0.3, 0.4 and a 4-hour charge, the windows from
    index 2 and index 3 both cost 1.3, and the exact loop takes the
    earlier, as the spec's earliest-wins rule asks; in doubles the later
    sum is 1.2999999999999998, below the earlier 1.3, so the browser
    starts the charge an hour later. *)
Theorem calculateBestTime_double_tie :
  wsum tie_prices_exact 2 4 == wsum tie_prices_exact 3 4
  /\ (exists e m a c,
        Selector.calculateBestTime (map (mkPricedHour 0) tie_prices_exact) 4 1
        = Ok (Selector.Best 2 e 4 m a c))
  /\ exists m a c, calculateBestTime tie_prices 4 1 = Ok (Best 3 m a c).
Proof.
  split; [vm_compute; reflexivity|split].
  - do 4 eexists. vm_compute. reflexivity.
  - do 3 eexists. vm_compute. reflexivity.
Qed.

(** C27. Overflow: a capacity of 1e308 passes both checks, and
    [1e308 * 50] overflows, so the energy, the time and the hours are
    [Infinity] and the minutes [NaN]: the result reads "Infinity hours",
    and with a day of prices the price area answers "Not enough data"
    ([allPrices.length < Infinity]). The exact model computes a finite
    charge for the same fields. *)
Theorem calculateChargingTime_double_overflow :
  calculateChargingTime big_capacity = Charged PosInf PosInf PosInf NaN (HoursOnly PosInf)
  /\ calculateBestTime tie_prices (snd (charge_values big_capacity)) (fst (charge_values big_capacity))
     = Ok NotEnoughData
  /\ exists e t h m txt,
       Form.calculateChargingTime (exact_input big_capacity) = Charged (Fin e) (Fin t) h m txt.
Proof.
  split; [vm_compute; reflexivity|split; [vm_compute; reflexivity|]].
  do 5 eexists. vm_compute. reflexivity.
Qed.

(** C28. Underflow: with a capacity of 1e-200 and a power of 1e200 the
    checks pass and the energy is positive, but the time, about 5e-401
    hours, rounds to 0: the result reads "0 minutes" and the request
    goes out with a duration of 0 hours, the case the exact model rules
    out (its time is positive). [Math.ceil(0)] slots make every window
    empty: on an empty price list [allPrices[0].time] throws (the page
    shows "Error"), on a non-empty one the average is [0 / 0], [NaN]. *)
Theorem calculateChargingTime_double_underflow :
  (exists e, calculateChargingTime tiny_charge = Charged (Fin e) (Fin 0) (Fin 0) (Fin 0) (MinutesOnly (Fin 0))
             /\ 0 < e)
  /\ snd (charge_values tiny_charge) = 0%float
  /\ calculateBestTime [] (snd (charge_values tiny_charge)) (fst (charge_values tiny_charge))
     = Throw TypeError
  /\ (exists m a c, calculateBestTime tie_prices (snd (charge_values tiny_charge))
                      (fst (charge_values tiny_charge)) = Ok (Best 0 m a c) /\ of_float a = NaN)
  /\ exists e t h m txt,
       Form.calculateChargingTime (exact_input tiny_charge) = Charged (Fin e) (Fin t) h m txt /\ 0 < t.
Proof.
  split; [eexists; split; [vm_compute; reflexivity|vm_compute; reflexivity]|].
  split; [vm_compute; reflexivity|split; [vm_compute; reflexivity|split]].
  - do 3 eexists. split; vm_compute; reflexivity.
  - do 5 eexists. split; [vm_compute; reflexivity|vm_compute; reflexivity].
Qed.

End Double.
