(* ===== verification/Localization.v ===== *)
(** Localization (src/script.js, lines 2-3, 218-268 and the lookup
    [allTranslations[currentLanguage] || allTranslations['en'] || {}] that
    opens most handlers): the translation tables as a map from language to
    a map from key to text, the choice of the language from the browser's,
    and [updateUI], which writes the texts of the current language into the
    page. The page's texts are a map from element id to text content;
    [document.title], the car-name placeholder and the custom option of
    the preset list are entries of that map under the ids
    ["document.title"], ["carNameInput.placeholder"] and ["optionCustom"];
    in the page the custom option written here is replaced right after by
    the rebuild of the dropdown (Presets, [customOptionText]).
    [toLowerCase] is modelled on ASCII letters. *)

From Stdlib Require Import String Ascii List.
From stdpp Require Import base gmap strings.
Import ListNotations.

Module Localization.

Local Open Scope string_scope.

(** [t.key || fallback]: a missing or empty text gives the fallback. *)
Definition tr (t : gmap string string) (key fallback : string) : string :=
  match t !! key with
  | Some s => if String.eqb s "" then fallback else s
  | None => fallback
  end.

(** [allTranslations[lang] || allTranslations['en'] || {}]. *)
Definition tableFor (allTranslations : gmap string (gmap string string)) (lang : string)
  : gmap string string :=
  match allTranslations !! lang with
  | Some t => t
  | None =>
      match allTranslations !! "en" with
      | Some t => t
      | None => ∅
      end
  end.

(** [String.prototype.toLowerCase] on ASCII letters. *)
Definition lower_ascii (c : ascii) : ascii :=
  let n := nat_of_ascii c in
  if (65 <=? n)%nat && (n <=? 90)%nat then ascii_of_nat (n + 32) else c.

Fixpoint toLowerCase (s : string) : string :=
  match s with
  | EmptyString => EmptyString
  | String c s' => String (lower_ascii c) (toLowerCase s')
  end.

(** [s.split('-')[0]]: the text before the first ['-']. *)
Fixpoint before_dash (s : string) : string :=
  match s with
  | EmptyString => EmptyString
  | String c s' => if Ascii.eqb c "-"%char then EmptyString else String c (before_dash s')
  end.

(** The state this component writes: [currentLanguage], the value of the
    language select and the texts of the page. *)
Record ui_state := mkUi {
  currentLanguage : string;
  languageSelectValue : string;
  texts : gmap string string }.

(** The ids [updateUI] fills from the keys of the same name (lines
    236-253). *)
Definition uiKeys : list string :=
  ["title"; "subtitle"; "modalTitle"; "labelLanguage"; "labelSavePreset";
   "labelManageCars"; "labelTaxRefund"; "labelShowGraph"; "labelCurrentSoc";
   "labelTargetSoc"; "labelBatteryCapacity"; "labelChargePower";
   "labelChargeEfficiency"; "calculateBtn"; "resultLabel"; "btnSave"].

(** [if (el && text) el.textContent = text]: an undefined or empty text
    leaves the element as it is. *)
Definition setText (t : gmap string string) (key id : string) (dom : gmap string string)
  : gmap string string :=
  match t !! key with
  | Some s => if String.eqb s "" then dom else <[id := s]> dom
  | None => dom
  end.

(** Lines 232-268. *)
Definition updateUI (allTranslations : gmap string (gmap string string)) (st : ui_state)
  : ui_state :=
  let t := tableFor allTranslations (currentLanguage st) in
  let dom := fold_left (fun dom id => setText t id id dom) uiKeys (texts st) in
  let dom := setText t "optionCustom" "optionCustom" dom in
  let dom := setText t "placeholderCarName" "carNameInput.placeholder" dom in
  let dom := setText t "title" "document.title" dom in
  mkUi (currentLanguage st) (languageSelectValue st) dom.

(** Lines 218-223: [navigatorLanguage] is [navigator.language]. *)
Definition detectLanguage (allTranslations : gmap string (gmap string string))
  (navigatorLanguage : string) (st : ui_state) : ui_state :=
  let browserLang := before_dash (toLowerCase navigatorLanguage) in
  let lang := if allTranslations !! browserLang is Some _ then browserLang else "en" in
  updateUI allTranslations (mkUi lang lang (texts st)).

(** ** What [updateUI] writes *)

(** The pairs (key of the table, element written) of [updateUI], in the
    order it writes them. *)
Definition uiTargets : list (string * string) :=
  map (fun k => (k, k)) uiKeys
  ++ [("optionCustom", "optionCustom"); ("placeholderCarName", "carNameInput.placeholder");
      ("title", "document.title")].

(** A text that [if (text)] accepts. *)
Definition nonempty (o : option string) : option string :=
  match o with
  | Some s => if String.eqb s "" then None else Some s
  | None => None
  end.

(** The reference: the element [id] shows the text of the key feeding it
    when the table has a non-empty one, and [old] otherwise. *)
Definition text_after (t : gmap string string) (ps : list (string * string)) (id : string)
  (old : option string) : option string :=
  match find (fun p => String.eqb p.2 id) ps with
  | Some (k, _) => match nonempty (t !! k) with Some s => Some s | None => old end
  | None => old
  end.

Lemma setText_nonempty t k id dom :
  setText t k id dom = match nonempty (t !! k) with Some s => <[id := s]> dom | None => dom end.
Proof. unfold setText, nonempty. destruct (t !! k) as [s|]; [|reflexivity]. now destruct (String.eqb s ""). Qed.

Lemma updateUI_fold all st :
  texts (updateUI all st)
  = fold_left (fun d p => setText (tableFor all (currentLanguage st)) p.1 p.2 d) uiTargets (texts st).
Proof. reflexivity. Qed.

Lemma text_after_notin t ps id old :
  id ∉ ps.*2 -> text_after t ps id old = old.
Proof.
  unfold text_after. intros Hn.
  destruct (find (fun p => String.eqb p.2 id) ps) as [[k i]|] eqn:E; [|reflexivity].
  apply find_some in E as [Hin Heq]. apply String.eqb_eq in Heq. cbn in Heq. subst i.
  exfalso. apply Hn, list_elem_of_fmap. exists (k, id). split; [reflexivity|].
  now apply list_elem_of_In.
Qed.

Lemma fold_setText_lookup t ps dom id :
  NoDup ps.*2 ->
  fold_left (fun d p => setText t p.1 p.2 d) ps dom !! id = text_after t ps id (dom !! id).
Proof.
  revert dom. induction ps as [|[k i] ps IH]; intros dom Hnd; [reflexivity|].
  cbn in Hnd |- *. apply NoDup_cons in Hnd as [Hi Hnd]. rewrite IH by exact Hnd.
  unfold text_after at 2. cbn. rewrite setText_nonempty.
  destruct (String.eqb_spec i id) as [<-|Hne].
  - rewrite text_after_notin by exact Hi.
    destruct (nonempty (t !! k)); [apply lookup_insert_eq|reflexivity].
  - destruct (nonempty (t !! k)); [|reflexivity]. now rewrite lookup_insert_ne.
Qed.

Lemma NoDup_uiTargets : NoDup uiTargets.*2.
Proof. apply (bool_decide_unpack (NoDup uiTargets.*2)). vm_compute. reflexivity. Qed.

Lemma updateUI_lookup all st id :
  texts (updateUI all st) !! id
  = text_after (tableFor all (currentLanguage st)) uiTargets id (texts st !! id).
Proof. rewrite updateUI_fold. apply fold_setText_lookup, NoDup_uiTargets. Qed.

Lemma text_after_uiKeys t k old :
  k ∈ uiKeys -> text_after t uiTargets k old = match nonempty (t !! k) with Some s => Some s | None => old end.
Proof. intros Hk. unfold uiKeys in Hk. repeat (apply elem_of_cons in Hk as [->|Hk]; [reflexivity|]).
  apply elem_of_nil in Hk as [].
Qed.

(** ** Properties *)

(** C21. [updateUI] keeps the language and the select, and each element
    ends with the current language's text for the key that feeds it when
    that text is non-empty, and with its old text otherwise (the loop of
    lines 255-258 and the three special cases of lines 261-267 agree with
    the reference [text_after]). *)
Theorem updateUI_spec all st :
  currentLanguage (updateUI all st) = currentLanguage st
  /\ languageSelectValue (updateUI all st) = languageSelectValue st
  /\ forall id, texts (updateUI all st) !! id
     = text_after (tableFor all (currentLanguage st)) uiTargets id (texts st !! id).
Proof. split; [reflexivity|split; [reflexivity|]]. intros id. apply updateUI_lookup. Qed.

End Localization.
