(* ===== verification/PriceFlow.v ===== *)
(** The price flow: [calculateChargingTime] (lines 417-471) starts
    [fetchAndCalculatePrices] (lines 270-296), which awaits the price
    service, runs [processPriceData] and [calculateBestTime] (lines
    324-359), whose last act is [renderChart]. The handler runs to its
    first [await] when the form is submitted ([fetchStart]) and finishes
    when the answer arrives ([fetchSettle]); the model of the page is a
    step relation whose steps are these two events, so that several
    requests can be in flight and settle in any order. The network is an
    input: the service answers with a payload, fails, answers with an
    HTTP error or with something that is not JSON. What the handlers read
    from the page when they run (the time zone, the language's table, the
    two checkboxes) is an [env] given to each step. *)

From Stdlib Require Import QArith Qround Lia Lqa List ZArith String.
From stdpp Require Import base gmap strings.
From S2P Require Import Prelude JsNumber JsDate PriceData BestTime Chart ChargeForm Localization.

Module PriceFlow.
Import Normalizer Selector Chart Form Localization.
Local Open Scope Q_scope.

(** The texts of [#bestStartTime]: the page's initial one, "Loading...", "Error", "Not enough
    data", and "Start: " followed by the local hour and minute. *)
Inductive start_text :=
| StartBlank
| StartLoading
| StartError
| StartNotEnough
| StartAt (label : Z * Z).

(** The texts of [#priceDetails]: empty, "Check back later", the fetch
    error message, or the average price and the estimated cost with their
    labels (numbers shown with [toFixed(2)]). *)
Inductive details_text :=
| DetailsEmpty
| DetailsCheckBack
| DetailsFetchError (msg : string)
| DetailsPrice (avgLabel : string) (avgPrice : num) (costLabel : string)
               (totalEstimatedCost : num).

(** What the handlers read from the page when they run. *)
Record env := mkEnv {
  zone_of : zone;
  table_of : gmap string string;     (* t, the current language's table *)
  taxRefundChecked : bool;
  showGraphChecked : bool }.

(** A call [fetchAndCalculatePrices(hoursNeeded, energyNeeded)] waiting
    for its answer, with the table [t] it read before the [await]. *)
Record request := mkRequest {
  hoursNeeded : Q;
  energyNeeded : Q;
  t_at_start : gmap string string }.

Record page := mkPage {
  resultShown : bool;
  resultText : option (time_text * num);  (* #resultValue, #resultDetails *)
  priceResultShown : bool;
  bestStartTime : start_text;
  priceDetails : details_text;
  chartSt : chart_state;
  pending : list request }.

Definition set_texts (b : start_text) (d : details_text) (p : page) : page :=
  mkPage (resultShown p) (resultText p) (priceResultShown p) b d (chartSt p) (pending p).

Definition set_pending (l : list request) (p : page) : page :=
  mkPage (resultShown p) (resultText p) (priceResultShown p) (bestStartTime p)
    (priceDetails p) (chartSt p) l.

(** Lines 324-359: the computation of [calculateBestTime] and what it
    writes. *)
Definition calculateBestTime_dom (E : env) (allPrices : list PricedHour)
  (h e : Q) (p : page) : res page :=
  o <- calculateBestTime allPrices h e ;;
  Ok (match o with
      | NotEnoughData => set_texts StartNotEnough DetailsCheckBack p
      | Best bestStartIndex bestStart slotsNeeded _ avgPrice totalEstimatedCost =>
          let t := table_of E in
          mkPage (resultShown p) (resultText p) (priceResultShown p)
            (StartAt (label_of (zone_of E) bestStart))
            (DetailsPrice (tr t "avgPrice" "Avg Price") avgPrice
                          (tr t "totalCost" "Est. Cost") totalEstimatedCost)
            (renderChart (zone_of E) (showGraphChecked E) allPrices
                         bestStartIndex slotsNeeded (chartSt p))
            (pending p)
      end).

(** Lines 270-282, up to the [await]. *)
Definition fetchStart (r : request) (p : page) : page :=
  mkPage (resultShown p) (resultText p) true StartLoading DetailsEmpty (chartSt p)
    (pending p ++ [r]).

(** The service's answer. *)
Inductive fetch_result :=
| NetworkFailure             (* fetch rejects *)
| HttpNotOk                  (* !response.ok *)
| BadJson                    (* response.json() rejects *)
| Payload (data : list DayData).

(** Lines 282-295, after the [await]; [now] is the time value of
    [new Date()] in [processPriceData]. *)
Definition fetchSettle (E : env) (now : Z) (r : request) (fr : fetch_result) (p : page)
  : page :=
  let attempt :=
    match fr with
    | Payload data =>
        calculateBestTime_dom E (processPriceData (zone_of E) now (taxRefundChecked E) data)
          (hoursNeeded r) (energyNeeded r) p
    | _ => Throw FetchError
    end in
  match attempt with
  | Ok p' => p'
  | Throw _ =>
      set_texts StartError
        (DetailsFetchError (tr (t_at_start r) "fetchError" "Could not fetch prices")) p
  end.

(** Lines 460-466: the result texts, then the call. *)
Definition submitCharge (E : env) (txt : time_text) (e t : Q) (p : page) : page :=
  fetchStart (mkRequest t e (table_of E))
    (mkPage true (Some (txt, Fin e)) (priceResultShown p) (bestStartTime p)
       (priceDetails p) (chartSt p) (pending p)).

(** The events of the page: a submission the form accepts, and the answer
    to one of the requests in flight, in any order. *)
Inductive step : page -> page -> Prop :=
| StepSubmit E i e t h m txt p :
    from_fields i = true ->
    calculateChargingTime i = Charged (Fin e) (Fin t) h m txt ->
    step p (submitCharge E txt e t p)
| StepSettle E now r fr pre post p :
    pending p = pre ++ r :: post ->
    step p (fetchSettle E now r fr (set_pending (pre ++ post) p)).

Definition initial_page : page :=
  mkPage false None false StartBlank DetailsEmpty (mkChartState false None 0) [].

Inductive reachable : page -> Prop :=
| reach_init : reachable initial_page
| reach_step p p' : reachable p -> step p p' -> reachable p'.

(** ** Requests in flight *)

Lemma calculateBestTime_dom_pending E l h e p p' :
  calculateBestTime_dom E l h e p = Ok p' -> pending p' = pending p.
Proof.
  unfold calculateBestTime_dom. destruct (calculateBestTime l h e) as [[|]|]; cbn;
    intros H; try discriminate; injection H as <-; reflexivity.
Qed.

Lemma fetchSettle_pending E now r fr p : pending (fetchSettle E now r fr p) = pending p.
Proof.
  unfold fetchSettle. destruct fr as [| | |data]; try reflexivity.
  destruct (calculateBestTime_dom _ _ _ _ p) as [p'|] eqn:Hp; [|reflexivity].
  now apply calculateBestTime_dom_pending in Hp.
Qed.

Lemma fetchSettle_not_loading E now r fr p : bestStartTime (fetchSettle E now r fr p) <> StartLoading.
Proof.
  unfold fetchSettle. destruct (match fr with Payload _ => _ | _ => _ end) as [p'|] eqn:Ha;
    [|discriminate].
  destruct fr as [| | |data]; try discriminate. revert Ha. unfold calculateBestTime_dom.
  destruct (calculateBestTime _ _ _) as [[|]|]; cbn; intros Ha; try discriminate; injection Ha as <-; discriminate.
Qed.

(** After any step, "Loading..." is shown only while a request is in
    flight. *)
Lemma step_loading p p' : step p p' -> bestStartTime p' = StartLoading -> pending p' <> [].
Proof.
  destruct 1 as [E i e t h m txt p Hf Hc | E now r fr pre post p Hp].
  - intros _. cbn. destruct (pending p); discriminate.
  - intros Hl. exfalso. exact (fetchSettle_not_loading _ _ _ _ _ Hl).
Qed.

Lemma pending_positive p :
  reachable p -> Forall (fun r => 0 < hoursNeeded r /\ 0 < energyNeeded r) (pending p).
Proof.
  induction 1 as [|p p' Hr IH Hs]; [constructor|].
  destruct Hs as [E i e t h m txt p Hf Hc | E now r fr pre post p Hp].
  - destruct (charged_pos i _ _ h m txt Hf Hc) as (ee & te & He & Ht & Hee & Hte).
    injection He as ->. injection Ht as ->.
    cbn. apply Forall_app. split; [exact IH|]. repeat constructor; assumption.
  - rewrite fetchSettle_pending. cbn. rewrite Hp in IH.
    apply Forall_app in IH as [IH1 IH2]. inversion IH2; subst.
    apply Forall_app. split; assumption.
Qed.

(** C11. On every page reachable from the initial one, each request in
    flight carries a positive duration and a positive energy: the form
    only starts a request with the values of an accepted submission. *)
Theorem reachable_pending_positive p :
  reachable p -> Forall (fun r => 0 < hoursNeeded r /\ 0 < energyNeeded r) (pending p).
Proof. exact (pending_positive p). Qed.

(** The page a settled payload leads to, when the duration is positive. *)
Lemma fetchSettle_payload_ok E now r data p :
  0 < hoursNeeded r ->
  fetchSettle E now r (Payload data) p
  = match calculateBestTime_dom E
            (processPriceData (zone_of E) now (taxRefundChecked E) data)
            (hoursNeeded r) (energyNeeded r) p with
    | Ok p' => p'
    | Throw _ => p
    end /\
  exists p', calculateBestTime_dom E (processPriceData (zone_of E) now (taxRefundChecked E) data)
               (hoursNeeded r) (energyNeeded r) p = Ok p'.
Proof.
  intros Hh.
  destruct (calculateBestTime_total (processPriceData (zone_of E) now (taxRefundChecked E) data)
              (hoursNeeded r) (energyNeeded r) Hh) as (o & Ho).
  unfold fetchSettle, calculateBestTime_dom. rewrite Ho. cbn. eauto.
Qed.

(** C12. On a reachable page, the answer to any request in flight, when
    it is a payload, never leads to "Error": [processPriceData] and
    [calculateBestTime] do not throw on the durations the form hands
    over; the start text is "Not enough data" or a start time. *)
Theorem reachable_settle_no_error E now r data pre post p :
  reachable p -> pending p = pre ++ r :: post ->
  bestStartTime (fetchSettle E now r (Payload data) (set_pending (pre ++ post) p)) = StartNotEnough
  \/ exists label, bestStartTime (fetchSettle E now r (Payload data) (set_pending (pre ++ post) p))
                   = StartAt label.
Proof.
  intros Hr Hp. pose proof (pending_positive p Hr) as Hpos.
  rewrite Hp, Forall_app in Hpos. destruct Hpos as [_ Hpos]. inversion Hpos as [|? ? [Hh _] _]; subst.
  destruct (fetchSettle_payload_ok E now r data (set_pending (pre ++ post) p) Hh)
    as [-> [p' Hp']]. rewrite Hp'.
  unfold calculateBestTime_dom in Hp'.
  destruct (calculateBestTime _ _ _) as [[|s e slots mt avg est]|]; cbn in Hp'; try discriminate;
    injection Hp' as <-; cbn; eauto.
Qed.

(** C2. The answer to a request with a positive duration, when it is a
    payload: the requests in flight are unchanged, and either fewer
    normalized prices than [Math.ceil(hoursNeeded)] exist and the page
    says "Not enough data" / "Check back later", or the page shows the
    first hour of the earliest cheapest window of the normalized prices,
    the window's average price and estimated cost, and the chart of those
    prices with that window highlighted. *)
Theorem fetchSettle_payload E now r data p :
  0 < hoursNeeded r ->
  let allPrices := processPriceData (zone_of E) now (taxRefundChecked E) data in
  let slotsNeeded := Qceiling (hoursNeeded r) in
  let p' := fetchSettle E now r (Payload data) p in
  pending p' = pending p /\
  ((length allPrices < Z.to_nat slotsNeeded)%nat
   /\ bestStartTime p' = StartNotEnough /\ priceDetails p' = DetailsCheckBack
   \/ exists s e m,
       best_window (map price allPrices) (Z.to_nat slotsNeeded) s
       /\ nth_error allPrices s = Some e
       /\ m == wsum (map price allPrices) s (Z.to_nat slotsNeeded)
       /\ bestStartTime p' = StartAt (label_of (zone_of E) e)
       /\ priceDetails p' = DetailsPrice (tr (table_of E) "avgPrice" "Avg Price")
                               (Fin (m / inject_Z slotsNeeded))
                               (tr (table_of E) "totalCost" "Est. Cost")
                               (Fin (m / inject_Z slotsNeeded * energyNeeded r))
       /\ chartSt p' = renderChart (zone_of E) (showGraphChecked E) allPrices s slotsNeeded
                          (chartSt p)).
Proof.
  intros Hh. cbv zeta. split; [apply fetchSettle_pending|].
  set (allPrices := processPriceData (zone_of E) now (taxRefundChecked E) data).
  unfold fetchSettle, calculateBestTime_dom. fold allPrices.
  destruct (Z.ltb_spec (Z.of_nat (length allPrices)) (Qceiling (hoursNeeded r))) as [Hlt|Hge].
  - left. assert (Hn : calculateBestTime allPrices (hoursNeeded r) (energyNeeded r) = Ok NotEnoughData).
    { unfold calculateBestTime. cbv zeta. now rewrite (proj2 (Z.ltb_lt _ _) Hlt). }
    rewrite Hn. cbn. split; [lia|]. split; reflexivity.
  - right. destruct (calculateBestTime_Best allPrices (hoursNeeded r) (energyNeeded r) Hh Hge)
      as (s & e & m & Hb & Hw & Hn & Hm).
    rewrite Hb. cbn. exists s, e, m.
    split; [exact Hw|]. split; [exact Hn|]. split; [exact Hm|]. repeat split.
Qed.

Lemma fetchSettle_payload_witness :
  let E := mkEnv (fixed_zone 0) ∅ false true in
  let data := [mkDayData 0 [5; 1; 1; 5]] in
  let r := mkRequest 2 1 ∅ in
  0 < hoursNeeded r /\
  let allPrices := processPriceData (zone_of E) 0 (taxRefundChecked E) data in
  let slotsNeeded := Qceiling (hoursNeeded r) in
  let p' := fetchSettle E 0 r (Payload data) initial_page in
  pending p' = pending initial_page /\
  ((length allPrices < Z.to_nat slotsNeeded)%nat
   /\ bestStartTime p' = StartNotEnough /\ priceDetails p' = DetailsCheckBack
   \/ exists s e m,
       best_window (map price allPrices) (Z.to_nat slotsNeeded) s
       /\ nth_error allPrices s = Some e
       /\ m == wsum (map price allPrices) s (Z.to_nat slotsNeeded)
       /\ bestStartTime p' = StartAt (label_of (zone_of E) e)
       /\ priceDetails p' = DetailsPrice (tr (table_of E) "avgPrice" "Avg Price")
                               (Fin (m / inject_Z slotsNeeded))
                               (tr (table_of E) "totalCost" "Est. Cost")
                               (Fin (m / inject_Z slotsNeeded * energyNeeded r))
       /\ chartSt p' = renderChart (zone_of E) (showGraphChecked E) allPrices s slotsNeeded
                          (chartSt initial_page)).
Proof.
  cbv zeta. split; [reflexivity|].
  exact (fetchSettle_payload (mkEnv (fixed_zone 0) ∅ false true) 0 (mkRequest 2 1 ∅)
           [mkDayData 0 [5; 1; 1; 5]] initial_page ltac:(reflexivity)).
Defined.

(** C32. When the service cannot be reached, answers with an HTTP error
    or with something that is not JSON, the page says "Error" with the
    fetch-error text of the language that was current when the request
    started, and nothing else changes. *)
Theorem fetchSettle_failure E now r fr p :
  (forall data, fr <> Payload data) ->
  fetchSettle E now r fr p
  = set_texts StartError
      (DetailsFetchError (tr (t_at_start r) "fetchError" "Could not fetch prices")) p.
Proof.
  intros Hfr. destruct fr as [| | |data]; try reflexivity. now destruct (Hfr data).
Qed.

Lemma fetchSettle_failure_witness :
  (forall data, NetworkFailure <> Payload data) /\
  fetchSettle (mkEnv (fixed_zone 0) ∅ false false) 0 (mkRequest 1 1 ∅) NetworkFailure
    initial_page
  = set_texts StartError (DetailsFetchError "Could not fetch prices") initial_page.
Proof.
  split; [discriminate|]. apply fetchSettle_failure. discriminate.
Defined.

(** ** Requests that settle out of order *)

(** Submitting the form [i] in the environment [E]. *)
Definition submitted (E : env) (i : form_input) (p : page) : page :=
  match calculateChargingTime i with
  | Charged (Fin e) (Fin t) _ _ txt => submitCharge E txt e t p
  | _ => p
  end.

Lemma step_submitted E i p e t h m txt :
  from_fields i = true -> calculateChargingTime i = Charged (Fin e) (Fin t) h m txt ->
  step p (submitted E i p).
Proof.
  intros Hf Hc. unfold submitted. rewrite Hc. eapply StepSubmit; eauto.
Qed.

(** The answer [fr] to the [k]-th request in flight. *)
Definition answer (E : env) (now : Z) (fr : fetch_result) (k : nat) (p : page) : page :=
  match nth_error (pending p) k with
  | Some r =>
      fetchSettle E now r fr (set_pending (firstn k (pending p) ++ skipn (S k) (pending p)) p)
  | None => p
  end.

Lemma step_answer E now fr k p :
  (k < length (pending p))%nat -> step p (answer E now fr k p).
Proof.
  intros Hk. unfold answer. destruct (nth_error (pending p) k) as [r|] eqn:Hr.
  - apply StepSettle. symmetry. now apply firstn_skipn_middle.
  - apply nth_error_None in Hr. lia.
Qed.

Definition race_env : env := mkEnv (fixed_zone 0) ∅ false false.
Definition race_now : Z := localMidnight (fixed_zone 0) 2025 6 1.
Definition race_prices : fetch_result :=
  Payload [mkDayData race_now [5; 1; 1; 5; 0; 9]].
(** A charge of one hour, and one of three hours. *)
Definition oneHour : form_input := mkInput (Fin 0) (Fin 100) (Fin 11) (Fin 11) (Fin 100).
Definition threeHours : form_input := mkInput (Fin 0) (Fin 100) (Fin 33) (Fin 11) (Fin 100).

Definition both_submitted : page :=
  submitted race_env threeHours (submitted race_env oneHour initial_page).

Lemma both_submitted_reachable : reachable both_submitted.
Proof.
  eapply reach_step; [eapply reach_step; [apply reach_init|]|];
    eapply step_submitted; reflexivity.
Qed.

Lemma reachable_pending_positive_witness :
  reachable both_submitted /\ length (pending both_submitted) = 2%nat /\
  Forall (fun r => 0 < hoursNeeded r /\ 0 < energyNeeded r) (pending both_submitted).
Proof.
  split; [exact both_submitted_reachable|]. split; [vm_compute; reflexivity|].
  exact (reachable_pending_positive both_submitted both_submitted_reachable).
Defined.

Lemma reachable_settle_no_error_witness :
  reachable both_submitted /\
  exists rA rB, pending both_submitted = [] ++ rA :: [rB] /\
  (bestStartTime (fetchSettle race_env race_now rA (Payload [])
                    (set_pending ([] ++ [rB]) both_submitted)) = StartNotEnough
   \/ exists label, bestStartTime (fetchSettle race_env race_now rA (Payload [])
                    (set_pending ([] ++ [rB]) both_submitted)) = StartAt label).
Proof.
  split; [exact both_submitted_reachable|].
  do 2 eexists. split; [vm_compute; reflexivity|].
  eapply reachable_settle_no_error; [exact both_submitted_reachable|].
  vm_compute. reflexivity.
Defined.

(** C14. The code does not discard the answer to an older request: with a
    one-hour charge submitted and then a three-hour one, the answers
    arriving in the order (three-hour, one-hour) leave the page showing the
    three-hour charge's result text with the one-hour window's start
    (04:00); arriving in the other order they show 02:00, the start of the
    cheapest three-hour window. The spec's "a new request supersedes the
    visualization of a prior one" does not hold. *)
Theorem race_stale_result :
  let late_old := answer race_env race_now race_prices 0
                    (answer race_env race_now race_prices 1 both_submitted) in
  let in_order := answer race_env race_now race_prices 0
                    (answer race_env race_now race_prices 0 both_submitted) in
  reachable late_old /\ reachable in_order
  /\ pending late_old = [] /\ pending in_order = []
  /\ resultText late_old = resultText in_order
  /\ bestStartTime late_old = StartAt (4, 0)%Z /\ bestStartTime in_order = StartAt (2, 0)%Z.
Proof.
  pose proof both_submitted_reachable as Hboth.
  cbv zeta. repeat split; try (vm_compute; reflexivity).
  - eapply reach_step; [eapply reach_step; [exact Hboth|]|];
      apply step_answer; vm_compute; lia.
  - eapply reach_step; [eapply reach_step; [exact Hboth|]|];
      apply step_answer; vm_compute; lia.
Qed.

(** C35. On every reachable page, "Loading..." is shown only while a
    request is in flight: every answer replaces it. *)
Theorem reachable_loading_pending p :
  reachable p -> bestStartTime p = StartLoading -> pending p <> [].
Proof.
  destruct 1 as [|p p' _ Hs]; [discriminate|]. exact (step_loading p p' Hs).
Qed.

Lemma reachable_loading_pending_witness :
  bestStartTime both_submitted = StartLoading /\ pending both_submitted <> [].
Proof.
  split; [vm_compute; reflexivity|].
  apply (reachable_loading_pending both_submitted both_submitted_reachable).
  vm_compute. reflexivity.
Defined.

End PriceFlow.
