(* ===== verification/Modal.v ===== *)
(** The settings modal (src/script.js, lines 64-79): whether
    [#settingsModal] has the class [show]. [openSettings] also rebuilds
    the car list; that part is composed in Shell.v. *)

From Stdlib Require Import Bool.

Module Modal.

(** The element a click lands on: the modal's backdrop itself, or
    something inside it. *)
Inductive click_target := Backdrop | Inside.

(** [classList.add('show')] (line 66). *)
Definition openSettings (shown : bool) : bool := true.

(** [classList.toggle('show')] (lines 70-73). *)
Definition toggleSettings (shown : bool) : bool := negb shown.

(** [if (event.target === settingsModal) classList.remove('show')]
    (lines 75-79). *)
Definition closeSettings (target : click_target) (shown : bool) : bool :=
  match target with
  | Backdrop => false
  | Inside => shown
  end.

End Modal.
