(* ===== verification/Presets.v ===== *)
(** The car presets (src/script.js, lines 4, 81-104, 114-216): the global
    object [presets] (name to the three field values), its copy in
    localStorage under ["evChargePresets"], the preset dropdown and the car
    list built from its sorted keys (the dropdown's first, custom option
    created anew with the current language's text), and the handlers
    [loadPreset], [savePreset] and [deletePreset]; the handlers that
    rebuild the dropdown take the current language's table [t].

    [presets] is a JavaScript object: an assignment [presets[name] = v]
    with [name = "__proto__"] and no own property of that name calls the
    inherited setter and replaces the object's prototype instead of adding
    a key, and [Object.keys] and [JSON.stringify] see own properties only;
    [presets_obj] keeps both. [JSON.stringify] and [JSON.parse] are the
    interface [PresetCodec], whose law is that parsing a printed map gives
    it back; [lengthCodec] is a simple instance of it. *)

From Stdlib Require Import String Ascii List.
From stdpp Require Import base gmap strings sorting.
From S2P Require Import JsString Localization Modal.
Import ListNotations.

Module Presets.
Import Localization.Localization.

Local Open Scope string_scope.

(** [{ batteryCapacity, chargePower, chargeEfficiency }] (lines 187-191):
    the [value] strings of the three fields. *)
Record Preset := mkPreset {
  batteryCapacity : string;
  chargePower : string;
  chargeEfficiency : string }.

(** The object [presets]: its own properties, and the preset its
    prototype was replaced by, if any. *)
Record presets_obj := mkPresets {
  own : gmap string Preset;
  proto : option Preset }.

Definition empty_presets : presets_obj := mkPresets ∅ None.

(** [presets[name] = p]. *)
Definition set_preset (name : string) (p : Preset) (o : presets_obj) : presets_obj :=
  if String.eqb name "__proto__" && negb (bool_decide (is_Some (own o !! name)))
  then mkPresets (own o) (Some p)
  else mkPresets (<[name := p]> (own o)) (proto o).

(** [delete presets[name]]: removes an own property; anything else is
    left as it is. *)
Definition delete_preset (name : string) (o : presets_obj) : presets_obj :=
  mkPresets (delete name (own o)) (proto o).

(** ** [Object.keys(presets).sort()] *)

(** The default order of [Array.prototype.sort] on strings: code unit
    order, here the order of the characters' codes. *)
Definition string_le (s1 s2 : string) : Prop := String.leb s1 s2 = true.

#[export] Instance string_le_dec : RelDecision string_le.
Proof. intros s1 s2. unfold string_le. apply _. Defined.

Definition sortedKeys (o : presets_obj) : list string :=
  merge_sort string_le (map_to_list (own o)).*1.

(** ** [String.prototype.trim], on ASCII white space *)

Definition is_js_space (c : ascii) : bool :=
  let n := nat_of_ascii c in (n =? 32)%nat || ((9 <=? n)%nat && (n <=? 13)%nat).

Fixpoint trim_start (s : string) : string :=
  match s with
  | EmptyString => EmptyString
  | String c s' => if is_js_space c then trim_start s' else s
  end.

Fixpoint trim_end (s : string) : string :=
  match s with
  | EmptyString => EmptyString
  | String c s' =>
      let r := trim_end s' in
      if String.eqb r "" && is_js_space c then EmptyString else String c r
  end.

Definition trim (s : string) : string := trim_end (trim_start s).

(** ** [JSON.stringify] / [JSON.parse] of the own properties *)

Class PresetCodec := {
  stringify : gmap string Preset -> string;
  parse : string -> option (gmap string Preset);   (* None: JSON.parse throws *)
  parse_stringify : forall m, parse (stringify m) = Some m;
  stringify_nonempty : forall m, stringify m <> "" }.   (* at least "{}" *)

(** *** An instance: length-prefixed text

    A string is written as one ["#"] per character, a ["."], and the
    string; an entry as its name and its three fields; a map as ["{"]
    followed by the concatenation of its entries. *)

Fixpoint hashes (n : nat) : string :=
  match n with
  | O => "."
  | S n' => String "#" (hashes n')
  end.

Definition enc_str (s : string) : string := hashes (String.length s) ++ s.

Fixpoint count_hashes (s : string) : option (nat * string) :=
  match s with
  | String "#" s' => '(n, r) ← count_hashes s'; Some (S n, r)
  | String "." s' => Some (O, s')
  | _ => None
  end.

Fixpoint take_str (n : nat) (s : string) : option (string * string) :=
  match n, s with
  | O, _ => Some (EmptyString, s)
  | S n', String c s' => '(a, r) ← take_str n' s'; Some (String c a, r)
  | S _, EmptyString => None
  end.

Definition dec_str (s : string) : option (string * string) :=
  '(n, r) ← count_hashes s; take_str n r.

Definition enc_entry (e : string * Preset) : string :=
  enc_str e.1 ++ enc_str (batteryCapacity e.2) ++ enc_str (chargePower e.2)
  ++ enc_str (chargeEfficiency e.2).

Definition dec_entry (s : string) : option ((string * Preset) * string) :=
  '(k, s1) ← dec_str s; '(b, s2) ← dec_str s1; '(c, s3) ← dec_str s2;
  '(f, s4) ← dec_str s3; Some ((k, mkPreset b c f), s4).

Fixpoint enc_entries (l : list (string * Preset)) : string :=
  match l with
  | [] => EmptyString
  | e :: l' => enc_entry e ++ enc_entries l'
  end.

Fixpoint dec_entries (fuel : nat) (s : string) : option (list (string * Preset)) :=
  match s with
  | EmptyString => Some []
  | _ =>
      match fuel with
      | O => None
      | S fuel' => '(e, r) ← dec_entry s; l ← dec_entries fuel' r; Some (e :: l)
      end
  end.

(** stdpp makes [String.append] opaque to [simpl]: its two equations. *)
Lemma str_app_nil (b : string) : EmptyString ++ b = b.
Proof. reflexivity. Qed.

Lemma str_app_cons x (a b : string) : String x a ++ b = String x (a ++ b).
Proof. reflexivity. Qed.

Lemma string_app_assoc (a b c : string) : (a ++ b) ++ c = a ++ (b ++ c).
Proof. induction a as [|x a IH]; [reflexivity|]. rewrite !str_app_cons. now f_equal. Qed.

Lemma count_hashes_app n r : count_hashes (hashes n ++ r) = Some (n, r).
Proof. induction n as [|n IH]; [reflexivity|]. cbn [hashes]. rewrite str_app_cons. cbn. now rewrite IH. Qed.

Lemma take_str_app s r : take_str (String.length s) (s ++ r) = Some (s, r).
Proof. induction s as [|c s IH]; [reflexivity|]. rewrite str_app_cons. cbn. now rewrite IH. Qed.

Lemma dec_str_enc s r : dec_str (enc_str s ++ r) = Some (s, r).
Proof.
  unfold dec_str, enc_str. rewrite string_app_assoc, count_hashes_app. simpl.
  apply take_str_app.
Qed.

Lemma dec_entry_enc e r : dec_entry (enc_entry e ++ r) = Some (e, r).
Proof.
  destruct e as [k [b c f]]. unfold dec_entry, enc_entry. simpl.
  rewrite !string_app_assoc. repeat (rewrite dec_str_enc; cbn -[dec_str]). reflexivity.
Qed.

Lemma enc_entry_nonempty e : enc_entry e <> EmptyString.
Proof.
  destruct e as [k p]. unfold enc_entry, enc_str. cbn [fst snd]. rewrite string_app_assoc.
  destruct (String.length k); cbn [hashes]; rewrite str_app_cons; discriminate.
Qed.

Lemma dec_entries_enc l fuel :
  (length l <= fuel)%nat -> dec_entries fuel (enc_entries l) = Some l.
Proof.
  revert fuel. induction l as [|e l IH]; intros fuel Hf; simpl.
  - now destruct fuel.
  - destruct fuel as [|fuel]; [simpl in Hf; lia|].
    pose proof (enc_entry_nonempty e) as Hne.
    destruct (enc_entry e) as [|c s] eqn:E; [congruence|].
    rewrite str_app_cons. cbn [dec_entries]. rewrite <- str_app_cons, <- E, dec_entry_enc.
    cbn. rewrite IH by (simpl in Hf; lia). reflexivity.
Qed.

Lemma string_length_app (a b : string) :
  String.length (a ++ b) = (String.length a + String.length b)%nat.
Proof. induction a as [|x a IH]; [reflexivity|]. rewrite str_app_cons. cbn. now f_equal. Qed.

Lemma length_le_enc_entries l : (length l <= String.length (enc_entries l))%nat.
Proof.
  induction l as [|e l IH]; cbn [enc_entries length]; [lia|]. rewrite string_length_app.
  pose proof (enc_entry_nonempty e). destruct (enc_entry e); [congruence|]. cbn. lia.
Qed.

Definition length_stringify (m : gmap string Preset) : string :=
  String "{" (enc_entries (map_to_list m)).

Definition length_parse (s : string) : option (gmap string Preset) :=
  match s with
  | String "{" body => list_to_map <$> dec_entries (String.length body) body
  | _ => None
  end.

Lemma length_parse_stringify m : length_parse (length_stringify m) = Some m.
Proof.
  unfold length_parse, length_stringify.
  rewrite dec_entries_enc by apply length_le_enc_entries.
  cbn. f_equal. apply list_to_map_to_list.
Qed.

Lemma length_stringify_nonempty m : length_stringify m <> "".
Proof. discriminate. Qed.

#[export] Instance lengthCodec : PresetCodec :=
  {| stringify := length_stringify; parse := length_parse;
     parse_stringify := length_parse_stringify;
     stringify_nonempty := length_stringify_nonempty |}.

(** ** The page of the preset handlers *)

Record preset_ui := mkPresetUi {
  presets : presets_obj;
  storage : gmap string string;           (* localStorage *)
  presetOptions : list string;            (* the options after the custom one *)
  presetSelectValue : string;
  customOptionText : string;              (* the text of the option [""], id optionCustom *)
  carList : list string;                  (* the names of #carList *)
  carNameInput : string;
  batteryCapacityField : string;
  chargePowerField : string;
  chargeEfficiencyField : string;
  modalShown : bool;
  dialogs : list string }.                (* alert and confirm texts shown *)

Definition presetsKey : string := "evChargePresets".

(** [select.value = v]: an option's value selects it; any other value
    leaves no option selected, and [select.value] then reads [""]. *)
Definition select_set (opts : list string) (v : string) : string :=
  if bool_decide (v ∈ "" :: opts) then v else "".

Definition with_presets (o : presets_obj) (u : preset_ui) : preset_ui :=
  mkPresetUi o (storage u) (presetOptions u) (presetSelectValue u) (customOptionText u) (carList u)
    (carNameInput u) (batteryCapacityField u) (chargePowerField u)
    (chargeEfficiencyField u) (modalShown u) (dialogs u).

Definition with_fields (b c e : string) (u : preset_ui) : preset_ui :=
  mkPresetUi (presets u) (storage u) (presetOptions u) (presetSelectValue u) (customOptionText u) (carList u)
    (carNameInput u) b c e (modalShown u) (dialogs u).

Definition with_select (v : string) (u : preset_ui) : preset_ui :=
  mkPresetUi (presets u) (storage u) (presetOptions u) v (customOptionText u) (carList u)
    (carNameInput u) (batteryCapacityField u) (chargePowerField u)
    (chargeEfficiencyField u) (modalShown u) (dialogs u).

Definition show_dialog (msg : string) (u : preset_ui) : preset_ui :=
  mkPresetUi (presets u) (storage u) (presetOptions u) (presetSelectValue u) (customOptionText u) (carList u)
    (carNameInput u) (batteryCapacityField u) (chargePowerField u)
    (chargeEfficiencyField u) (modalShown u) (dialogs u ++ [msg]).

(** Lines 120-137, with [t] the current language's table: the custom
    option is created anew with the text [t.optionCustom || '-- Custom /
    New --'] and the options are rebuilt from the sorted names; the value
    is kept when [presets[currentVal]] is a preset, otherwise the custom
    option ([""]) is selected. *)
Definition updatePresetDropdown (t : gmap string string) (u : preset_ui) : preset_ui :=
  let currentVal := presetSelectValue u in
  mkPresetUi (presets u) (storage u) (sortedKeys (presets u))
    (if bool_decide (is_Some (own (presets u) !! currentVal)) then currentVal else "")
    (tr t "optionCustom" "-- Custom / New --")
    (carList u) (carNameInput u) (batteryCapacityField u) (chargePowerField u)
    (chargeEfficiencyField u) (modalShown u) (dialogs u).

(** Lines 139-160. *)
Definition updateCarList (u : preset_ui) : preset_ui :=
  mkPresetUi (presets u) (storage u) (presetOptions u) (presetSelectValue u)
    (customOptionText u) (sortedKeys (presets u)) (carNameInput u) (batteryCapacityField u)
    (chargePowerField u) (chargeEfficiencyField u) (modalShown u) (dialogs u).

Section Handlers.
Context `{PresetCodec}.

(** Lines 114-118. *)
Definition savePresetsToStorage (t : gmap string string) (u : preset_ui) : preset_ui :=
  updateCarList (updatePresetDropdown t
    (mkPresetUi (presets u) (<[presetsKey := stringify (own (presets u))]> (storage u))
       (presetOptions u) (presetSelectValue u) (customOptionText u) (carList u) (carNameInput u)
       (batteryCapacityField u) (chargePowerField u) (chargeEfficiencyField u)
       (modalShown u) (dialogs u))).

(** Lines 82-93 (the checkboxes of lines 95-103 are in Settings.v): an
    empty or missing entry leaves [presets] as it is; one that does not
    parse empties it. *)
Definition loadPresetsFromStorage (t : gmap string string) (u : preset_ui) : preset_ui :=
  let u1 :=
    match storage u !! presetsKey with
    | Some stored =>
        if String.eqb stored "" then u
        else match parse stored with
             | Some m => with_presets (mkPresets m None) u
             | None => with_presets empty_presets u
             end
    | None => u
    end in
  updateCarList (updatePresetDropdown t u1).

(** Lines 162-173. Assigning the [value] of a number input sanitizes it
    ([JsString.sanitize]). *)
Definition loadPreset (u : preset_ui) : preset_ui :=
  let name := presetSelectValue u in
  if String.eqb name "" then u
  else match own (presets u) !! name with
       | Some p =>
           with_fields (JsString.sanitize (batteryCapacity p)) (JsString.sanitize (chargePower p))
             (if String.eqb (chargeEfficiency p) "" then chargeEfficiencyField u
              else JsString.sanitize (chargeEfficiency p)) u
       | None => u
       end.

(** Lines 175-199, with [t] the current language's table. *)
Definition savePreset (t : gmap string string) (u : preset_ui) : preset_ui :=
  let name := trim (carNameInput u) in
  if String.eqb name "" then show_dialog (tr t "msgEnterName" "Please enter a car name") u
  else
    let u1 := with_presets (set_preset name (mkPreset (batteryCapacityField u)
                  (chargePowerField u) (chargeEfficiencyField u)) (presets u)) u in
    let u2 := savePresetsToStorage t u1 in
    mkPresetUi (presets u2) (storage u2) (presetOptions u2)
      (select_set (presetOptions u2) name) (customOptionText u2) (carList u2) ""
      (batteryCapacityField u2) (chargePowerField u2) (chargeEfficiencyField u2)
      (Modal.toggleSettings (modalShown u2))
      (dialogs u2 ++ [tr t "msgSaved" "Preset saved!"]).

(** [msg.replace('!', '')]: the first ['!'] goes. *)
Fixpoint remove_first_bang (s : string) : string :=
  match s with
  | EmptyString => EmptyString
  | String c s' => if Ascii.eqb c "!"%char then s' else String c (remove_first_bang s')
  end.

Definition quote : string := String (ascii_of_nat 34) EmptyString.

(** The text of [confirm] (lines 202-205). *)
Definition confirmText (t : gmap string string) (name : string) : string :=
  let msg := match t !! "msgDeleted" with
             | Some m => if String.eqb m "" then "Preset deleted" else remove_first_bang m
             | None => "Preset deleted"
             end in
  msg ++ "? " ++ quote ++ name ++ quote.

(** Lines 201-216; [confirmed] is the user's answer. *)
Definition deletePreset (t : gmap string string) (name : string) (confirmed : bool)
  (u : preset_ui) : preset_ui :=
  let u0 := show_dialog (confirmText t name) u in
  if confirmed then
    let u1 := savePresetsToStorage t (with_presets (delete_preset name (presets u0)) u0) in
    if String.eqb (presetSelectValue u1) name
    then with_fields "77" "11" "90" (with_select "" u1)
    else u1
  else u0.

End Handlers.

(** ** Properties *)

Lemma in_sortedKeys o k : is_Some (own o !! k) -> k ∈ sortedKeys o.
Proof.
  intros H. unfold sortedKeys. rewrite merge_sort_Permutation, list_elem_of_fmap.
  destruct H as [v Hv]. exists (k, v). split; [reflexivity|]. now apply elem_of_map_to_list.
Qed.

Lemma not_in_sortedKeys o k : own o !! k = None -> k ∉ sortedKeys o.
Proof.
  intros H Hin. unfold sortedKeys in Hin. rewrite merge_sort_Permutation, list_elem_of_fmap in Hin.
  destruct Hin as ([k' v] & -> & Hin). apply elem_of_map_to_list in Hin. simpl in *. congruence.
Qed.

Section Properties.
Context `{PresetCodec}.

Lemma savePresetsToStorage_fields t u :
  presets (savePresetsToStorage t u) = presets u
  /\ storage (savePresetsToStorage t u) = <[presetsKey := stringify (own (presets u))]> (storage u)
  /\ presetOptions (savePresetsToStorage t u) = sortedKeys (presets u)
  /\ carList (savePresetsToStorage t u) = sortedKeys (presets u)
  /\ customOptionText (savePresetsToStorage t u) = tr t "optionCustom" "-- Custom / New --"
  /\ presetSelectValue (savePresetsToStorage t u)
     = (if bool_decide (is_Some (own (presets u) !! presetSelectValue u))
        then presetSelectValue u else "").
Proof. repeat split. Qed.

(** C7. Saving under a non-empty trimmed name other than ["__proto__"]
    stores the three field values under it, writes the presets to
    localStorage, rebuilds the dropdown and the car list, selects the
    new name, clears the name input, toggles the modal and says "Preset
    saved!" (in the current language); the custom option, created anew,
    reads the current language's text or "-- Custom / New --". *)
Theorem savePreset_spec t u :
  let name := trim (carNameInput u) in
  name <> "" -> name <> "__proto__" ->
  let u' := savePreset t u in
  own (presets u') = <[name := mkPreset (batteryCapacityField u) (chargePowerField u)
                                       (chargeEfficiencyField u)]> (own (presets u))
  /\ storage u' !! presetsKey = Some (stringify (own (presets u')))
  /\ presetOptions u' = sortedKeys (presets u') /\ carList u' = sortedKeys (presets u')
  /\ presetSelectValue u' = name /\ carNameInput u' = ""
  /\ modalShown u' = negb (modalShown u)
  /\ customOptionText u' = tr t "optionCustom" "-- Custom / New --"
  /\ dialogs u' = (dialogs u ++ [tr t "msgSaved" "Preset saved!"])%list.
Proof.
  intros name Hne Hproto. unfold savePreset. fold name.
  rewrite (proj2 (String.eqb_neq name "") Hne). cbv zeta.
  unfold set_preset. rewrite (proj2 (String.eqb_neq name "__proto__") Hproto). cbn.
  split; [reflexivity|]. split; [apply lookup_insert_eq|].
  split; [reflexivity|]. split; [reflexivity|]. split; [|repeat split].
  unfold select_set. rewrite bool_decide_true; [reflexivity|].
  apply elem_of_cons. right. apply in_sortedKeys. cbn. rewrite lookup_insert_eq. eauto.
Qed.

(** C20. A car named ["__proto__"] (with no own property of that name) is
    not saved: the assignment replaces the prototype of [presets], so the
    own presets, the dropdown and the car list stay as they were, the
    dropdown selects the custom option, and still "Preset saved!" is
    shown. *)
Theorem savePreset_proto t u :
  trim (carNameInput u) = "__proto__" -> own (presets u) !! "__proto__" = None ->
  let u' := savePreset t u in
  own (presets u') = own (presets u)
  /\ proto (presets u') = Some (mkPreset (batteryCapacityField u) (chargePowerField u)
                                        (chargeEfficiencyField u))
  /\ presetOptions u' = sortedKeys (presets u) /\ carList u' = sortedKeys (presets u)
  /\ presetSelectValue u' = ""
  /\ dialogs u' = (dialogs u ++ [tr t "msgSaved" "Preset saved!"])%list.
Proof.
  intros Hname Hown. unfold savePreset. rewrite Hname. cbn -[sortedKeys].
  unfold set_preset. rewrite Hown. cbn -[sortedKeys].
  repeat split.
  unfold select_set. rewrite bool_decide_false; [reflexivity|].
  intros Hin. apply elem_of_cons in Hin as [Hin|Hin]; [discriminate|].
  exact (not_in_sortedKeys (mkPresets (own (presets u)) _) "__proto__" Hown Hin).
Qed.

(** C8. Deleting the selected preset, once confirmed, removes it and
    the dropdown falls back to the custom option, but the fields keep the
    deleted car's values: [savePresetsToStorage] has already reset the
    dropdown, so the test [presetSelect.value === name] that should
    restore 77 / 11 / 90 is never true. *)
Theorem deletePreset_selected t name u :
  presetSelectValue u = name -> name <> "" ->
  let u' := deletePreset t name true u in
  own (presets u') = delete name (own (presets u))
  /\ presetSelectValue u' = ""
  /\ batteryCapacityField u' = batteryCapacityField u
  /\ chargePowerField u' = chargePowerField u
  /\ chargeEfficiencyField u' = chargeEfficiencyField u.
Proof.
  intros Hsel Hne. subst name. unfold deletePreset. cbv zeta.
  set (u1 := savePresetsToStorage t _).
  assert (Hs : presetSelectValue u1 = "").
  { subst u1. rewrite (proj2 (proj2 (proj2 (proj2 (proj2 (savePresetsToStorage_fields t _)))))).
    rewrite bool_decide_false; [reflexivity|]. cbn. rewrite lookup_delete_eq.
    intros [? ?]; discriminate. }
  rewrite Hs, (proj2 (String.eqb_neq "" _)) by congruence.
  subst u1. repeat split; assumption.
Qed.

(** The page right after a reload: nothing but localStorage survives;
    the fields hold their HTML defaults. *)
Definition fresh_page (st : gmap string string) : preset_ui :=
  mkPresetUi empty_presets st [] "" "-- Custom / New --" [] "" "77" "11" "90" false [].

(** C23. What [savePresetsToStorage] writes is what
    [loadPresetsFromStorage] reads back after a reload: the same own
    presets, the same dropdown options and car list (for any
    [JSON.stringify]/[JSON.parse] meeting the codec's laws). *)
Theorem savePresetsToStorage_reload t t' u :
  let u' := savePresetsToStorage t u in
  let r := loadPresetsFromStorage t' (fresh_page (storage u')) in
  own (presets r) = own (presets u)
  /\ presetOptions r = presetOptions u' /\ carList r = carList u'.
Proof.
  cbv zeta. unfold loadPresetsFromStorage. cbn -[sortedKeys].
  rewrite lookup_insert_eq.
  destruct (String.eqb_spec (stringify (own (presets u))) "") as [E|E];
    [exfalso; exact (stringify_nonempty _ E)|].
  rewrite parse_stringify. cbn -[sortedKeys]. repeat split.
Qed.

(** C34. A stored value that does not parse empties the presets: the
    exception of [JSON.parse] is caught and [presets] becomes [{}]. *)
Theorem loadPresetsFromStorage_corrupt t u s :
  storage u !! presetsKey = Some s -> s <> "" -> parse s = None ->
  let r := loadPresetsFromStorage t u in
  own (presets r) = ∅ /\ presetOptions r = [] /\ carList r = [].
Proof.
  intros Hs Hne Hp. unfold loadPresetsFromStorage. rewrite Hs.
  destruct (String.eqb_spec s "") as [E|E]; [contradiction|]. rewrite Hp. repeat split.
Qed.

End Properties.

(** ** Witnesses, with the length codec *)

Definition ex_page (name : string) (o : presets_obj) (sel : string) : preset_ui :=
  mkPresetUi o ∅ [] sel "" [] name "75" "11" "90" true [].

Definition tesla : presets_obj := mkPresets {[ "Tesla" := mkPreset "75" "11" "90" ]} None.

Lemma savePreset_spec_witness :
  own (presets (savePreset ∅ (ex_page "  Tesla " empty_presets "")))
  = {[ "Tesla" := mkPreset "75" "11" "90" ]}.
Proof.
  refine (proj1 (savePreset_spec ∅ (ex_page "  Tesla " empty_presets "") _ _));
    vm_compute; discriminate.
Defined.

Lemma savePreset_proto_witness :
  proto (presets (savePreset ∅ (ex_page "__proto__" empty_presets "")))
  = Some (mkPreset "75" "11" "90").
Proof.
  refine (proj1 (proj2 (savePreset_proto ∅ (ex_page "__proto__" empty_presets "") _ _)));
    reflexivity.
Defined.

Lemma deletePreset_selected_witness :
  batteryCapacityField (deletePreset ∅ "Tesla" true (ex_page "" tesla "Tesla")) = "75".
Proof.
  refine (proj1 (proj2 (proj2 (deletePreset_selected ∅ "Tesla" (ex_page "" tesla "Tesla") _ _))));
    [reflexivity|discriminate].
Defined.

Lemma loadPresetsFromStorage_corrupt_witness :
  own (presets (loadPresetsFromStorage ∅
    (mkPresetUi tesla {[ presetsKey := "not json" ]} [] "" "" [] "" "77" "11" "90" false [])))
  = ∅.
Proof.
  refine (proj1 (loadPresetsFromStorage_corrupt ∅
    (mkPresetUi tesla {[ presetsKey := "not json" ]} [] "" "" [] "" "77" "11" "90" false [])
    "not json" _ _ _)); [reflexivity|discriminate|vm_compute; reflexivity].
Defined.

End Presets.
