(* ===== verification/Settings.v ===== *)
(** The two preferences of the settings modal (src/script.js, lines
    95-112): the checkboxes [#taxRefundCheckbox] and [#showGraphCheckbox],
    saved to localStorage on every change as the strings ["true"] or
    ["false"], and read back at start-up, where only ["true"] changes the
    checkbox. localStorage is a map from key to string. *)

From Stdlib Require Import String.
From stdpp Require Import base gmap strings.

Module Settings.

Local Open Scope string_scope.

Definition taxRefundKey : string := "evChargeTaxRefund".
Definition showGraphKey : string := "evChargeShowGraph".

(** The checkboxes' [checked] properties. *)
Record settings := mkSettings {
  taxRefundChecked : bool;
  showGraphChecked : bool }.

(** [localStorage.setItem(key, checked)] stores [String(checked)]. *)
Definition bool_to_string (b : bool) : string := if b then "true" else "false".

Definition saveSetting (key : string) (checked : bool) (st : gmap string string)
  : gmap string string :=
  <[key := bool_to_string checked]> st.

(** Lines 106-108. *)
Definition saveTaxRefundSetting (s : settings) (st : gmap string string) : gmap string string :=
  saveSetting taxRefundKey (taxRefundChecked s) st.

(** Lines 110-112. *)
Definition saveGraphSetting (s : settings) (st : gmap string string) : gmap string string :=
  saveSetting showGraphKey (showGraphChecked s) st.

(** [if (localStorage.getItem(key) === 'true') checkbox.checked = true]:
    any other value, or none, leaves the checkbox as it is. *)
Definition loadSetting (key : string) (st : gmap string string) (checked : bool) : bool :=
  match st !! key with
  | Some v => if String.eqb v "true" then true else checked
  | None => checked
  end.

(** Lines 95-103, the end of [loadPresetsFromStorage]. *)
Definition loadSettings (st : gmap string string) (s : settings) : settings :=
  mkSettings (loadSetting taxRefundKey st (taxRefundChecked s))
    (loadSetting showGraphKey st (showGraphChecked s)).

(** ** Properties *)

Lemma loadSetting_saveSetting key b st checked :
  loadSetting key (saveSetting key b st) checked = b || checked.
Proof. unfold loadSetting, saveSetting. rewrite lookup_insert_eq. now destruct b. Qed.

Lemma loadSetting_saveSetting_ne key key' b st checked :
  key <> key' -> loadSetting key' (saveSetting key b st) checked = loadSetting key' st checked.
Proof. intros Hne. unfold loadSetting, saveSetting. now rewrite lookup_insert_ne. Qed.

Lemma taxRefundKey_showGraphKey : taxRefundKey <> showGraphKey.
Proof. discriminate. Qed.

#[export] Hint Resolve taxRefundKey_showGraphKey : core.

(** C22. Saving both checkboxes and reading them back over unchecked
    defaults (a reload of a page whose checkboxes start unchecked) gives
    the saved settings; the two keys do not interfere. *)
Theorem settings_roundtrip s st :
  loadSettings (saveGraphSetting s (saveTaxRefundSetting s st)) (mkSettings false false) = s.
Proof.
  destruct s as [tax graph]. unfold loadSettings, saveGraphSetting, saveTaxRefundSetting. cbn [taxRefundChecked showGraphChecked].
  rewrite loadSetting_saveSetting_ne by auto.
  rewrite !loadSetting_saveSetting, !orb_false_r. reflexivity.
Qed.

(** C36. A checkbox that starts checked is checked after the reading,
    whatever localStorage holds, the ["false"] its last change saved
    included: the reading only ever sets [checked] to true. *)
Theorem loadSetting_cannot_uncheck key st :
  loadSetting key st true = true.
Proof.
  unfold loadSetting. destruct (st !! key) as [v|]; [|reflexivity].
  now destruct (String.eqb v "true").
Qed.

End Settings.
