(* ===== verification/Shell.v ===== *)
(** The whole page (src/script.js, lines 1-62 and 225-230): [init] and
    the event listeners [setupEventListeners] installs, composed from the
    components. One state [app] holds what every handler reads and
    writes: the language and the texts ([Localization]), the presets,
    localStorage, the preset dropdown, the car list, the form fields, the
    modal and the dialogs ([Presets]), the two checkboxes ([Settings]),
    the two state-of-charge fields, and the result and price area
    ([PriceFlow]). [handle] runs the listener of one event; the page's
    runs are the states [reachable] from [init] by events. The answers of
    the price service are events too ([EvSettle]), so that several
    requests can be in flight and settle in any order. *)

From Stdlib Require Import QArith ZArith String List.
From stdpp Require Import base gmap strings.
From S2P Require Import Prelude JsNumber JsString JsDate ChargeForm PriceFlow.
From S2P Require Import Localization Modal Presets Settings.
Import ListNotations.

Module Shell.
Import Form PriceFlow Localization Presets Settings.

Local Open Scope string_scope.

(** The state of the page. *)
Record app := mkApp {
  ui : ui_state;
  form : preset_ui;
  prefs : settings;
  currentSocField : string;
  targetSocField : string;
  price : page;
  targetSocError : bool;    (* the class [error] of #targetSoc *)
  errorTimers : nat }.      (* the timers of line 430 not yet run *)

(** What the HTML page holds before [init] runs: the texts of the
    elements [updateUI] writes, the values of the two state-of-charge
    fields and whether each checkbox starts checked. *)
Record html_defaults := mkHtml {
  htmlTexts : gmap string string;
  htmlCurrentSoc : string;
  htmlTargetSoc : string;
  htmlChecks : settings }.

(** The fields a user types into. *)
Inductive field := FCurrentSoc | FTargetSoc | FBattery | FPower | FEfficiency | FCarName.

(** The events the listeners of lines 49-61 answer, and the answers of
    the price service. *)
Inductive event :=
| EvOpenSettings                                   (* .settings-btn click *)
| EvToggleSettings                                 (* .close-modal click *)
| EvCloseSettings (target : Modal.click_target)    (* #settingsModal click *)
| EvSelectPreset (v : string)                      (* #presetSelect change *)
| EvChangeLanguage (v : string)                    (* #languageSelect change *)
| EvTaxRefund (checked : bool)                     (* #taxRefundCheckbox change *)
| EvShowGraph (checked : bool)                     (* #showGraphCheckbox change *)
| EvInput (f : field) (v : string)                 (* typing into a field *)
| EvSavePreset                                     (* #btnSave click *)
| EvDeletePreset (name : string) (confirmed : bool) (* a delete icon, and the confirm *)
| EvSubmit                                         (* #chargeForm submit *)
| EvSettle (k : nat) (now : Z) (fr : fetch_result) (* the k-th request in flight settles *)
| EvErrorTimeout.                                  (* a timer of line 430 runs *)

Definition set_ui (x : ui_state) (s : app) : app :=
  mkApp x (form s) (prefs s) (currentSocField s) (targetSocField s) (price s)
    (targetSocError s) (errorTimers s).
Definition set_form (u : preset_ui) (s : app) : app :=
  mkApp (ui s) u (prefs s) (currentSocField s) (targetSocField s) (price s)
    (targetSocError s) (errorTimers s).
Definition set_prefs (p : settings) (s : app) : app :=
  mkApp (ui s) (form s) p (currentSocField s) (targetSocField s) (price s)
    (targetSocError s) (errorTimers s).
Definition set_soc (c t : string) (s : app) : app :=
  mkApp (ui s) (form s) (prefs s) c t (price s)
    (targetSocError s) (errorTimers s).
Definition set_price (p : page) (s : app) : app :=
  mkApp (ui s) (form s) (prefs s) (currentSocField s) (targetSocField s) p
    (targetSocError s) (errorTimers s).

Definition set_error (b : bool) (n : nat) (s : app) : app :=
  mkApp (ui s) (form s) (prefs s) (currentSocField s) (targetSocField s) (price s) b n.

Definition set_modal (b : bool) (u : preset_ui) : preset_ui :=
  mkPresetUi (presets u) (storage u) (presetOptions u) (presetSelectValue u) (customOptionText u) (carList u)
    (carNameInput u) (batteryCapacityField u) (chargePowerField u)
    (chargeEfficiencyField u) b (dialogs u).

Definition set_storage (st : gmap string string) (u : preset_ui) : preset_ui :=
  mkPresetUi (presets u) st (presetOptions u) (presetSelectValue u) (customOptionText u) (carList u)
    (carNameInput u) (batteryCapacityField u) (chargePowerField u)
    (chargeEfficiencyField u) (modalShown u) (dialogs u).

Definition set_car_name (v : string) (u : preset_ui) : preset_ui :=
  mkPresetUi (presets u) (storage u) (presetOptions u) (presetSelectValue u) (customOptionText u) (carList u)
    v (batteryCapacityField u) (chargePowerField u)
    (chargeEfficiencyField u) (modalShown u) (dialogs u).

Section Page.
Context `{PresetCodec}.

(** [allTranslations] once [init] has set it, the browser's time zone and
    the HTML page. *)
Variable allTranslations : gmap string (gmap string string).
Variable zone0 : zone.
Variable html : html_defaults.

(** [allTranslations[currentLanguage] || allTranslations['en'] || {}]. *)
Definition table (s : app) : gmap string string :=
  tableFor allTranslations (currentLanguage (ui s)).

Definition env_of (s : app) : env :=
  mkEnv zone0 (table s) (taxRefundChecked (prefs s)) (showGraphChecked (prefs s)).

(** Lines 420-424. *)
Definition formInput (s : app) : form_input :=
  mkInput (JsString.parseFloat (currentSocField s)) (JsString.parseFloat (targetSocField s))
    (JsString.parseFloat (batteryCapacityField (form s)))
    (JsString.parseFloat (chargePowerField (form s)))
    (JsString.parseFloat (chargeEfficiencyField (form s))).

(** A value typed into a field; the number fields sanitize it. *)
Definition typeInto (f : field) (v : string) (s : app) : app :=
  let u := form s in
  let v' := JsString.sanitize v in
  match f with
  | FCurrentSoc => set_soc v' (targetSocField s) s
  | FTargetSoc => set_soc (currentSocField s) v' s
  | FBattery => set_form (with_fields v' (chargePowerField u) (chargeEfficiencyField u) u) s
  | FPower => set_form (with_fields (batteryCapacityField u) v' (chargeEfficiencyField u) u) s
  | FEfficiency => set_form (with_fields (batteryCapacityField u) (chargePowerField u) v' u) s
  | FCarName => set_form (set_car_name v u) s
  end.

(** Lines 65-68. *)
Definition openSettings (s : app) : app :=
  set_form (updateCarList (set_modal (Modal.openSettings (modalShown (form s))) (form s))) s.

(** Lines 225-230: [updateUI], then [updatePresetDropdown] with the new
    language's table. *)
Definition changeLanguage (v : string) (s : app) : app :=
  let s1 := set_ui (updateUI allTranslations (mkUi v v (texts (ui s)))) s in
  set_form (updateCarList (updatePresetDropdown (table s1) (form s1))) s1.

(** Lines 417-438 and 460-466: the two alerts, or the result and the
    request. In exact arithmetic an accepted charge has a finite energy
    and time once the fields are sanitized ([fields_ok_from_fields] and
    [Form.charged_pos]), so the last case is not reached and is left as a
    no-op; in doubles it is reached (a capacity of 1e308 overflows, see
    [Double.calculateChargingTime_double_overflow]), which the exact page
    does not follow. *)
Definition submit (s : app) : app :=
  let t := table s in
  match calculateChargingTime (formInput s) with
  | InvalidRange =>
      set_error true (S (errorTimers s))
        (set_form (show_dialog (tr t "errorInvalidRange"
                     "Target charge must be higher than current charge") (form s)) s)
  | InvalidValues =>
      set_form (show_dialog (tr t "errorInvalidValues" "Please check your input values") (form s)) s
  | Charged (Fin e) (Fin tm) _ _ txt => set_price (submitCharge (env_of s) txt e tm (price s)) s
  | Charged _ _ _ _ _ => s
  end.

(** [setTimeout(() => targetSoc.classList.remove('error'), 500)]: a
    timer removes the class, whichever submission set it. *)
Definition errorTimeout (s : app) : app :=
  match errorTimers s with
  | O => s
  | S n => set_error false n s
  end.

(** The answer to the [k]-th request in flight. *)
Definition settle (k : nat) (now : Z) (fr : fetch_result) (s : app) : app :=
  match nth_error (pending (price s)) k with
  | Some r =>
      set_price (fetchSettle (env_of s) now r fr
                   (set_pending (firstn k (pending (price s)) ++ skipn (S k) (pending (price s)))
                      (price s))) s
  | None => s
  end.

(** The listeners. A change of the preset dropdown selects one of its
    options; a delete icon exists for each name of the car list. *)
Definition handle (s : app) (ev : event) : app :=
  match ev with
  | EvOpenSettings => openSettings s
  | EvToggleSettings => set_form (set_modal (Modal.toggleSettings (modalShown (form s))) (form s)) s
  | EvCloseSettings target =>
      set_form (set_modal (Modal.closeSettings target (modalShown (form s))) (form s)) s
  | EvSelectPreset v =>
      if bool_decide (v ∈ "" :: presetOptions (form s))
      then set_form (loadPreset (with_select v (form s))) s else s
  | EvChangeLanguage v => changeLanguage v s
  | EvTaxRefund b =>
      let p := mkSettings b (showGraphChecked (prefs s)) in
      set_form (set_storage (saveTaxRefundSetting p (storage (form s))) (form s)) (set_prefs p s)
  | EvShowGraph b =>
      let p := mkSettings (taxRefundChecked (prefs s)) b in
      set_form (set_storage (saveGraphSetting p (storage (form s))) (form s)) (set_prefs p s)
  | EvInput f v => typeInto f v s
  | EvSavePreset => set_form (savePreset (table s) (form s)) s
  | EvDeletePreset name confirmed =>
      if bool_decide (name ∈ carList (form s))
      then set_form (deletePreset (table s) name confirmed (form s)) s else s
  | EvSubmit => submit s
  | EvSettle k now fr => settle k now fr s
  | EvErrorTimeout => errorTimeout s
  end.

(** Lines 32-45: [detectLanguage], then [loadPresetsFromStorage] over the
    page as the HTML has it and the stored [st]; [nav] is
    [navigator.language]. The HTML values of the number fields are
    sanitized by the parser. *)
Definition init (nav : string) (st : gmap string string) : app :=
  let x := detectLanguage allTranslations nav (mkUi "en" "en" (htmlTexts html)) in
  mkApp x (loadPresetsFromStorage (tableFor allTranslations (currentLanguage x)) (fresh_page st))
    (loadSettings st (htmlChecks html))
    (JsString.sanitize (htmlCurrentSoc html)) (JsString.sanitize (htmlTargetSoc html))
    initial_page false 0.

Inductive reachable : app -> Prop :=
| reach_init nav st : reachable (init nav st)
| reach_step s ev : reachable s -> reachable (handle s ev).

End Page.

(** ** Invariants of the preset part *)

(** The dropdown and the car list show the own keys of [presets], and the
    dropdown selects the custom option or one of them. *)
Definition synced (u : preset_ui) : Prop :=
  presetOptions u = sortedKeys (presets u) /\ carList u = sortedKeys (presets u)
  /\ (presetSelectValue u = "" \/ is_Some (own (presets u) !! presetSelectValue u)).

(** What a reload would read from localStorage. *)
Definition stored_presets `{PresetCodec} (st : gmap string string) : gmap string Preset :=
  match st !! presetsKey with
  | Some v => if String.eqb v "" then ∅ else match parse v with Some m => m | None => ∅ end
  | None => ∅
  end.

(** localStorage holds the presets the page shows. *)
Definition persisted `{PresetCodec} (u : preset_ui) : Prop :=
  stored_presets (storage u) = own (presets u).

(** The three number fields of the preset part hold sanitized values. *)
Definition sanitized (u : preset_ui) : Prop :=
  JsString.sanitize (batteryCapacityField u) = batteryCapacityField u
  /\ JsString.sanitize (chargePowerField u) = chargePowerField u
  /\ JsString.sanitize (chargeEfficiencyField u) = chargeEfficiencyField u.

Lemma sortedKeys_elem o k : k ∈ sortedKeys o -> is_Some (own o !! k).
Proof.
  intros Hk. destruct (own o !! k) eqn:E; [eauto|].
  exfalso. exact (not_in_sortedKeys o k E Hk).
Qed.

Lemma dropdown_synced t u : synced (updateCarList (updatePresetDropdown t u)).
Proof.
  split; [reflexivity|split; [reflexivity|]]. cbn.
  case_bool_decide; [now right|now left].
Qed.

Section Codec.
Context `{PresetCodec}.

Lemma savePresetsToStorage_synced t u : synced (savePresetsToStorage t u).
Proof. apply dropdown_synced. Qed.

Lemma savePresetsToStorage_persisted t u : persisted (savePresetsToStorage t u).
Proof.
  unfold persisted, stored_presets. cbn. rewrite lookup_insert_eq.
  destruct (String.eqb_spec (stringify (own (presets u))) "") as [E|_];
    [exfalso; exact (stringify_nonempty _ E)|].
  now rewrite parse_stringify.
Qed.

Lemma loadPresetsFromStorage_synced t u : synced (loadPresetsFromStorage t u).
Proof. apply dropdown_synced. Qed.

Lemma loadPresetsFromStorage_fresh t st :
  own (presets (loadPresetsFromStorage t (fresh_page st))) = stored_presets st
  /\ storage (loadPresetsFromStorage t (fresh_page st)) = st.
Proof.
  unfold loadPresetsFromStorage, stored_presets. cbn -[sortedKeys].
  destruct (st !! presetsKey) as [v|]; [|split; reflexivity].
  destruct (String.eqb v ""); [split; reflexivity|]. now destruct (parse v).
Qed.

Lemma savePreset_inv t u :
  synced u -> persisted u -> synced (savePreset t u) /\ persisted (savePreset t u).
Proof.
  intros Hs Hp. unfold savePreset. destruct (String.eqb (trim (carNameInput u)) "") eqn:En;
    [split; assumption|]. cbv zeta.
  set (u2 := savePresetsToStorage t _).
  pose proof (savePresetsToStorage_synced t (with_presets (set_preset (trim (carNameInput u))
    (mkPreset (batteryCapacityField u) (chargePowerField u) (chargeEfficiencyField u))
    (presets u)) u)) as (Ho & Hc & _).
  pose proof (savePresetsToStorage_persisted t (with_presets (set_preset (trim (carNameInput u))
    (mkPreset (batteryCapacityField u) (chargePowerField u) (chargeEfficiencyField u))
    (presets u)) u)) as Hp2.
  fold u2 in Ho, Hc, Hp2. split; [|exact Hp2].
  split; [exact Ho|split; [exact Hc|]]. cbn [presetSelectValue presets]. unfold select_set.
  case_bool_decide as Hin; [|now left].
  apply elem_of_cons in Hin as [->|Hin]; [now left|right].
  rewrite Ho in Hin. now apply sortedKeys_elem.
Qed.

Lemma deletePreset_inv t name c u :
  synced u -> persisted u ->
  synced (deletePreset t name c u) /\ persisted (deletePreset t name c u).
Proof.
  intros Hs Hp. unfold deletePreset. destruct c; [|split; assumption]. cbv zeta.
  set (u1 := savePresetsToStorage t _).
  assert (Hs1 : synced u1) by apply savePresetsToStorage_synced.
  assert (Hp1 : persisted u1) by apply savePresetsToStorage_persisted.
  destruct (String.eqb (presetSelectValue u1) name); [|split; assumption].
  destruct Hs1 as (Ho & Hc & _). split; [|exact Hp1].
  split; [exact Ho|split; [exact Hc|now left]].
Qed.

Lemma loadPresetsFromStorage_fields t u :
  batteryCapacityField (loadPresetsFromStorage t u) = batteryCapacityField u
  /\ chargePowerField (loadPresetsFromStorage t u) = chargePowerField u
  /\ chargeEfficiencyField (loadPresetsFromStorage t u) = chargeEfficiencyField u.
Proof.
  unfold loadPresetsFromStorage. destruct (storage u !! presetsKey) as [v|]; [|repeat split].
  destruct (String.eqb v ""); [repeat split|]. destruct (parse v); repeat split.
Qed.

Lemma stored_presets_insert_ne k v st :
  k <> presetsKey -> stored_presets (<[k := v]> st) = stored_presets st.
Proof. intros Hk. unfold stored_presets. now rewrite lookup_insert_ne by congruence. Qed.

Lemma loadPreset_inv u :
  synced u -> persisted u -> sanitized u ->
  synced (loadPreset u) /\ persisted (loadPreset u) /\ sanitized (loadPreset u).
Proof.
  intros Hs Hp Hf. unfold loadPreset.
  destruct (String.eqb (presetSelectValue u) ""); [auto|].
  destruct (own (presets u) !! presetSelectValue u) as [p|]; [|auto].
  split; [exact Hs|split; [exact Hp|]].
  destruct Hf as (_ & _ & Hf). unfold sanitized; cbn.
  rewrite !JsString.sanitize_idem. split; [reflexivity|split; [reflexivity|]].
  destruct (String.eqb (chargeEfficiency p) ""); [exact Hf|apply JsString.sanitize_idem].
Qed.

Lemma savePreset_sanitized t u : sanitized u -> sanitized (savePreset t u).
Proof. intros Hf. unfold savePreset. now destruct (String.eqb (trim (carNameInput u)) ""). Qed.

Lemma deletePreset_sanitized t name c u : sanitized u -> sanitized (deletePreset t name c u).
Proof.
  intros Hf. unfold deletePreset. destruct c; [|exact Hf]. cbv zeta.
  destruct (String.eqb _ name); [|exact Hf]. split; [|split]; reflexivity.
Qed.

End Codec.

(** The invariant of the page. *)
Definition fields_ok (s : app) : Prop :=
  JsString.sanitize (currentSocField s) = currentSocField s
  /\ JsString.sanitize (targetSocField s) = targetSocField s /\ sanitized (form s).

Definition app_inv `{PresetCodec} (s : app) : Prop :=
  synced (form s) /\ persisted (form s) /\ fields_ok s.

Lemma fields_ok_from_fields s : fields_ok s -> from_fields (formInput s) = true.
Proof.
  intros (Hc & Ht & Hb & Hp & He). unfold from_fields, formInput. cbn.
  rewrite <- Hc, <- Ht, <- Hb, <- Hp, <- He, !JsString.sanitize_finite_or_nan. reflexivity.
Qed.

Section Invariants.
Context `{PresetCodec}.
Variable allTranslations : gmap string (gmap string string).
Variable zone0 : zone.
Variable html : html_defaults.

Lemma init_inv nav st : app_inv (init allTranslations html nav st).
Proof.
  destruct (loadPresetsFromStorage_fresh (tableFor allTranslations
    (currentLanguage (detectLanguage allTranslations nav (mkUi "en" "en" (htmlTexts html))))) st)
    as [Ho Hst].
  destruct (loadPresetsFromStorage_fields (tableFor allTranslations
    (currentLanguage (detectLanguage allTranslations nav (mkUi "en" "en" (htmlTexts html)))))
    (fresh_page st)) as (Hb & Hp & He).
  split; [apply loadPresetsFromStorage_synced|split].
  - unfold persisted. cbn [form init]. now rewrite Hst, Ho.
  - split; [apply JsString.sanitize_idem|split; [apply JsString.sanitize_idem|]].
    unfold sanitized. cbn [form init]. rewrite Hb, Hp, He. split; [|split]; reflexivity.
Qed.

Lemma handle_inv s ev : app_inv s -> app_inv (handle allTranslations zone0 s ev).
Proof.
  intros (Hs & Hp & Hf). destruct ev; cbn [handle].
  - (* open *) split; [|split; assumption]. destruct Hs as (Ho & _ & Hsel).
    split; [exact Ho|split; [reflexivity|exact Hsel]].
  - split; [|split]; assumption.
  - split; [|split]; assumption.
  - (* select *) case_bool_decide as Hin; [|split; [|split]; assumption].
    destruct Hf as (Hc & Ht & Hf).
    assert (Hs' : synced (with_select v (form s))).
    { destruct Hs as (Ho & Hl & _). split; [exact Ho|split; [exact Hl|]]. cbn.
      apply elem_of_cons in Hin as [->|Hin]; [now left|right].
      rewrite Ho in Hin. now apply sortedKeys_elem. }
    destruct (loadPreset_inv (with_select v (form s)) Hs' Hp Hf) as (? & ? & ?).
    split; [|split; [|split; [|split]]]; assumption.
  - (* language *) split; [apply dropdown_synced|split; assumption].
  - (* tax refund *) split; [exact Hs|split; [|exact Hf]].
    unfold persisted. cbn. unfold saveTaxRefundSetting, saveSetting.
    rewrite stored_presets_insert_ne by discriminate. exact Hp.
  - (* show graph *) split; [exact Hs|split; [|exact Hf]].
    unfold persisted. cbn. unfold saveGraphSetting, saveSetting.
    rewrite stored_presets_insert_ne by discriminate. exact Hp.
  - (* typing *) destruct Hf as (Hc & Ht & Hb & Hw & He).
    destruct f; cbn; (split; [exact Hs|split; [exact Hp|]]);
      repeat split; cbn; try assumption; apply JsString.sanitize_idem.
  - (* save *) destruct Hf as (Hc & Ht & Hf). destruct (savePreset_inv (table allTranslations s) (form s) Hs Hp).
    split; [|split; [|split; [|split]]]; try assumption. now apply savePreset_sanitized.
  - (* delete *) case_bool_decide; [|split; [|split]; assumption].
    destruct Hf as (Hc & Ht & Hf).
    destruct (deletePreset_inv (table allTranslations s) name confirmed (form s) Hs Hp).
    split; [|split; [|split; [|split]]]; try assumption. now apply deletePreset_sanitized.
  - (* submit *) unfold submit. destruct (calculateChargingTime (formInput s)) as [| |e t ? ? ?];
      [..|destruct e, t]; exact (conj Hs (conj Hp Hf)).
  - (* settle *) unfold settle. destruct (nth_error _ k); exact (conj Hs (conj Hp Hf)).
  - (* timer *) unfold errorTimeout. destruct (errorTimers s); exact (conj Hs (conj Hp Hf)).
Qed.

Lemma reachable_app_inv s : reachable allTranslations zone0 html s -> app_inv s.
Proof. induction 1; [apply init_inv|now apply handle_inv]. Qed.

Lemma nth_error_firstn_skipn {A} (l : list A) k x :
  nth_error l k = Some x -> l = (firstn k l ++ x :: skipn (S k) l)%list.
Proof. intros Hk. rewrite <- (skipn_cons_nth l k x Hk). symmetry. apply firstn_skipn. Qed.

(** Every event leaves the result area as it is or is a step of the price
    flow: a submission the form accepts, or the answer to a request in
    flight. *)
Lemma handle_price_step s ev :
  app_inv s ->
  price (handle allTranslations zone0 s ev) = price s
  \/ PriceFlow.step (price s) (price (handle allTranslations zone0 s ev)).
Proof.
  intros (_ & _ & Hf). destruct ev; cbn [handle]; try (left; reflexivity);
    try (case_bool_decide; left; reflexivity); try (destruct f; left; reflexivity);
    try (unfold errorTimeout; destruct (errorTimers s); left; reflexivity).
  - unfold submit. destruct (calculateChargingTime (formInput s)) as [| |e t h m txt] eqn:Hc;
      try (left; reflexivity).
    destruct e, t; try (left; reflexivity). right.
    eapply StepSubmit; [apply fields_ok_from_fields, Hf|exact Hc].
  - unfold settle. destruct (nth_error (pending (price s)) k) as [r|] eqn:Hk; [|left; reflexivity].
    right. apply StepSettle. exact (nth_error_firstn_skipn _ _ _ Hk).
Qed.

(** The custom option of the dropdown reads the current language's
    [optionCustom], or the English default when that text is missing or
    empty. *)
Definition custom_ok (s : app) : Prop :=
  customOptionText (form s) = tr (table allTranslations s) "optionCustom" "-- Custom / New --".

Lemma savePreset_custom t u :
  customOptionText (savePreset t u) = customOptionText u
  \/ customOptionText (savePreset t u) = tr t "optionCustom" "-- Custom / New --".
Proof. unfold savePreset. destruct (String.eqb _ ""); [now left|now right]. Qed.

Lemma deletePreset_custom t name c u :
  customOptionText (deletePreset t name c u) = customOptionText u
  \/ customOptionText (deletePreset t name c u) = tr t "optionCustom" "-- Custom / New --".
Proof.
  unfold deletePreset. destruct c; [|now left]. cbv zeta.
  destruct (String.eqb _ name); now right.
Qed.

Lemma loadPreset_custom u : customOptionText (loadPreset u) = customOptionText u.
Proof.
  unfold loadPreset. destruct (String.eqb _ ""); [reflexivity|].
  now destruct (own (presets u) !! presetSelectValue u).
Qed.

Lemma handle_custom s ev : custom_ok s -> custom_ok (handle allTranslations zone0 s ev).
Proof.
  unfold custom_ok. intros Hc. destruct ev; cbn [handle].
  - exact Hc.
  - exact Hc.
  - exact Hc.
  - case_bool_decide; [|exact Hc]. cbn [form set_form]. now rewrite loadPreset_custom.
  - reflexivity.
  - exact Hc.
  - exact Hc.
  - destruct f; exact Hc.
  - cbn [form set_form]. destruct (savePreset_custom (table allTranslations s) (form s)) as [E|E];
      rewrite E; [exact Hc|reflexivity].
  - case_bool_decide; [|exact Hc]. cbn [form set_form].
    destruct (deletePreset_custom (table allTranslations s) name confirmed (form s)) as [E|E];
      rewrite E; [exact Hc|reflexivity].
  - unfold submit. destruct (calculateChargingTime _) as [| |e t ? ? ?]; [exact Hc|exact Hc|].
    destruct e, t; exact Hc.
  - unfold settle. destruct (nth_error _ k); exact Hc.
  - unfold errorTimeout. destruct (errorTimers s); exact Hc.
Qed.

(** ** Properties of the page *)

(** C5. On every reachable page the preset dropdown and the car list
    show exactly the sorted own keys of [presets], and the dropdown
    selects the custom option or a saved preset. *)
Theorem reachable_synced s :
  reachable allTranslations zone0 html s ->
  presetOptions (form s) = sortedKeys (presets (form s))
  /\ carList (form s) = sortedKeys (presets (form s))
  /\ (presetSelectValue (form s) = "" \/ is_Some (own (presets (form s)) !! presetSelectValue (form s))).
Proof. intros Hr. exact (proj1 (reachable_app_inv s Hr)). Qed.

(** C6. On every reachable page the presets survive a reload: what
    [loadPresetsFromStorage] reads from localStorage on a fresh page, in
    any language, is the presets the page holds. *)
Theorem reachable_persisted s t :
  reachable allTranslations zone0 html s ->
  own (presets (loadPresetsFromStorage t (fresh_page (storage (form s))))) = own (presets (form s)).
Proof.
  intros Hr. destruct (reachable_app_inv s Hr) as (_ & Hp & _).
  rewrite (proj1 (loadPresetsFromStorage_fresh t _)). exact Hp.
Qed.

(** C10. The result area of every reachable page is a page the price
    flow reaches: the composed page refines [PriceFlow.step], so the
    properties of the price flow hold for it. *)
Theorem reachable_price s :
  reachable allTranslations zone0 html s -> PriceFlow.reachable (price s).
Proof.
  induction 1 as [nav st|s ev Hr IH]; [apply PriceFlow.reach_init|].
  destruct (handle_price_step s ev (reachable_app_inv s Hr)) as [E|Hs];
    [rewrite E; exact IH|exact (PriceFlow.reach_step _ _ IH Hs)].
Qed.

(** The error class of [#targetSoc] is set only with a timer pending. *)
Definition error_ok (s : app) : Prop :=
  targetSocError s = true -> (0 < errorTimers s)%nat.

Lemma handle_error s ev : error_ok s -> error_ok (handle allTranslations zone0 s ev).
Proof.
  unfold error_ok. intros He. destruct ev; cbn [handle]; try exact He;
    try (case_bool_decide; exact He); try (destruct f; exact He).
  - unfold submit. destruct (calculateChargingTime _) as [| |e t ? ? ?]; [cbn; lia|exact He|].
    destruct e, t; exact He.
  - unfold settle. destruct (nth_error _ k); exact He.
  - unfold errorTimeout. destruct (errorTimers s) eqn:E; [rewrite E; exact He|discriminate].
Qed.

(** C16. On every reachable page the custom option of the preset
    dropdown shows the current language's [optionCustom] text, or
    "-- Custom / New --" when that language has none or an empty one:
    each rebuild of the dropdown (at start-up, on a change of language,
    after a save or a confirmed deletion) writes it from the current
    table, so unlike the texts [updateUI] writes it never keeps the
    previous language's text. *)
Theorem reachable_custom_option s :
  reachable allTranslations zone0 html s ->
  customOptionText (form s) = tr (table allTranslations s) "optionCustom" "-- Custom / New --".
Proof. induction 1 as [nav st|s ev Hr IH]; [reflexivity|exact (handle_custom s ev IH)]. Qed.

(** C17. On every reachable page the red [error] class of [#targetSoc]
    is on only while one of the 500 ms timers that remove it is pending:
    every out-of-range submission that sets it schedules its removal, so
    it never stays for good. *)
Theorem reachable_error_timer s :
  reachable allTranslations zone0 html s ->
  targetSocError s = true -> (0 < errorTimers s)%nat.
Proof.
  induction 1 as [nav st|s ev Hr IH]; [discriminate|exact (handle_error s ev IH)].
Qed.

End Invariants.

(** ** Witnesses *)

Definition ex_translations : gmap string (gmap string string) :=
  {[ "da" := {[ "title" := "Elbil opladning" ]}; "en" := ∅ ]}.

Definition ex_html : html_defaults := mkHtml ∅ "20" "80" (mkSettings false false).

(** A Danish browser opens the page, saves a car, and submits the form. *)
Definition ex_start : app := init ex_translations ex_html "da-DK" ∅.
Definition ex_saved : app :=
  handle ex_translations (fixed_zone 0) (handle ex_translations (fixed_zone 0) ex_start
    (EvInput FCarName " Tesla ")) EvSavePreset.
Definition ex_submitted : app := handle ex_translations (fixed_zone 0) ex_saved EvSubmit.
(** A target below the current charge, submitted. *)
Definition ex_invalid : app :=
  handle ex_translations (fixed_zone 0)
    (handle ex_translations (fixed_zone 0) ex_saved (EvInput FTargetSoc "10")) EvSubmit.

Lemma ex_saved_reachable : reachable ex_translations (fixed_zone 0) ex_html ex_saved.
Proof. exact (reach_step _ _ _ _ _ (reach_step _ _ _ _ _ (reach_init _ _ _ _ _))). Qed.

Lemma ex_submitted_reachable : reachable ex_translations (fixed_zone 0) ex_html ex_submitted.
Proof. exact (reach_step _ _ _ _ _ ex_saved_reachable). Qed.

Lemma ex_invalid_reachable : reachable ex_translations (fixed_zone 0) ex_html ex_invalid.
Proof. exact (reach_step _ _ _ _ _ (reach_step _ _ _ _ _ ex_saved_reachable)). Qed.

Lemma reachable_synced_witness :
  presetOptions (form ex_saved) = sortedKeys (presets (form ex_saved))
  /\ carList (form ex_saved) = sortedKeys (presets (form ex_saved))
  /\ (presetSelectValue (form ex_saved) = ""
      \/ is_Some (own (presets (form ex_saved)) !! presetSelectValue (form ex_saved))).
Proof. exact (reachable_synced ex_translations (fixed_zone 0) ex_html ex_saved ex_saved_reachable). Defined.

Lemma reachable_persisted_witness :
  own (presets (loadPresetsFromStorage ∅ (fresh_page (storage (form ex_saved)))))
  = own (presets (form ex_saved)).
Proof. exact (reachable_persisted ex_translations (fixed_zone 0) ex_html ex_saved ∅ ex_saved_reachable). Defined.

Lemma reachable_price_witness : PriceFlow.reachable (price ex_submitted).
Proof. apply (reachable_price ex_translations (fixed_zone 0) ex_html). exact ex_submitted_reachable. Defined.

Lemma reachable_custom_option_witness :
  customOptionText (form ex_saved) = tr (table ex_translations ex_saved) "optionCustom" "-- Custom / New --"
  /\ customOptionText (form ex_saved) = "-- Custom / New --".
Proof.
  split; [|vm_compute; reflexivity].
  exact (reachable_custom_option ex_translations (fixed_zone 0) ex_html ex_saved ex_saved_reachable).
Defined.

Lemma reachable_error_timer_witness :
  targetSocError ex_invalid = true /\ (0 < errorTimers ex_invalid)%nat.
Proof.
  split; [vm_compute; reflexivity|].
  apply (reachable_error_timer ex_translations (fixed_zone 0) ex_html);
    [exact ex_invalid_reachable|vm_compute; reflexivity].
Defined.

(** C18. Two out-of-range submissions in a row schedule two timers, and
    the first one to run removes the class: the second submission's
    highlight goes before its own 500 ms are over, while its timer is
    still pending. *)
Theorem error_early_removal :
  let s := handle ex_translations (fixed_zone 0)
             (handle ex_translations (fixed_zone 0) ex_invalid EvSubmit) EvErrorTimeout in
  targetSocError s = false /\ errorTimers s = 1%nat.
Proof. vm_compute. split; reflexivity. Qed.

(** C19. The tax refund applied to a result is the checkbox's state when
    the prices arrive, not when the form was submitted
    ([processPriceData] reads the box after the [await]): ticking the box
    while the request is in flight gives the result of a submission made
    with the box ticked, not the one the box had at submission. *)
Theorem settle_refund_at_answer :
  let toggled := handle ex_translations (fixed_zone 0) ex_submitted (EvTaxRefund true) in
  let ticked := handle ex_translations (fixed_zone 0)
                  (handle ex_translations (fixed_zone 0) ex_saved (EvTaxRefund true)) EvSubmit in
  let answer s := priceDetails (price (handle ex_translations (fixed_zone 0) s
                                         (EvSettle 0 race_now race_prices))) in
  answer toggled = answer ticked /\ answer toggled <> answer ex_submitted.
Proof. vm_compute. split; [reflexivity|discriminate]. Qed.

End Shell.
